(** * Mint sniper: nonce sequencing, fee selection, submission, retry,
      start-up and the chain listeners

    A shallow embedding of [src/sniper.ts].  The repository holds the program
    twice: a script whose functions live inside [main] (embedded in
    [Module Script]) and a class-based rewrite, [MintSniper] (embedded in
    [Module Sniper]).  Both share the [NonceManager] class, up to the names of
    two methods.

    Conventions:
    - [bigint] values (fees in wei) are [Z]; the nonce counter is a JS number
      that only ever holds integers (a transaction count, incremented by one),
      embedded as [Z];
    - JS numbers that carry fractions (the bump factor, fees in gwei) are
      binary64 floats, [PrimFloat.float];
    - the chain client is an oracle: every awaited call either resolves with a
      value or rejects;
    - an [async] function is a state transformer over the [NonceManager],
      producing an outcome and the list of calls it issued. *)

From Stdlib Require Import ZArith Lia Floats Ascii Sorted.
From stdpp Require Import base gmap strings list.

Open Scope Z_scope.

(** ** NonceManager *)

Record NonceManager := { locked : bool; nonce : Z }.

(** Field initialisers: [locked = false], [nonce = -1]. *)
Definition NonceManager_new : NonceManager := {| locked := false; nonce := -1 |}.

(** [init]: the counter becomes the awaited transaction count. *)
Definition init (count : Z) (m : NonceManager) : NonceManager :=
  {| locked := locked m; nonce := count |}.

(** [getNonce] / [next], one turn of the event loop: the test of the [while],
    and, when the flag is clear, the two statements after the loop, which run
    without suspension.  [None] means the caller went back to sleep for 10 ms. *)
Definition getNonce_poll (m : NonceManager) : option Z * NonceManager :=
  if locked m then (None, m)
  else (Some (nonce m), {| locked := true; nonce := nonce m + 1 |}).

(** A caller polling on its own: nothing else runs between two polls. *)
Fixpoint getNonce_spin (polls : nat) (m : NonceManager) : option Z * NonceManager :=
  match polls with
  | O => (None, m)
  | S k =>
      match getNonce_poll m with
      | (Some n, m') => (Some n, m')
      | (None, m') => getNonce_spin k m'
      end
  end.

Definition release (m : NonceManager) : NonceManager :=
  {| locked := false; nonce := nonce m |}.

(** [syncIfBehind] / [sync], after the transaction count has been fetched. *)
Definition syncIfBehind (onChainNonce : Z) (m : NonceManager) : NonceManager :=
  if onChainNonce >? nonce m then {| locked := locked m; nonce := onChainNonce |}
  else m.

(** ** Interleaved callers of the sequencer

    Attempts are started by event handlers and run on one thread; control
    changes hands only at an [await].  A caller of [getNonce] is therefore
    either asleep in the loop, or past it and holding the flag, or done. *)

Inductive Caller :=
| Waiting
| Holding (n : Z)
| Finished (n : Z).

Record Sequencer := {
  manager : NonceManager;
  callers : list Caller;
  acquired : list Z        (* returned nonces, oldest first *)
}.

(** The scheduler resumes caller [i]. *)
Definition resume (i : nat) (s : Sequencer) : Sequencer :=
  match callers s !! i with
  | Some Waiting =>
      match getNonce_poll (manager s) with
      | (Some n, m') =>
          {| manager := m'; callers := <[i := Holding n]> (callers s);
             acquired := acquired s ++ [n] |}
      | (None, m') =>
          {| manager := m'; callers := callers s; acquired := acquired s |}
      end
  | Some (Holding n) =>
      {| manager := release (manager s); callers := <[i := Finished n]> (callers s);
         acquired := acquired s |}
  | Some (Finished _) | None => s
  end.

Definition run_schedule (schedule : list nat) (s : Sequencer) : Sequencer :=
  foldl (fun s i => resume i s) s schedule.

(** [N] callers enter [getNonce] while the flag is clear and the counter is
    [start]. *)
Definition issue (start : Z) (N : nat) : Sequencer :=
  {| manager := {| locked := false; nonce := start |};
     callers := replicate N Waiting;
     acquired := [] |}.

Definition is_holding (c : Caller) : bool :=
  match c with Holding _ => true | _ => false end.

Definition is_waiting (c : Caller) : bool :=
  match c with Waiting => true | _ => false end.

Definition holders (s : Sequencer) : nat := length (filter is_holding (callers s)).

Definition returned (c : Caller) : option Z :=
  match c with Waiting => None | Holding n | Finished n => Some n end.

(** [start, start+1, ..., start+k-1] *)
Definition consecutive (start : Z) (k : nat) : list Z :=
  (fun i : nat => start + Z.of_nat i) <$> seq 0 k.

(** The first [k] callers served and done, [j] callers still asleep. *)
Definition served (start : Z) (k j : nat) : Sequencer :=
  {| manager := {| locked := false; nonce := start + Z.of_nat k |};
     callers := (Finished <$> consecutive start k) ++ replicate j Waiting;
     acquired := consecutive start k |}.

(** Caller 0 up to the flag and through [release], then caller 1, ... *)
Definition in_turn (k j : nat) : list nat := flat_map (fun i => [i; i]) (seq k j).

(** ** Callers and resyncs interleaved

    Besides resuming a caller, the scheduler may let a resync land: a
    transaction count comes back and [syncIfBehind] / [sync] is applied. *)

Inductive Action :=
| Resume (i : nat)
| Resync (onChainNonce : Z).

Definition act (a : Action) (s : Sequencer) : Sequencer :=
  match a with
  | Resume i => resume i s
  | Resync onChainNonce =>
      {| manager := syncIfBehind onChainNonce (manager s);
         callers := callers s;
         acquired := acquired s |}
  end.

Definition run_actions (actions : list Action) (s : Sequencer) : Sequencer :=
  foldl (fun s a => act a s) s actions.

(** ** Promises

    An awaited promise either resolves with a value or rejects; a call that
    may throw is written the same way. *)

Inductive Reply (A : Type) := Resolves (a : A) | Rejects.
Arguments Resolves {A} a.
Arguments Rejects {A}.

(** ** JS numbers

    A JS number is a binary64 float.  The computations below are written on
    [spec_float], the sign/mantissa/exponent form against which the standard
    library specifies its primitive floats ([Prim2SF], [mul_spec]), with
    [SF64mul] and [SF64div] as the correctly rounded operations. *)

Module Js.

Definition number := spec_float.

(** [Number(ethers.formatUnits(value, decimals))]: [formatUnits] prints the
    exact decimal expansion of [value / 10^decimals]; [Number] reads it back
    as the nearest float. *)
Definition formatUnits_Number (value decimals : Z) : number :=
  match value with
  | Z0 => S754_zero false
  | Zpos p =>
      SF64div (S754_finite false p 0) (S754_finite false (Z.to_pos (10 ^ decimals)) 0)
  | Zneg p =>
      SF64div (S754_finite true p 0) (S754_finite false (Z.to_pos (10 ^ decimals)) 0)
  end.

(** [x * y] *)
Definition mul (x y : number) : number := SF64mul x y.

(** The float holding the integer [c], for [|c| <= 2^53]; [szero] is the
    sign given to zero. *)
Definition Number_of_integer (c : Z) (szero : bool) : number :=
  binary_normalize prec emax c 0 szero.

(** [Math.ceil(x)]: NaN, the infinities, the zeros and the floats without
    fraction bits are returned as they are; [Math.ceil(-0.5)] is [-0]. *)
Definition Math_ceil (x : number) : number :=
  match x with
  | S754_finite s m e =>
      if 0 <=? e then x
      else Number_of_integer (- ((- cond_Zopp s (Zpos m)) / 2 ^ (- e))) s
  | _ => x
  end.

(** [String(x)] prints the shortest decimal that reads back as [x], and the
    one nearest to [x] among those.  For [x = m * 2^e] with [e > 0] the
    decimals reading back as [x] lie within half a gap of [x]; the ends
    are included when [m] is even (ties go to the even mantissa).  Bounds
    are scaled by 4 to stay in [Z]. *)
Definition reads_back (m : positive) (e : Z) (t : Z) : bool :=
  let x4 := 4 * (Zpos m * 2 ^ e) in
  let above := 2 * 2 ^ e in
  let below := if Zpos m =? 2 ^ 52 then 2 ^ e else 2 * 2 ^ e in
  if Z.even (Zpos m)
  then (x4 - below <=? 4 * t) && (4 * t <=? x4 + above)
  else (x4 - below <? 4 * t) && (4 * t <? x4 + above).

(** The multiple of [10^j] that reads back as [m * 2^e], if there is one. *)
Definition nearest_multiple (m : positive) (e : Z) (j : Z) : option Z :=
  let x := Zpos m * 2 ^ e in
  let lo := x / 10 ^ j * 10 ^ j in
  let hi := lo + 10 ^ j in
  match reads_back m e lo, reads_back m e hi with
  | true, true =>
      if x - lo <? hi - x then Some lo
      else if hi - x <? x - lo then Some hi
      else if Z.even (x / 10 ^ j) then Some lo else Some hi
  | true, false => Some lo
  | false, true => Some hi
  | false, false => None
  end.

(** Most trailing zeros first. *)
Fixpoint shortest (m : positive) (e : Z) (j : nat) : Z :=
  match j with
  | O => Zpos m * 2 ^ e
  | S j' =>
      match nearest_multiple m e (Z.of_nat j) with
      | Some t => t
      | None => shortest m e j'
      end
  end.

(** The integer denoted by [String(x)] when that string is a plain integer
    literal: [x] is a zero (both print as "0") or an integer below [10^21]
    in magnitude.  [None] stands for "NaN", "Infinity" and the exponent
    notation used from [10^21] on.  Numbers with a fraction part do not
    reach this function: it is applied to results of [Math_ceil] only. *)
Definition String_integer (x : number) : option Z :=
  match x with
  | S754_zero _ => Some 0
  | S754_finite s m e =>
      if e <? 0 then
        if Zpos m mod 2 ^ (- e) =? 0 then Some (cond_Zopp s (Zpos m / 2 ^ (- e)))
        else None
      else if Zpos m * 2 ^ e <? 10 ^ 21 then
        Some (cond_Zopp s (if e =? 0 then Zpos m else shortest m e 21))
      else None
  | _ => None
  end.

(** [ethers.parseUnits(String(x), decimals)] for [x] out of [Math_ceil]:
    [parseUnits] throws on anything but a decimal literal. *)
Definition parseUnits_String (x : number) (decimals : Z) : Reply Z :=
  match String_integer x with
  | Some t => Resolves (t * 10 ^ decimals)
  | None => Rejects
  end.

(** [ethers.parseUnits(value.toString(), decimals)] for a [bigint] value. *)
Definition parseUnits (value decimals : Z) : Z := value * 10 ^ decimals.

(** [Boolean(x)], [!!x] for a number: false for [0], [-0] and [NaN]. *)
Definition truthy (x : float) : bool := negb (is_nan x || is_zero x).

(** [!p] for [p : bigint | null]. *)
Definition falsy_bigint (p : option Z) : bool :=
  match p with
  | None => true
  | Some v => v =? 0
  end.

(** [v || d] and [v ?? d] on an environment variable. *)
Definition or_else (v : option string) (d : string) : string :=
  match v with
  | Some s => if decide (s = "") then d else s
  | None => d
  end.

Definition coalesce (v : option string) (d : string) : string :=
  match v with
  | Some s => s
  | None => d
  end.

(** [!v] for [v : string | undefined]. *)
Definition falsy_string (v : option string) : bool :=
  match v with
  | Some s => bool_decide (s = "")
  | None => true
  end.

End Js.

Definition gwei : Z := 9.

(** ** Asynchronous functions *)

Inductive Call :=
| getFeeData
| populateTransaction
| sendTransaction
| wait
| getTransactionCount
| parseUnits.

Inductive Error :=
| Error_ (message : string)       (* [new Error(message)] thrown by the program *)
| Rejected (c : Call).            (* thrown by a collaborator *)

(** What an attempt does that the outside can see, in order.  [Attempt] marks
    the entry into [buildAndSendMint]; the others are calls. *)
Inductive Event :=
| Attempt (priorityFee : Z)
| Allocate (n : Z)                       (* [getNonce] / [next] returned [n] *)
| Populate (n : Z) (priorityFee : Z)     (* [contract.mint.populateTransaction] *)
| Send (n : Z) (priorityFee : Z)         (* [wallet.sendTransaction] *)
| Wait                                   (* [sent.wait(1)] *)
| Count                                  (* [provider.getTransactionCount] *)
| Release.

Inductive Outcome (A : Type) :=
| Returned (a : A)
| Threw (e : Error)
| Hung.                                  (* never resumed *)
Arguments Returned {A} a.
Arguments Threw {A} e.
Arguments Hung {A}.

Definition Run (A : Type) : Type :=
  NonceManager -> Outcome A * NonceManager * list Event.

#[export] Instance Run_ret : MRet Run :=
  fun A a m => (Returned a, m, []).

#[export] Instance Run_bind : MBind Run :=
  fun A B k c m =>
    match c m with
    | (Returned a, m', t) => let '(o, m'', t') := k a m' in (o, m'', t ++ t')
    | (Threw e, m', t) => (Threw e, m', t)
    | (Hung, m', t) => (Hung, m', t)
    end.

Definition throw {A} (e : Error) : Run A := fun m => (Threw e, m, []).

Definition emit (ev : Event) : Run unit := fun m => (Returned tt, m, [ev]).

Definition update (f : NonceManager -> NonceManager) : Run unit :=
  fun m => (Returned tt, f m, []).

(** [await] of a collaborator's promise. *)
Definition await {A} (c : Call) (r : Reply A) : Run A :=
  match r with
  | Resolves a => mret a
  | Rejects => throw (Rejected c)
  end.

(** [try { body } catch (e) { handler }] *)
Definition try_catch {A} (body : Run A) (handler : Error -> Run A) : Run A :=
  fun m =>
    match body m with
    | (Threw e, m', t) => let '(o, m'', t') := handler e m' in (o, m'', t ++ t')
    | r => r
    end.

(** [try { body } finally { final }] *)
Definition try_finally {A} (body : Run A) (final : Run unit) : Run A :=
  fun m =>
    match body m with
    | (Hung, m', t) => (Hung, m', t)
    | (o, m', t) =>
        let '(o', m'', t') := final m' in
        (match o' with
         | Returned _ => o
         | Threw e => Threw e
         | Hung => Hung
         end, m'', t ++ t')
    end.

(** The sequencer's methods as seen by one attempt running on its own: if the
    flag is set when [getNonce] is entered, nobody is left to clear it. *)
Module Async.

Definition getNonce : Run Z :=
  fun m =>
    match getNonce_poll m with
    | (Some n, m') => (Returned n, m', [Allocate n])
    | (None, m') => (Hung, m', [])
    end.

Definition release : Run unit :=
  _ ← emit Release;
  update release.

Definition syncIfBehind (count : Reply Z) : Run unit :=
  _ ← emit Count;
  onChainNonce ← await getTransactionCount count;
  update (syncIfBehind onChainNonce).

End Async.

(** ** The chain client's answers *)

Record TransactionReceipt := { status : option Z }.

(** Answers to the calls one [buildAndSendMint] makes, each made at most
    once. *)
Record Node := {
  populated : Reply unit;                        (* the request was built *)
  sent : Reply string;                           (* hash of the accepted transaction *)
  waited : Reply (option TransactionReceipt);    (* [null] receipt possible *)
  counted : Reply Z
}.

(** Answers to one detected call: the fee query and the (up to) two
    submissions. *)
Record Detection := {
  feeData : Reply (option Z);                    (* [maxPriorityFeePerGas] *)
  first : Node;
  second : Node
}.

Definition Wallet := string.                     (* the key it was built from *)

(** ** Watching the chain

    A transaction as the provider returns it, and what the node answers
    when one hash of a feed is looked at: the fetch of the transaction, and
    the answers to the attempt it may set off. *)

Record Transaction := {
  tx_hash : string;
  tx_from : string;
  tx_to : option string;                         (* [null] for a deployment *)
  tx_data : string
}.

Record Sighting := {
  fetched : Reply (option Transaction);          (* [provider.getTransaction] *)
  answers : Detection
}.

(** What [provider.getTransaction] and [provider.getBlock] throw; the
    handlers log it at most. *)
Definition provider_error : Error := Error_ "provider".

Definition fetch {A} (r : Reply A) : Run A :=
  match r with
  | Resolves a => mret a
  | Rejects => throw provider_error
  end.

(** [for (const x of l) { await f(x) }] *)
Fixpoint for_each {A} (f : A -> Run unit) (l : list A) : Run unit :=
  match l with
  | [] => mret tt
  | x :: rest =>
      _ ← f x;
      for_each f rest
  end.

(** ** Start-up outcomes *)

Inductive Startup (S : Type) :=
| Exited (code : Z)          (* [process.exit(code)] *)
| Crashed                    (* uncaught exception or unhandled rejection *)
| Ready (s : S).
Arguments Exited {S} code.
Arguments Crashed {S}.
Arguments Ready {S} s.

(** Built-ins and library constructors whose results are taken as given:
    string-to-number conversions, and whether [new Wallet(key, provider)]
    accepts a key (it throws otherwise). *)
Record Builtins := {
  BigInt : string -> option Z;           (* [None]: SyntaxError *)
  Number : string -> float;
  parseFloat : string -> float;
  parseInt : string -> float;
  Wallet_accepts : string -> bool
}.

Definition placeholder : string := "0xYOUR_BURNER_PRIVATE_KEY".

(** ** The script: functions declared inside [main] *)

Module Script.

(** Module-level constants.  [MINT_ABI] and [MINT_ARGS] are taken as
    well-formed: what they decide is whether the request can be built
    ([populated]). *)
Record Constants := {
  RPC_WSS : option string;
  PRIVATE_KEY : option string;
  TARGET_CONTRACT : option string;
  MINT_VALUE : Z;
  GAS_LIMIT : Z;
  MAX_PRIORITY_FEE_GWEI : Z;
  FEE_BUMP_FACTOR : float;
  DRY_RUN : bool
}.

(** Constants and the globals assigned by [main]; [nonceManager] is the
    state the functions run on. *)
Record Globals := {
  constants : Constants;
  wallet : option Wallet
}.

Definition load (js : Builtins) (env : gmap string string) : option Constants :=
  mint_value ← BigInt js (Js.or_else (env !! "MINT_VALUE") "0");
  gas_limit ← BigInt js (Js.or_else (env !! "GAS_LIMIT") "500000");
  max_priority ← BigInt js (Js.or_else (env !! "MAX_PRIORITY_FEE_GWEI") "50");
  Some {| RPC_WSS := env !! "RPC_WSS";
          PRIVATE_KEY := env !! "PRIVATE_KEY";
          TARGET_CONTRACT := env !! "TARGET_CONTRACT";
          MINT_VALUE := mint_value;
          GAS_LIMIT := gas_limit;
          MAX_PRIORITY_FEE_GWEI := max_priority;
          FEE_BUMP_FACTOR := parseFloat js (Js.or_else (env !! "FEE_BUMP_FACTOR") "1.5");
          DRY_RUN := Js.truthy (parseInt js (Js.or_else (env !! "DRY_RUN") "1")) |}.

(** [main] up to the registration of the handlers.  [connected] tells
    whether [provider.ready] resolved, [count] is the answer to the
    transaction-count query of [nonceManager.init]. *)
Definition main (js : Builtins) (env : gmap string string)
    (connected : bool) (count : Reply Z) : Startup (Globals * NonceManager) :=
  match load js env with
  | None => Crashed
  | Some c =>
      if Js.falsy_string (RPC_WSS c) || Js.falsy_string (PRIVATE_KEY c)
         || Js.falsy_string (TARGET_CONTRACT c)
      then Exited 1
      else if bool_decide (env !! "PRIVATE_KEY" = Some placeholder) then Exited 1
      else if negb connected then Exited 1
      else
        let nonceManager := NonceManager_new in
        if DRY_RUN c then
          Ready ({| constants := c; wallet := None |}, nonceManager)
        else
          let key := default "" (PRIVATE_KEY c) in
          if Wallet_accepts js key then
            match count with
            | Resolves n =>
                Ready ({| constants := c; wallet := Some key |}, init n nonceManager)
            | Rejects => Crashed
            end
          else Crashed
  end.

Definition getPriorityFee (g : Globals) (fee : Reply (option Z)) : Run Z :=
  priorityFee ← await getFeeData fee;
  if Js.falsy_bigint priorityFee then throw (Error_ "Could not get priority fee")
  else
    let priorityFee := default 0 priorityFee in
    let maxPriorityGwei := Js.parseUnits (MAX_PRIORITY_FEE_GWEI (constants g)) gwei in
    mret (if priorityFee >? maxPriorityGwei then maxPriorityGwei else priorityFee).

Definition buildAndSendMint (g : Globals) (node : Node) (priorityFee : Z)
    : Run (option TransactionReceipt) :=
  _ ← emit (Attempt priorityFee);
  if negb (bool_decide (is_Some (wallet g))) then throw (Error_ "Wallet not initialized")
  else
    nonce ← Async.getNonce;
    _ ← emit (Populate nonce priorityFee);
    _ ← await populateTransaction (populated node);
    if DRY_RUN (constants g) then
      _ ← Async.release;
      mret None
    else
      try_catch
        (_ ← emit (Send nonce priorityFee);
         _ ← await sendTransaction (sent node);
         _ ← emit Wait;
         receipt ← await wait (waited node);
         _ ← Async.syncIfBehind (counted node);
         _ ← Async.release;
         mret receipt)
        (fun err =>
           _ ← Async.release;
           throw err).

Definition attemptMintWithBump (g : Globals) (d : Detection) : Run unit :=
  base ← getPriorityFee g (feeData d);
  try_catch
    (_ ← buildAndSendMint g (first d) base;
     mret tt)
    (fun e =>
       let baseGwei := Js.formatUnits_Number base gwei in
       let bumpedGwei :=
         Js.Math_ceil (Js.mul baseGwei (Prim2SF (FEE_BUMP_FACTOR (constants g)))) in
       bumped ← await parseUnits (Js.parseUnits_String bumpedGwei gwei);
       try_catch
         (_ ← buildAndSendMint g (second d) bumped;
          mret tt)
         (fun err => mret tt)).

(** [handlePending]; [toLowerCase] is the string method, [MINT_SELECTOR] the
    module-level constant computed from the ABI. *)
Definition handlePending (toLowerCase : string -> string) (MINT_SELECTOR : option string)
    (g : Globals) (s : Sighting) : Run unit :=
  let TARGET_CONTRACT := default "" (TARGET_CONTRACT (constants g)) in
  try_catch
    (tx ← fetch (fetched s);
     match tx with
     | None => mret tt
     | Some tx =>
         if Js.falsy_string (tx_to tx) then mret tt
         else if negb (String.eqb (toLowerCase (default "" (tx_to tx)))
                                  (toLowerCase TARGET_CONTRACT)) then mret tt
         else if String.eqb (tx_data tx) "" || Js.falsy_string MINT_SELECTOR then mret tt
         else if String.prefix (default "" MINT_SELECTOR) (tx_data tx)
              then attemptMintWithBump g (answers s)
              else mret tt
     end)
    (fun _ => mret tt).

(** [handleBlock]; [block] is the answer of [provider.getBlock], with one
    sighting per transaction hash of the block. *)
Definition handleBlock (toLowerCase : string -> string) (MINT_SELECTOR : option string)
    (g : Globals) (block : Reply (option (list Sighting))) : Run unit :=
  let TARGET_CONTRACT := default "" (TARGET_CONTRACT (constants g)) in
  try_catch
    (block ← fetch block;
     match block with
     | None => mret tt
     | Some transactions =>
         for_each
           (fun s =>
              tx ← fetch (fetched s);
              match tx with
              | None => mret tt
              | Some tx =>
                  if Js.falsy_string (tx_to tx) then mret tt
                  else if negb (String.eqb (toLowerCase (default "" (tx_to tx)))
                                           (toLowerCase TARGET_CONTRACT)) then mret tt
                  else if negb (String.eqb (tx_data tx) "")
                          && negb (Js.falsy_string MINT_SELECTOR)
                          && String.prefix (default "" MINT_SELECTOR) (tx_data tx)
                       then attemptMintWithBump g (answers s)
                       else mret tt
              end)
           transactions
     end)
    (fun err => mret tt).

End Script.

(** ** The class [MintSniper] *)

Module Sniper.

Record AppConfig := {
  rpcWss : string;
  privateKey : string;
  targetContract : string;
  mintValue : Z;
  gasLimit : Z;
  maxPriorityFeeGwei : Z;
  feeBumpFactor : float;
  dryRun : bool
}.

(** The object after [bootstrap]: [provider], [contract] and [nonceManager]
    are assigned unconditionally there, so the guards on [contract] and on
    [nonceMgr] in [buildAndSendMint] cannot fire and are not represented;
    [nonceManager] is the state the methods run on. *)
Record MintSniper := {
  cfg : AppConfig;
  wallet : option Wallet;
  mintSelector : option string
}.

Definition required : list string := ["RPC_WSS"; "PRIVATE_KEY"; "TARGET_CONTRACT"].

Definition buildConfig (js : Builtins) (env : gmap string string) : Startup AppConfig :=
  if existsb (fun key => Js.falsy_string (env !! key)) required then Exited 1
  else if bool_decide (env !! "PRIVATE_KEY" = Some placeholder) then Exited 1
  else
    match BigInt js (Js.coalesce (env !! "MINT_VALUE") "0"),
          BigInt js (Js.coalesce (env !! "GAS_LIMIT") "500000"),
          BigInt js (Js.coalesce (env !! "MAX_PRIORITY_FEE_GWEI") "50") with
    | Some mint_value, Some gas_limit, Some max_priority =>
        Ready {| rpcWss := default "" (env !! "RPC_WSS");
                 privateKey := default "" (env !! "PRIVATE_KEY");
                 targetContract := default "" (env !! "TARGET_CONTRACT");
                 mintValue := mint_value;
                 gasLimit := gas_limit;
                 maxPriorityFeeGwei := max_priority;
                 feeBumpFactor :=
                   Number js (Js.coalesce (env !! "FEE_BUMP_FACTOR") "1.5");
                 dryRun :=
                   Js.truthy (Number js (Js.coalesce (env !! "DRY_RUN") "1")) |}
    | _, _, _ => Crashed
    end.

(** [bootstrap]; [selector] is what
    [new Interface(mintAbi).getFunction("mint")?.selector] evaluates to. *)
Definition bootstrap (js : Builtins) (c : AppConfig) (selector : option string)
    (connected : bool) (count : Reply Z) : Startup (MintSniper * NonceManager) :=
  if negb connected then Exited 1
  else if dryRun c then
    Ready ({| cfg := c; wallet := None; mintSelector := selector |}, NonceManager_new)
  else if Wallet_accepts js (privateKey c) then
    match count with
    | Resolves n =>
        Ready ({| cfg := c; wallet := Some (privateKey c); mintSelector := selector |},
               init n NonceManager_new)
    | Rejects => Crashed
    end
  else Crashed.

(** Module load ([buildConfig]) followed by [start]. *)
Definition start (js : Builtins) (env : gmap string string) (selector : option string)
    (connected : bool) (count : Reply Z) : Startup (MintSniper * NonceManager) :=
  match buildConfig js env with
  | Exited code => Exited code
  | Crashed => Crashed
  | Ready c => bootstrap js c selector connected count
  end.

Definition bumpPriority (this : MintSniper) (base : Z) : Reply Z :=
  let baseGwei := Js.formatUnits_Number base gwei in
  let bumpedGwei := Js.Math_ceil (Js.mul baseGwei (Prim2SF (feeBumpFactor (cfg this)))) in
  Js.parseUnits_String bumpedGwei gwei.

Definition getPriorityFee (this : MintSniper) (fee : Reply (option Z)) : Run Z :=
  priority ← await getFeeData fee;
  if Js.falsy_bigint priority then throw (Error_ "Could not fetch priority fee.")
  else
    let priority := default 0 priority in
    let maxPriority := Js.parseUnits (maxPriorityFeeGwei (cfg this)) gwei in
    mret (if priority >? maxPriority then maxPriority else priority).

Definition buildAndSendMint (this : MintSniper) (node : Node) (priorityFee : Z)
    : Run (option TransactionReceipt) :=
  _ ← emit (Attempt priorityFee);
  if Js.falsy_string (mintSelector this) then throw (Error_ "Contract not initialized.")
  else
    let signer := wallet this in
    nonce ← Async.getNonce;
    _ ← emit (Populate nonce priorityFee);
    _ ← await populateTransaction (populated node);
    if dryRun (cfg this) || negb (bool_decide (is_Some signer)) then
      _ ← Async.release;
      mret None
    else
      try_finally
        (_ ← emit (Send nonce priorityFee);
         _ ← await sendTransaction (sent node);
         _ ← emit Wait;
         receipt ← await wait (waited node);
         _ ← Async.syncIfBehind (counted node);
         mret receipt)
        Async.release.

Definition attemptMint (this : MintSniper) (d : Detection) : Run unit :=
  basePriority ← getPriorityFee this (feeData d);
  done ← try_catch
           (_ ← buildAndSendMint this (first d) basePriority;
            mret true)
           (fun err => mret false);
  if done : bool then mret tt
  else
    bumped ← await parseUnits (bumpPriority this basePriority);
    try_catch
      (_ ← buildAndSendMint this (second d) bumped;
       mret tt)
      (fun err => mret tt).

(** [handlePending]: a failed fetch is turned into [undefined] on the
    spot. *)
Definition handlePending (toLowerCase : string -> string) (this : MintSniper)
    (s : Sighting) : Run unit :=
  if Js.falsy_string (mintSelector this) then mret tt
  else
    let tx := match fetched s with
              | Resolves tx => tx
              | Rejects => None
              end in
    match tx with
    | None => mret tt
    | Some tx =>
        if Js.falsy_string (tx_to tx)
           || negb (String.eqb (toLowerCase (default "" (tx_to tx)))
                               (toLowerCase (targetContract (cfg this))))
        then mret tt
        else if String.prefix (default "" (mintSelector this)) (tx_data tx)
             then attemptMint this (answers s)
             else mret tt
    end.

Definition handleBlock (toLowerCase : string -> string) (this : MintSniper)
    (block : Reply (option (list Sighting))) : Run unit :=
  if Js.falsy_string (mintSelector this) then mret tt
  else
    block ← fetch block;
    match block with
    | None => mret tt
    | Some transactions =>
        for_each
          (fun s =>
             tx ← fetch (fetched s);
             match tx with
             | None => mret tt
             | Some tx =>
                 if Js.falsy_string (tx_to tx)
                    || negb (String.eqb (toLowerCase (default "" (tx_to tx)))
                                        (toLowerCase (targetContract (cfg this))))
                 then mret tt
                 else if String.prefix (default "" (mintSelector this)) (tx_data tx)
                      then attemptMint this (answers s)
                      else mret tt
             end)
          transactions
    end.

(** The two listeners installed by [registerEventHandlers]: each handler
    with the [.catch] attached to it. *)
Definition onPending (toLowerCase : string -> string) (this : MintSniper)
    (s : Sighting) : Run unit :=
  try_catch (handlePending toLowerCase this s) (fun _ => mret tt).

Definition onBlock (toLowerCase : string -> string) (this : MintSniper)
    (block : Reply (option (list Sighting))) : Run unit :=
  try_catch (handleBlock toLowerCase this block) (fun err => mret tt).

End Sniper.

(** ** Reading a run *)

Definition outcome {A} (r : Outcome A * NonceManager * list Event) : Outcome A := r.1.1.
Definition final {A} (r : Outcome A * NonceManager * list Event) : NonceManager := r.1.2.
Definition trace {A} (r : Outcome A * NonceManager * list Event) : list Event := r.2.

(** Fees of the calls to [buildAndSendMint], in order. *)
Definition attempts (t : list Event) : list Z :=
  omap (fun e => match e with Attempt fee => Some fee | _ => None end) t.

(** Nonces handed out, in order. *)
Definition allocated (t : list Event) : list Z :=
  omap (fun e => match e with Allocate n => Some n | _ => None end) t.

(** Nonce and fee of each broadcast, in order. *)
Definition broadcasts (t : list Event) : list (Z * Z) :=
  omap (fun e => match e with Send n fee => Some (n, fee) | _ => None end) t.

(** Number of calls to [release]. *)
Definition releases (t : list Event) : nat :=
  length (omap (fun e => match e with Release => Some tt | _ => None end) t).

(** [getPriorityFee] has no fee to return: the query rejects, or
    [maxPriorityFeePerGas] is [null] or [0n]. *)
Definition fee_unavailable (fee : Reply (option Z)) : bool :=
  match fee with
  | Resolves p => Js.falsy_bigint p
  | Rejects => true
  end.

(** Detections handled one after the other, each to completion. *)
Fixpoint handle_all (attempt : Detection -> Run unit) (ds : list Detection) : Run unit :=
  match ds with
  | [] => mret tt
  | d :: rest =>
      _ ← try_catch (attempt d) (fun _ => mret tt);   (* the handlers swallow what escapes *)
      handle_all attempt rest
  end.


(** ** Sample inputs *)

(** Conversions that agree with the JS built-ins on plain decimal literals:
    digits with an optional leading minus sign, and for the float
    conversions an optional fraction.  Other strings are refused ([BigInt])
    or read as NaN.  They serve as the built-ins of the worked examples; the
    general statements hold for any [Builtins]. *)
Module Decimal.

Definition digit (a : ascii) : option Z :=
  let n := Z.of_N (N_of_ascii a) in
  if (48 <=? n) && (n <=? 57) then Some (n - 48) else None.

(** value and number of digits *)
Fixpoint digits (s : string) (acc : Z) (len : Z) : option (Z * Z * string) :=
  match s with
  | EmptyString => Some (acc, len, EmptyString)
  | String a rest =>
      match digit a with
      | Some d => digits rest (10 * acc + d) (len + 1)
      | None => Some (acc, len, s)
      end
  end.

Definition unsigned (s : string) : option Z :=
  match digits s 0 0 with
  | Some (v, len, EmptyString) => if 0 <? len then Some v else None
  | _ => None
  end.

Definition integer (s : string) : option Z :=
  match s with
  | String "-"%char rest => Z.opp <$> unsigned rest
  | _ => unsigned s
  end.

Definition ratio (negative : bool) (n : Z) (scale : Z) : float :=
  match n with
  | Zpos p =>
      SF2Prim (SF64div (S754_finite negative p 0)
                       (S754_finite false (Z.to_pos (10 ^ scale)) 0))
  | _ => if negative then PrimFloat.neg_zero else PrimFloat.zero
  end.

Definition unsigned_float (negative : bool) (s : string) : float :=
  match digits s 0 0 with
  | Some (v, len, EmptyString) => if 0 <? len then ratio negative v 0 else PrimFloat.nan
  | Some (v, len, String "."%char frac) =>
      match digits frac v 0 with
      | Some (w, flen, EmptyString) =>
          if (0 <? len) && (0 <? flen) then ratio negative w flen else PrimFloat.nan
      | _ => PrimFloat.nan
      end
  | _ => PrimFloat.nan
  end.

Definition to_float (s : string) : float :=
  match s with
  | String "-"%char rest => unsigned_float true rest
  | _ => unsigned_float false s
  end.

Definition to_whole (s : string) : float :=
  match integer s with
  | Some v => ratio (v <? 0) (Z.abs v) 0
  | None => PrimFloat.nan
  end.

Definition hex_digit (a : ascii) : bool :=
  let n := Z.of_N (N_of_ascii a) in
  ((48 <=? n) && (n <=? 57)) || ((65 <=? n) && (n <=? 70)) || ((97 <=? n) && (n <=? 102)).

Fixpoint all_hex (s : string) : bool :=
  match s with
  | EmptyString => true
  | String a rest => hex_digit a && all_hex rest
  end.

(** A private key: [0x] and 64 hexadecimal digits. *)
Definition private_key (key : string) : bool :=
  match key with
  | String "0"%char (String "x"%char digits) =>
      bool_decide (String.length digits = 64%nat) && all_hex digits
  | _ => false
  end.

Definition builtins : Builtins :=
  {| BigInt := integer;
     Number := to_float;
     parseFloat := to_float;
     parseInt := to_whole;
     Wallet_accepts := private_key |}.

End Decimal.

(** A configuration of the script and one of the class that agree on what
    the attempt reads. *)
Definition same_settings (g : Script.Globals) (this : Sniper.MintSniper) : Prop :=
  Script.MAX_PRIORITY_FEE_GWEI (Script.constants g) = Sniper.maxPriorityFeeGwei (Sniper.cfg this) /\
  Script.FEE_BUMP_FACTOR (Script.constants g) = Sniper.feeBumpFactor (Sniper.cfg this) /\
  Script.DRY_RUN (Script.constants g) = Sniper.dryRun (Sniper.cfg this) /\
  Script.wallet g = Sniper.wallet this.

(** Broadcasting is enabled and possible: not a dry run, a wallet, a
    selector. *)
Definition live (this : Sniper.MintSniper) : Prop :=
  Sniper.dryRun (Sniper.cfg this) = false /\
  is_Some (Sniper.wallet this) /\
  Js.falsy_string (Sniper.mintSelector this) = false.

Definition rejects {A} (r : Reply A) : bool :=
  match r with
  | Resolves _ => false
  | Rejects => true
  end.

(** Some awaited call of a live submission rejects: the build, the
    broadcast, the confirmation wait, or the transaction-count query of the
    resync. *)
Definition some_call_rejects (node : Node) : bool :=
  rejects (populated node) || rejects (sent node) || rejects (waited node)
  || rejects (counted node).

(** The submission fails at the broadcast or after it. *)
Definition fails_after_build (node : Node) : bool :=
  negb (rejects (populated node))
  && (rejects (sent node) || rejects (waited node) || rejects (counted node)).

(** Nonce and fee of each transaction request built, in order. *)
Definition requests (t : list Event) : list (Z * Z) :=
  omap (fun e => match e with Populate n fee => Some (n, fee) | _ => None end) t.

(** [c] is the least integer not below the finite number [x]. *)
Definition is_ceiling (c : Z) (x : Js.number) : Prop :=
  match x with
  | S754_zero _ => c = 0
  | S754_finite s m e =>
      if e <? 0 then
        (c - 1) * 2 ^ (- e) < cond_Zopp s (Zpos m) <= c * 2 ^ (- e)
      else c = cond_Zopp s (Zpos m) * 2 ^ e
  | _ => False
  end.

(** The three lines of the bump, for a factor and a fee. *)
Definition bumped_fee (factor : float) (base : Z) : Reply Z :=
  Js.parseUnits_String
    (Js.Math_ceil (Js.mul (Js.formatUnits_Number base gwei) (Prim2SF factor))) gwei.

Module Samples.

Definition key : string :=
  "0x59c6995e998f97a5a0044966f0945389dc9e86dae88c7a8412f4603b6b78690d".

Definition config : Sniper.AppConfig :=
  {| Sniper.rpcWss := "wss://node.example";
     Sniper.privateKey := key;
     Sniper.targetContract := "0x5FbDB2315678afecb367f032d93F642f64180aa3";
     Sniper.mintValue := 0;
     Sniper.gasLimit := 500000;
     Sniper.maxPriorityFeeGwei := 50;
     Sniper.feeBumpFactor := 1.5;
     Sniper.dryRun := false |}.

Definition config_dry : Sniper.AppConfig :=
  {| Sniper.rpcWss := "wss://node.example";
     Sniper.privateKey := key;
     Sniper.targetContract := "0x5FbDB2315678afecb367f032d93F642f64180aa3";
     Sniper.mintValue := 0;
     Sniper.gasLimit := 500000;
     Sniper.maxPriorityFeeGwei := 50;
     Sniper.feeBumpFactor := 1.5;
     Sniper.dryRun := true |}.

Definition selector : option string := Some "0x1249c58b".

Definition sniper : Sniper.MintSniper :=
  {| Sniper.cfg := config; Sniper.wallet := Some key; Sniper.mintSelector := selector |}.

Definition sniper_dry : Sniper.MintSniper :=
  {| Sniper.cfg := config_dry; Sniper.wallet := None; Sniper.mintSelector := selector |}.

Definition constants (dry : bool) : Script.Constants :=
  {| Script.RPC_WSS := Some "wss://node.example";
     Script.PRIVATE_KEY := Some key;
     Script.TARGET_CONTRACT := Some "0x5FbDB2315678afecb367f032d93F642f64180aa3";
     Script.MINT_VALUE := 0;
     Script.GAS_LIMIT := 500000;
     Script.MAX_PRIORITY_FEE_GWEI := 50;
     Script.FEE_BUMP_FACTOR := 1.5;
     Script.DRY_RUN := dry |}.

Definition script : Script.Globals :=
  {| Script.constants := constants false; Script.wallet := Some key |}.

Definition script_dry : Script.Globals :=
  {| Script.constants := constants true; Script.wallet := None |}.

(** Accepted and confirmed with status 1; 8 transactions on chain then. *)
Definition confirmed : Node :=
  {| populated := Resolves tt;
     sent := Resolves "0x9a3f";
     waited := Resolves (Some {| status := Some 1 |});
     counted := Resolves 8 |}.

(** Accepted by the node; the confirmation wait then fails. *)
Definition wait_fails : Node :=
  {| populated := Resolves tt;
     sent := Resolves "0x9a3f";
     waited := Rejects;
     counted := Resolves 8 |}.

(** Refused by the node. *)
Definition refused : Node :=
  {| populated := Resolves tt;
     sent := Rejects;
     waited := Rejects;
     counted := Rejects |}.

(** The request cannot be built, e.g. [MINT_ARGS] does not fit the ABI. *)
Definition unbuildable : Node :=
  {| populated := Rejects;
     sent := Rejects;
     waited := Rejects;
     counted := Rejects |}.

(** 80 gwei suggested. *)
Definition detection (first second : Node) : Detection :=
  {| feeData := Resolves (Some 80000000000); first := first; second := second |}.

Definition unquoted : Detection :=
  {| feeData := Resolves None; first := confirmed; second := confirmed |}.

(** Seven transactions sent so far, nothing in flight. *)
Definition seven : NonceManager := {| locked := false; nonce := 7 |}.

(** Dry run requested, no [PRIVATE_KEY]. *)
Definition env_dry_without_key : gmap string string :=
  <["RPC_WSS" := "wss://node.example"]>
    (<["TARGET_CONTRACT" := "0x5FbDB2315678afecb367f032d93F642f64180aa3"]>
       (<["DRY_RUN" := "1"]> ∅)).

Definition env_dry : gmap string string :=
  <["PRIVATE_KEY" := key]> env_dry_without_key.

End Samples.

(** The live samples with another bump factor, and another quote. *)
Definition sniper_with_factor (factor : float) : Sniper.MintSniper :=
  {| Sniper.cfg :=
       {| Sniper.rpcWss := "wss://node.example";
          Sniper.privateKey := Samples.key;
          Sniper.targetContract := "0x5FbDB2315678afecb367f032d93F642f64180aa3";
          Sniper.mintValue := 0;
          Sniper.gasLimit := 500000;
          Sniper.maxPriorityFeeGwei := 50;
          Sniper.feeBumpFactor := factor;
          Sniper.dryRun := false |};
     Sniper.wallet := Some Samples.key;
     Sniper.mintSelector := Samples.selector |}.

Definition script_with_factor (factor : float) : Script.Globals :=
  {| Script.constants :=
       {| Script.RPC_WSS := Some "wss://node.example";
          Script.PRIVATE_KEY := Some Samples.key;
          Script.TARGET_CONTRACT := Some "0x5FbDB2315678afecb367f032d93F642f64180aa3";
          Script.MINT_VALUE := 0;
          Script.GAS_LIMIT := 500000;
          Script.MAX_PRIORITY_FEE_GWEI := 50;
          Script.FEE_BUMP_FACTOR := factor;
          Script.DRY_RUN := false |};
     Script.wallet := Some Samples.key |}.

Definition quoted (fee : Z) (first second : Node) : Detection :=
  {| feeData := Resolves (Some fee); first := first; second := second |}.

(** ** Reading handlers and bounds *)

(** A trace of [calls] calls of [buildAndSendMint]: at most one nonce per
    call, at most one broadcast and one release per nonce. *)
Definition within_bounds (calls : nat) (t : list Event) : Prop :=
  length (attempts t) = calls /\
  (length (allocated t) <= calls)%nat /\
  (length (broadcasts t) <= length (allocated t))%nat /\
  (releases t <= length (allocated t))%nat.

(** The call threw. *)
Definition throws {A} (r : Outcome A * NonceManager * list Event) : bool :=
  match outcome r with
  | Threw _ => true
  | _ => false
  end.

(** The calls of [buildAndSendMint] an orchestrator makes once [base] is
    quoted, by their fees: a second one exactly when the first one threw and
    the bump yields a fee. *)
Definition calls_made (base : Z) (first_threw : bool) (bump : Reply Z) : list Z :=
  base :: match first_threw, bump with
          | true, Resolves bumped => [bumped]
          | _, _ => []
          end.

(** Two runs that differ at most in the error thrown. *)
Definition same_run {A} (r1 r2 : Outcome A * NonceManager * list Event) : Prop :=
  final r1 = final r2 /\ trace r1 = trace r2 /\
  match outcome r1, outcome r2 with
  | Returned a, Returned b => a = b
  | Threw _, Threw _ => True
  | Hung, Hung => True
  | _, _ => False
  end.

(** The script and the class watch the same contract for the same
    selector. *)
Definition same_watch (MINT_SELECTOR : option string) (g : Script.Globals)
    (this : Sniper.MintSniper) : Prop :=
  Script.TARGET_CONTRACT (Script.constants g) =
    Some (Sniper.targetContract (Sniper.cfg this)) /\
  MINT_SELECTOR = Sniper.mintSelector this.

(** [String.prototype.toLowerCase], on ASCII strings. *)
Module Text.

Definition toLowerCase_char (a : ascii) : ascii :=
  let n := N_of_ascii a in
  if ((65 <=? n) && (n <=? 90))%N then ascii_of_N (n + 32) else a.

Fixpoint toLowerCase (s : string) : string :=
  match s with
  | EmptyString => EmptyString
  | String a rest => String (toLowerCase_char a) (toLowerCase rest)
  end.

End Text.

(** ** More sample inputs *)

(** A call of [mint()] on the sample contract, its address in lower case. *)
Definition mint_call : Transaction :=
  {| tx_hash := "0x77aa";
     tx_from := "0x70997970C51812dc3A010C7d01b50e0d17dc79C8";
     tx_to := Some "0x5fbdb2315678afecb367f032d93f642f64180aa3";
     tx_data := "0x1249c58b" |}.

Definition sighting (tx : Transaction) (d : Detection) : Sighting :=
  {| fetched := Resolves (Some tx); answers := d |}.


(** The sample built-ins, completed on the empty string: [Number("")] is 0
    and [BigInt("")] is [0n]; [parseFloat("")] and [parseInt("")] are NaN. *)
Definition builtins_on_empty : Builtins :=
  {| BigInt := fun s => if decide (s = "") then Some 0 else Decimal.integer s;
     Number := fun s => if decide (s = "") then PrimFloat.zero else Decimal.to_float s;
     parseFloat := Decimal.to_float;
     parseInt := Decimal.to_whole;
     Wallet_accepts := Decimal.private_key |}.

(** [DRY_RUN=0]: broadcasting enabled. *)
Definition env_live : gmap string string :=
  <["RPC_WSS" := "wss://node.example"]>
    (<["TARGET_CONTRACT" := "0x5FbDB2315678afecb367f032d93F642f64180aa3"]>
       (<["PRIVATE_KEY" := Samples.key]> (<["DRY_RUN" := "0"]> ∅))).

(** [DRY_RUN=] with nothing after the sign. *)
Definition env_empty_dry_run : gmap string string :=
  <["RPC_WSS" := "wss://node.example"]>
    (<["TARGET_CONTRACT" := "0x5FbDB2315678afecb367f032d93F642f64180aa3"]>
       (<["PRIVATE_KEY" := Samples.key]> (<["DRY_RUN" := ""]> ∅))).

(** ** Invariants *)

(** What holds of the callers when resyncs land in between: the counter is
    above every nonce handed out, and these are strictly increasing. *)
Record resync_inv (start : Z) (s : Sequencer) : Prop := {
  rinv_flag : holders s = if locked (manager s) then 1%nat else 0%nat;
  rinv_sorted : StronglySorted Z.lt (acquired s);
  rinv_range : Forall (fun n => start <= n < nonce (manager s)) (acquired s);
  rinv_start : start <= nonce (manager s);
  rinv_returned : omap returned (callers s) ≡ₚ acquired s
}.

(** A run entered at [m] comes back (returns or throws) with the flag clear
    and the counter not lowered, and the nonces it was handed are strictly
    increasing and lie between the two counters. *)
Definition advances {A} (m : NonceManager) (r : Outcome A * NonceManager * list Event)
    : Prop :=
  outcome r <> Hung /\
  locked (final r) = false /\
  nonce m <= nonce (final r) /\
  StronglySorted Z.lt (allocated (trace r)) /\
  Forall (fun k => nonce m <= k < nonce (final r)) (allocated (trace r)).

(** Both requests of the detection can be built. *)
Definition buildable (d : Detection) : Prop :=
  populated (first d) = Resolves tt /\ populated (second d) = Resolves tt.

(** * Properties *)

(** ** The sequencer *)

Lemma getNonce_poll_locked m :
  locked m = true -> getNonce_poll m = (None, m).
Proof. unfold getNonce_poll. intros ->. reflexivity. Qed.

Lemma getNonce_poll_free m :
  locked m = false ->
  getNonce_poll m = (Some (nonce m), {| locked := true; nonce := nonce m + 1 |}).
Proof. unfold getNonce_poll. intros ->. reflexivity. Qed.

(** A lone caller that finds the flag set never leaves the loop. *)
Lemma getNonce_spin_locked polls m :
  locked m = true -> getNonce_spin polls m = (None, m).
Proof.
  intros Hl. induction polls as [|k IH]; simpl; [reflexivity|].
  rewrite getNonce_poll_locked by assumption. exact IH.
Qed.

Lemma getNonce_spin_free polls m :
  locked m = false ->
  getNonce_spin (S polls) m =
    (Some (nonce m), {| locked := true; nonce := nonce m + 1 |}).
Proof. intros Hl. simpl. rewrite getNonce_poll_free by assumption. reflexivity. Qed.

Section Interleaving.
Variable start : Z.
Variable N : nat.

Record sequencer_inv (s : Sequencer) : Prop := {
  inv_callers : length (callers s) = N;
  inv_acquired : acquired s = consecutive start (length (acquired s));
  inv_counter : nonce (manager s) = start + Z.of_nat (length (acquired s));
  inv_flag : holders s = if locked (manager s) then 1%nat else 0%nat;
  inv_returned : omap returned (callers s) ≡ₚ acquired s
}.

Lemma consecutive_snoc k :
  consecutive start (S k) = consecutive start k ++ [start + Z.of_nat k].
Proof.
  unfold consecutive. rewrite seq_S, fmap_app. reflexivity.
Qed.

Lemma consecutive_length k : length (consecutive start k) = k.
Proof. unfold consecutive. rewrite length_fmap, length_seq. reflexivity. Qed.

Lemma consecutive_NoDup k : NoDup (consecutive start k).
Proof.
  unfold consecutive. apply NoDup_fmap_2; [|apply NoDup_seq].
  intros i j Hij. lia.
Qed.

Lemma holders_split cs i c :
  cs !! i = Some c ->
  forall c',
    (length (filter is_holding (<[i := c']> cs)) + (if is_holding c then 1 else 0) =
     length (filter is_holding cs) + (if is_holding c' then 1 else 0))%nat.
Proof.
  intros Hi c'.
  assert (Hlt : (i < length cs)%nat) by (eapply lookup_lt_Some; eassumption).
  rewrite insert_take_drop by assumption.
  rewrite <- (take_drop_middle cs i c Hi) at 3.
  rewrite !filter_app, !filter_cons, !length_app.
  destruct c, c'; simpl; repeat case_decide; simpl in *; try tauto; lia.
Qed.

Lemma returned_split cs i c c' :
  cs !! i = Some c ->
  omap returned (<[i := c']> cs) ++ option_list (returned c) ≡ₚ
  omap returned cs ++ option_list (returned c').
Proof.
  intros Hi.
  assert (Hlt : (i < length cs)%nat) by (eapply lookup_lt_Some; eassumption).
  rewrite insert_take_drop by assumption.
  rewrite <- (take_drop_middle cs i c Hi) at 3.
  rewrite !omap_app. cbn [omap list_omap].
  destruct (returned c), (returned c'); simpl;
    rewrite ?app_nil_r, <- ?Permutation_cons_append, <- ?Permutation_middle;
    solve [reflexivity | apply Permutation_swap].
Qed.

Lemma issue_inv : sequencer_inv (issue start N).
Proof.
  split; simpl.
  - apply length_replicate.
  - reflexivity.
  - lia.
  - unfold holders. simpl. induction N as [|k IH]; simpl; [reflexivity|].
    rewrite filter_cons. case_decide; [simpl in *; tauto | exact IH].
  - induction N as [|k IH]; simpl; [reflexivity | exact IH].
Qed.

Lemma resume_inv i s : sequencer_inv s -> sequencer_inv (resume i s).
Proof.
  intros [Hlen Hacq Hctr Hflag Hret]. unfold resume.
  destruct (callers s !! i) as [[| n | n]|] eqn:Hi; [| | split; assumption ..].
  - (* asleep in the loop *)
    unfold getNonce_poll. destruct (locked (manager s)) eqn:Hl.
    + split; simpl; try assumption. rewrite Hl. exact Hflag.
    + split; simpl.
      * rewrite length_insert. exact Hlen.
      * rewrite length_app. simpl. rewrite Nat.add_1_r, consecutive_snoc.
        rewrite <- Hacq, Hctr. reflexivity.
      * rewrite length_app. simpl. lia.
      * unfold holders in *. simpl.
        pose proof (holders_split _ _ _ Hi (Holding (nonce (manager s)))) as H.
        simpl in H. lia.
      * pose proof (returned_split _ _ _ (Holding (nonce (manager s))) Hi) as H.
        simpl in H. rewrite app_nil_r in H. rewrite H, Hret. reflexivity.
  - (* holding the flag: release *)
    assert (Hone : holders s = 1%nat /\ locked (manager s) = true).
    { unfold holders in *.
      pose proof (holders_split _ _ _ Hi (Finished n)) as H. simpl in H.
      destruct (locked (manager s)); [split; [assumption|reflexivity] | lia]. }
    destruct Hone as [Hone Hl].
    split; simpl; try assumption.
    + rewrite length_insert. exact Hlen.
    + unfold holders in *. simpl.
      pose proof (holders_split _ _ _ Hi (Finished n)) as H. simpl in H. lia.
    + pose proof (returned_split _ _ _ (Finished n) Hi) as H. simpl in H.
      apply (Permutation_app_inv_r [n]) in H. rewrite H. exact Hret.
Qed.

Lemma run_schedule_inv schedule s :
  sequencer_inv s -> sequencer_inv (run_schedule schedule s).
Proof.
  revert s. induction schedule as [|i rest IH]; intros s Hs; simpl.
  - exact Hs.
  - apply IH, resume_inv, Hs.
Qed.
End Interleaving.

(** Serving the callers in turn returns every one of them. *)

Lemma served_step start k j :
  resume k (resume k (served start k (S j))) = served start (S k) j.
Proof.
  assert (Hlen : length (Finished <$> consecutive start k) = k)
    by (rewrite length_fmap; apply consecutive_length).
  unfold served, resume at 2. cbn [callers manager acquired].
  rewrite lookup_app_r by (rewrite Hlen; lia).
  rewrite Hlen, Nat.sub_diag. cbn [replicate lookup list_lookup].
  unfold getNonce_poll. cbn [locked nonce].
  unfold resume. cbn [callers manager acquired].
  rewrite list_lookup_insert_eq by (rewrite length_app, Hlen; simpl; lia).
  rewrite list_insert_insert_eq.
  rewrite insert_app_r_alt by (rewrite Hlen; lia).
  rewrite Hlen, Nat.sub_diag. cbn [replicate insert list_insert].
  rewrite !consecutive_snoc, fmap_app, <- app_assoc. unfold release. cbn.
  do 2 f_equal. lia.
Qed.

Lemma in_turn_serves start j : forall k,
  run_schedule (in_turn k j) (served start k j) = served start (k + j) 0.
Proof.
  induction j as [|j IH]; intros k.
  - cbn. rewrite Nat.add_0_r. reflexivity.
  - change (in_turn k (S j)) with (k :: k :: in_turn (S k) j).
    change (run_schedule (k :: k :: in_turn (S k) j) (served start k (S j)))
      with (run_schedule (in_turn (S k) j) (resume k (resume k (served start k (S j))))).
    rewrite served_step, IH. f_equal; lia.
Qed.

Lemma every_caller_can_return start N :
  run_schedule (in_turn 0 N) (issue start N) =
    {| manager := {| locked := false; nonce := start + Z.of_nat N |};
       callers := Finished <$> consecutive start N;
       acquired := consecutive start N |}.
Proof.
  assert (Hissue : issue start N = served start 0 N).
  { unfold issue, served. cbn. rewrite Z.add_0_r. reflexivity. }
  rewrite Hissue, in_turn_serves. unfold served. cbn [Nat.add replicate].
  rewrite app_nil_r. reflexivity.
Qed.

(** ** Running the model *)

(** Unfold and compute a run. *)
Ltac run :=
  cbv [Sniper.attemptMint Sniper.buildAndSendMint Sniper.getPriorityFee
       Script.attemptMintWithBump Script.buildAndSendMint Script.getPriorityFee
       Async.getNonce Async.release Async.syncIfBehind getNonce_poll
       mbind mret Run_bind Run_ret await throw emit update try_catch try_finally
       outcome final trace fee_unavailable];
  cbn.

(** *** The sequencer *)

Lemma syncIfBehind_nonce onChainNonce m :
  nonce (syncIfBehind onChainNonce m) = Z.max (nonce m) onChainNonce.
Proof.
  unfold syncIfBehind. destruct (Z.gtb_spec onChainNonce (nonce m)); simpl; lia.
Qed.

Lemma syncIfBehind_locked onChainNonce m :
  locked (syncIfBehind onChainNonce m) = locked m.
Proof. unfold syncIfBehind. destruct (onChainNonce >? nonce m); reflexivity. Qed.

(** *** Fee selection *)

Lemma Script_getPriorityFee_quoted g suggested m :
  suggested <> 0 ->
  Script.getPriorityFee g (Resolves (Some suggested)) m =
    (Returned (Z.min suggested
                 (Js.parseUnits (Script.MAX_PRIORITY_FEE_GWEI (Script.constants g)) gwei)),
     m, []).
Proof.
  intros Hs. run. apply Z.eqb_neq in Hs. rewrite Hs.
  destruct (Z.gtb_spec suggested
              (Js.parseUnits (Script.MAX_PRIORITY_FEE_GWEI (Script.constants g)) gwei));
    do 3 f_equal; lia.
Qed.

Lemma Sniper_getPriorityFee_quoted this suggested m :
  suggested <> 0 ->
  Sniper.getPriorityFee this (Resolves (Some suggested)) m =
    (Returned (Z.min suggested
                 (Js.parseUnits (Sniper.maxPriorityFeeGwei (Sniper.cfg this)) gwei)),
     m, []).
Proof.
  intros Hs. run. apply Z.eqb_neq in Hs. rewrite Hs.
  destruct (Z.gtb_spec suggested
              (Js.parseUnits (Sniper.maxPriorityFeeGwei (Sniper.cfg this)) gwei));
    do 3 f_equal; lia.
Qed.

Lemma Script_getPriorityFee_unavailable g fee m :
  fee_unavailable fee = true ->
  exists e, Script.getPriorityFee g fee m = (Threw e, m, []).
Proof.
  destruct fee as [p|]; run; intros H; [rewrite H|]; eexists; reflexivity.
Qed.

Lemma Sniper_getPriorityFee_unavailable this fee m :
  fee_unavailable fee = true ->
  exists e, Sniper.getPriorityFee this fee m = (Threw e, m, []).
Proof.
  destruct fee as [p|]; run; intros H; [rewrite H|]; eexists; reflexivity.
Qed.

Lemma getPriorityFee_cases_Script g fee m :
  (exists e, Script.getPriorityFee g fee m = (Threw e, m, [])) \/
  (exists base, Script.getPriorityFee g fee m = (Returned base, m, [])).
Proof.
  destruct (fee_unavailable fee) eqn:H.
  - left. apply Script_getPriorityFee_unavailable, H.
  - right. destruct fee as [[p|]|]; simpl in H; try discriminate.
    eexists. apply Script_getPriorityFee_quoted. apply Z.eqb_neq, H.
Qed.

Lemma getPriorityFee_cases_Sniper this fee m :
  (exists e, Sniper.getPriorityFee this fee m = (Threw e, m, [])) \/
  (exists base, Sniper.getPriorityFee this fee m = (Returned base, m, [])).
Proof.
  destruct (fee_unavailable fee) eqn:H.
  - left. apply Sniper_getPriorityFee_unavailable, H.
  - right. destruct fee as [[p|]|]; simpl in H; try discriminate.
    eexists. apply Sniper_getPriorityFee_quoted. apply Z.eqb_neq, H.
Qed.

(** *** One detected call *)

(** Unfold the attempt down to the matches on the node's answers. *)
Ltac unfold_run :=
  cbv [Sniper.attemptMint Sniper.buildAndSendMint
       Script.attemptMintWithBump Script.buildAndSendMint
       Async.getNonce Async.release Async.syncIfBehind getNonce_poll
       mbind mret Run_bind Run_ret await throw emit update try_catch try_finally
       negb orb].

Lemma live_wallet (w : option Wallet) : is_Some w -> bool_decide (is_Some w) = true.
Proof. intros H. apply bool_decide_eq_true_2, H. Qed.

Section Attempt.
Variable g : Script.Globals.
Variable this : Sniper.MintSniper.
Variable d : Detection.
Variable m : NonceManager.
Variables base bumped : Z.
Hypothesis Hsame : same_settings g this.
Hypothesis Hlive : live this.
Hypothesis Hfree : locked m = false.
Hypothesis Hquote : Sniper.getPriorityFee this (feeData d) m = (Returned base, m, []).
Hypothesis Hbump : Sniper.bumpPriority this base = Resolves bumped.

Lemma Script_quote : Script.getPriorityFee g (feeData d) m = (Returned base, m, []).
Proof.
  clear Hbump Hfree Hlive. destruct Hsame as (Hmax & _).
  revert Hquote. unfold Script.getPriorityFee, Sniper.getPriorityFee.
  rewrite Hmax.
  cbv [mbind Run_bind await mret Run_ret throw].
  destruct (feeData d) as [p|]; [|discriminate].
  destruct (Js.falsy_bigint p); [discriminate|]. exact (fun H => H).
Qed.

Lemma Script_bump :
  Js.parseUnits_String
    (Js.Math_ceil
       (Js.mul (Js.formatUnits_Number base gwei)
          (Prim2SF (Script.FEE_BUMP_FACTOR (Script.constants g))))) gwei = Resolves bumped.
Proof.
  destruct Hsame as (_ & Hfactor & _). rewrite Hfactor. exact Hbump.
Qed.

(** Both runs, with the fee quoted, the settings read and the bump done. *)
Ltac enter_Sniper :=
  unfold Sniper.attemptMint; cbv [mbind Run_bind]; rewrite Hquote;
  fold (@mbind Run _);
  destruct Hlive as (Hd & Hw & Hs);
  unfold_run; rewrite Hs, Hd, Hfree, (live_wallet _ Hw), Hbump;
  destruct m as [l n]; simpl in Hfree; subst l.

Ltac enter_Script :=
  unfold Script.attemptMintWithBump; cbv [mbind Run_bind]; rewrite Script_quote;
  fold (@mbind Run _);
  pose proof Script_bump as Hbump';
  destruct Hlive as (Hd & Hw & Hs);
  destruct Hsame as (_ & _ & Hdry & Hwallet);
  rewrite <- Hdry in Hd; rewrite <- Hwallet in Hw;
  unfold_run; rewrite (live_wallet _ Hw); unfold_run;
  rewrite Hd, Hfree, Hbump';
  destruct m as [l n]; simpl in Hfree; subst l.

Ltac by_replies :=
  destruct (populated (first d)) as [[]|], (sent (first d)), (waited (first d)),
           (counted (first d)), (populated (second d)) as [[]|], (sent (second d)),
           (waited (second d)), (counted (second d));
  try discriminate; repeat split; try reflexivity; try lia.

Lemma attempts_Sniper :
  attempts (trace (Sniper.attemptMint this d m)) =
    if some_call_rejects (first d) then [base; bumped] else [base].
Proof. enter_Sniper. unfold some_call_rejects. by_replies. Qed.

Lemma attempts_Script :
  attempts (trace (Script.attemptMintWithBump g d m)) =
    if some_call_rejects (first d) then [base; bumped] else [base].
Proof. enter_Script. unfold some_call_rejects. by_replies. Qed.

Lemma retry_Sniper :
  fails_after_build (first d) = true ->
  let r := Sniper.attemptMint this d m in
  outcome r = Returned tt /\
  attempts (trace r) = [base; bumped] /\
  allocated (trace r) = [nonce m; nonce m + 1] /\
  requests (trace r) = [(nonce m, base); (nonce m + 1, bumped)] /\
  broadcasts (trace r) =
    (if rejects (populated (second d)) then [(nonce m, base)]
     else [(nonce m, base); (nonce m + 1, bumped)]).
Proof.
  unfold fails_after_build. intros Hfail. enter_Sniper. revert Hfail. by_replies.
Qed.

Lemma retry_Script :
  fails_after_build (first d) = true ->
  let r := Script.attemptMintWithBump g d m in
  outcome r = Returned tt /\
  attempts (trace r) = [base; bumped] /\
  allocated (trace r) = [nonce m; nonce m + 1] /\
  requests (trace r) = [(nonce m, base); (nonce m + 1, bumped)] /\
  broadcasts (trace r) =
    (if rejects (populated (second d)) then [(nonce m, base)]
     else [(nonce m, base); (nonce m + 1, bumped)]).
Proof.
  unfold fails_after_build. intros Hfail. enter_Script. revert Hfail. by_replies.
Qed.
End Attempt.

(** *** One submission *)

Section Submission.
Variable g : Script.Globals.
Variable this : Sniper.MintSniper.
Variable node : Node.
Variable fee : Z.
Variable m : NonceManager.
Hypothesis Hwallet : is_Some (Script.wallet g).
Hypothesis Hselector : Js.falsy_string (Sniper.mintSelector this) = false.
Hypothesis Hfree : locked m = false.

Ltac enter :=
  unfold_run; rewrite ?(live_wallet _ Hwallet), ?Hselector; unfold_run;
  rewrite Hfree; destruct m as [l n]; simpl in Hfree; subst l.

Ltac by_node :=
  destruct (populated node) as [[]|], (sent node), (waited node), (counted node);
  try discriminate; repeat split; try reflexivity.

Lemma Script_release_once :
  populated node = Resolves tt ->
  let r := Script.buildAndSendMint g node fee m in
  releases (trace r) = 1%nat /\ locked (final r) = false.
Proof.
  intros Hbuilt. enter. revert Hbuilt.
  destruct (Script.DRY_RUN (Script.constants g)); by_node;
    cbn; apply syncIfBehind_locked.
Qed.

Lemma Sniper_release_once :
  populated node = Resolves tt ->
  let r := Sniper.buildAndSendMint this node fee m in
  releases (trace r) = 1%nat /\ locked (final r) = false.
Proof.
  intros Hbuilt. enter. revert Hbuilt.
  destruct (Sniper.dryRun (Sniper.cfg this)), (bool_decide (is_Some (Sniper.wallet this)));
    by_node.
Qed.

Lemma Script_build_failure :
  populated node = Rejects ->
  Script.buildAndSendMint g node fee m =
    (Threw (Rejected populateTransaction), {| locked := true; nonce := nonce m + 1 |},
     [Attempt fee; Allocate (nonce m); Populate (nonce m) fee]).
Proof. intros Hbuild. enter. rewrite Hbuild. reflexivity. Qed.

Lemma Sniper_build_failure :
  populated node = Rejects ->
  Sniper.buildAndSendMint this node fee m =
    (Threw (Rejected populateTransaction), {| locked := true; nonce := nonce m + 1 |},
     [Attempt fee; Allocate (nonce m); Populate (nonce m) fee]).
Proof. intros Hbuild. enter. rewrite Hbuild. reflexivity. Qed.
End Submission.

(** After a build failure the retry of the same detection is stuck in
    [next]: the orchestrator never returns. *)
Lemma build_failure_hangs_the_retry this d m base bumped :
  Js.falsy_string (Sniper.mintSelector this) = false ->
  locked m = false ->
  Sniper.getPriorityFee this (feeData d) m = (Returned base, m, []) ->
  Sniper.bumpPriority this base = Resolves bumped ->
  populated (first d) = Rejects ->
  Sniper.attemptMint this d m =
    (Hung, {| locked := true; nonce := nonce m + 1 |},
     [Attempt base; Allocate (nonce m); Populate (nonce m) base; Attempt bumped]).
Proof.
  intros Hsel Hfree Hquote Hbump Hbuild.
  unfold Sniper.attemptMint. cbv [mbind Run_bind]. rewrite Hquote.
  fold (@mbind Run _). unfold_run. rewrite Hsel, Hfree, Hbuild, Hbump.
  reflexivity.
Qed.

(** *** Dry run *)




Lemma Script_without_wallet g d m :
  Script.wallet g = None ->
  let r := Script.attemptMintWithBump g d m in
  allocated (trace r) = [] /\ broadcasts (trace r) = [] /\ final r = m.
Proof.
  intros Hw.
  destruct (getPriorityFee_cases_Script g (feeData d) m) as [[e He]|[base Hbase]];
    unfold Script.attemptMintWithBump; cbv [mbind Run_bind].
  - rewrite He. repeat split.
  - rewrite Hbase. fold (@mbind Run _). unfold_run. rewrite Hw. cbn.
    match goal with
    | |- context [match ?b with Resolves _ => _ | Rejects => _ end] => destruct b
    end; repeat split.
Qed.

Lemma Script_dry_run_never_broadcasts g d m :
  Script.DRY_RUN (Script.constants g) = true ->
  broadcasts (trace (Script.attemptMintWithBump g d m)) = [].
Proof.
  intros Hdry.
  destruct (getPriorityFee_cases_Script g (feeData d) m) as [[e He]|[base Hbase]];
    unfold Script.attemptMintWithBump; cbv [mbind Run_bind].
  - rewrite He. reflexivity.
  - rewrite Hbase. fold (@mbind Run _). unfold_run. rewrite Hdry.
    destruct (bool_decide (is_Some (Script.wallet g))), m as [[] n],
      (populated (first d)) as [[]|], (populated (second d)) as [[]|];
      cbn;
      repeat match goal with
      | |- context [match ?b with Resolves _ => _ | Rejects => _ end] => destruct b
      end; reflexivity.
Qed.

Lemma Sniper_dry_run_never_broadcasts this d m :
  Sniper.dryRun (Sniper.cfg this) = true ->
  broadcasts (trace (Sniper.attemptMint this d m)) = [].
Proof.
  intros Hdry.
  destruct (getPriorityFee_cases_Sniper this (feeData d) m) as [[e He]|[base Hbase]];
    unfold Sniper.attemptMint; cbv [mbind Run_bind].
  - rewrite He. reflexivity.
  - rewrite Hbase. fold (@mbind Run _). unfold_run. rewrite Hdry.
    destruct (Js.falsy_string (Sniper.mintSelector this)), m as [[] n],
      (populated (first d)) as [[]|], (populated (second d)) as [[]|];
      cbn;
      repeat match goal with
      | |- context [match ?b with Resolves _ => _ | Rejects => _ end] => destruct b
      end; reflexivity.
Qed.

(** In the script a dry run has no wallet, so both calls stop at the wallet
    guard: the dry-run branch is never reached and no nonce is handed out. *)
Example script_dry_run_stops_at_the_guard :
  Script.attemptMintWithBump Samples.script_dry
    (Samples.detection Samples.confirmed Samples.confirmed) NonceManager_new =
    (Returned tt, NonceManager_new, [Attempt 50000000000; Attempt 75000000000]).
Proof. vm_compute. reflexivity. Qed.

(** *** Start-up *)

Lemma falsy_string_false v :
  Js.falsy_string v = false -> exists s, v = Some s /\ s <> "".
Proof.
  destruct v as [s|]; simpl; [|discriminate].
  intros H. exists s. split; [reflexivity|]. apply bool_decide_eq_false in H. exact H.
Qed.

Lemma Script_main_needs_key js env connected count s :
  Script.main js env connected count = Ready s ->
  exists key, env !! "PRIVATE_KEY" = Some key /\ key <> "" /\ key <> placeholder.
Proof.
  unfold Script.main, Script.load.
  destruct (BigInt js (Js.or_else (env !! "MINT_VALUE") "0")); [|discriminate].
  destruct (BigInt js (Js.or_else (env !! "GAS_LIMIT") "500000")); [|discriminate].
  destruct (BigInt js (Js.or_else (env !! "MAX_PRIORITY_FEE_GWEI") "50")); [|discriminate].
  cbn.
  destruct (Js.falsy_string (env !! "RPC_WSS")); [discriminate|].
  destruct (Js.falsy_string (env !! "PRIVATE_KEY")) eqn:Hkey; [discriminate|].
  destruct (Js.falsy_string (env !! "TARGET_CONTRACT")); [discriminate|].
  cbn. case_bool_decide as Hph; [discriminate|]. intros _.
  destruct (falsy_string_false _ Hkey) as (key & Hk & Hne).
  exists key. repeat split; try assumption. intros ->. apply Hph, Hk.
Qed.

Lemma Sniper_start_needs_key js env selector connected count s :
  Sniper.start js env selector connected count = Ready s ->
  exists key, env !! "PRIVATE_KEY" = Some key /\ key <> "" /\ key <> placeholder.
Proof.
  unfold Sniper.start, Sniper.buildConfig, Sniper.required. cbn [existsb].
  destruct (Js.falsy_string (env !! "RPC_WSS")); [discriminate|].
  destruct (Js.falsy_string (env !! "PRIVATE_KEY")) eqn:Hkey; [discriminate|].
  destruct (Js.falsy_string (env !! "TARGET_CONTRACT")); [discriminate|].
  cbn. case_bool_decide as Hph; [discriminate|]. intros _.
  destruct (falsy_string_false _ Hkey) as (key & Hk & Hne).
  exists key. repeat split; try assumption. intros ->. apply Hph, Hk.
Qed.

Lemma Script_main_dry js env connected count g m :
  Script.main js env connected count = Ready (g, m) ->
  Script.DRY_RUN (Script.constants g) = true ->
  m = NonceManager_new /\ Script.wallet g = None.
Proof.
  unfold Script.main. destruct (Script.load js env) as [c|]; [|discriminate].
  repeat match goal with
         | |- context [if ?b then Exited 1 else _] => destruct b; [discriminate|]
         end.
  destruct (Script.DRY_RUN c) eqn:Hdry.
  - intros [= <- <-] _. split; reflexivity.
  - destruct (Wallet_accepts js _); [|discriminate].
    destruct count; [|discriminate].
    intros [= <- <-]. cbn. rewrite Hdry. discriminate.
Qed.


(** ** Binary64 rounding *)

Lemma digits2_pos_size p : digits2_pos p = Pos.size p.
Proof. induction p as [p IH|p IH|]; simpl; rewrite ?IH; reflexivity. Qed.

Lemma digits_bounds p :
  2 ^ (Zpos (digits2_pos p) - 1) <= Zpos p < 2 ^ Zpos (digits2_pos p).
Proof.
  rewrite digits2_pos_size.
  pose proof (Pos.size_gt p) as Hgt. pose proof (Pos.size_le p) as Hle.
  apply Pos2Z.pos_lt_pos in Hgt. apply Pos2Z.pos_le_pos in Hle.
  rewrite Pos2Z.inj_pow in Hgt, Hle. rewrite (Pos2Z.inj_xO p) in Hle.
  assert (Hs : 2 ^ Zpos (Pos.size p) = 2 * 2 ^ (Zpos (Pos.size p) - 1)).
  { rewrite <- Z.pow_succ_r by lia. f_equal. lia. }
  lia.
Qed.

Lemma digits_unique p d :
  2 ^ (d - 1) <= Zpos p < 2 ^ d -> Zpos (digits2_pos p) = d.
Proof.
  intros [Hlo Hhi]. pose proof (digits_bounds p) as [Hlo' Hhi'].
  destruct (Z.lt_trichotomy (Zpos (digits2_pos p)) d) as [Hlt|[Heq|Hgt]]; [|exact Heq|].
  - exfalso. assert (2 ^ Zpos (digits2_pos p) <= 2 ^ (d - 1))
      by (apply Z.pow_le_mono_r; lia). lia.
  - exfalso. assert (0 <= d \/ d < 0) as [Hd|Hd] by lia.
    + assert (2 ^ d <= 2 ^ (Zpos (digits2_pos p) - 1))
        by (apply Z.pow_le_mono_r; lia). lia.
    + rewrite (Z.pow_neg_r 2 d) in Hhi by lia. lia.
Qed.

Lemma shr_1_m mrs : 0 <= shr_m mrs -> shr_m (shr_1 mrs) = shr_m mrs / 2.
Proof.
  destruct mrs as [m r s]. simpl. intros Hm.
  destruct m as [|[p|p|]|p]; try lia; simpl.
  - reflexivity.
  - rewrite (Pos2Z.inj_xI p). apply Z.div_unique with (r := 1); lia.
  - rewrite (Pos2Z.inj_xO p). apply Z.div_unique with (r := 0); lia.
  - reflexivity.
Qed.

Lemma iter_shr_1_m n : forall mrs,
  0 <= shr_m mrs -> shr_m (SpecFloat.iter_pos shr_1 n mrs) = shr_m mrs / 2 ^ Zpos n.
Proof.
  assert (Hnn : forall mrs, 0 <= shr_m mrs -> 0 <= shr_m (shr_1 mrs)).
  { intros mrs H. rewrite shr_1_m by assumption. apply Z.div_pos; lia. }
  induction n as [n IH|n IH|]; intros mrs Hm; cbn [SpecFloat.iter_pos].
  - assert (0 <= shr_m (SpecFloat.iter_pos shr_1 n (shr_1 mrs)))
      by (rewrite IH by auto; apply Z.div_pos; [auto|lia]).
    rewrite IH, IH, shr_1_m by auto.
    rewrite !Z.div_div by lia. f_equal.
    rewrite (Pos2Z.inj_xI n). replace (2 * Zpos n + 1) with (1 + Zpos n + Zpos n) by lia.
    rewrite !Z.pow_add_r by lia. ring.
  - assert (0 <= shr_m (SpecFloat.iter_pos shr_1 n mrs))
      by (rewrite IH by auto; apply Z.div_pos; [auto|lia]).
    rewrite IH, IH by auto.
    rewrite !Z.div_div by lia. f_equal.
    rewrite (Pos2Z.inj_xO n). replace (2 * Zpos n) with (Zpos n + Zpos n) by lia.
    rewrite !Z.pow_add_r by lia. ring.
  - rewrite shr_1_m by assumption. reflexivity.
Qed.

Lemma shr_record_of_loc_m m l : shr_m (shr_record_of_loc m l) = m.
Proof. destruct l as [|[]]; reflexivity. Qed.

Lemma round_nearest_even_range m l :
  round_nearest_even m l = m \/ round_nearest_even m l = m + 1.
Proof. destruct l as [|[]]; simpl; auto. destruct (Z.even m); auto. Qed.

(** Shifting right by [n >= 0] places. *)
Lemma shr_m_spec mrs e n :
  0 <= shr_m mrs -> 0 <= n ->
  shr_m (shr mrs e n).1 = shr_m mrs / 2 ^ n /\ (shr mrs e n).2 = e + n.
Proof.
  intros Hm Hn. destruct n as [|n|n]; try lia; simpl.
  - rewrite Z.div_1_r. split; [reflexivity|lia].
  - rewrite iter_shr_1_m by assumption. split; reflexivity.
Qed.

Lemma fexp_normal x : -1074 <= x - 53 -> fexp prec emax x = x - 53.
Proof. unfold fexp, SpecFloat.emin, prec, emax. lia. Qed.

Lemma div_pow2_bounds m d k :
  0 <= k -> k <= d - 1 -> 2 ^ (d - 1) <= m < 2 ^ d ->
  2 ^ (d - 1 - k) <= m / 2 ^ k < 2 ^ (d - k).
Proof.
  intros Hk Hd [Hlo Hhi].
  assert (Hp : 0 < 2 ^ k) by (apply Z.pow_pos_nonneg; lia).
  split.
  - apply Z.div_le_lower_bound; [exact Hp|].
    rewrite <- Z.pow_add_r by lia. replace (k + (d - 1 - k)) with (d - 1) by lia. exact Hlo.
  - apply Z.div_lt_upper_bound; [exact Hp|].
    rewrite <- Z.pow_add_r by lia. replace (k + (d - k)) with d by lia. exact Hhi.
Qed.

(** Rounding a mantissa of at least 53 bits in the normal range: the result
    is a normal float, at least the truncation of the input to 53 bits and
    at most one unit in the last place above it. *)
Lemma binary_round_aux_normal (s : bool) (m : positive) (e : Z) (l : location) :
  let d := Zpos (digits2_pos m) in
  let t := e + (d - 53) in
  53 <= d ->
  -1074 <= t ->
  t < 971 ->
  exists m' e',
    binary_round_aux prec emax s (Zpos m) e l = S754_finite s m' e' /\
    Zpos (digits2_pos m') = 53 /\
    t <= e' <= t + 1 /\
    Zpos m / 2 ^ (d - 53) <= Zpos m' * 2 ^ (e' - t) <= Zpos m / 2 ^ (d - 53) + 1.
Proof.
  intros d t Hd Hmin Hmax.
  pose proof (digits_bounds m) as Hm. fold d in Hm.
  pose proof (div_pow2_bounds (Zpos m) d (d - 53) ltac:(lia) ltac:(lia) Hm) as Hm1.
  replace (d - 1 - (d - 53)) with 52 in Hm1 by lia.
  replace (d - (d - 53)) with 53 in Hm1 by lia.
  set (m1 := Zpos m / 2 ^ (d - 53)) in *.
  unfold binary_round_aux, shr_fexp.
  cbn [Zdigits2]. fold d.
  rewrite fexp_normal by (unfold t in Hmin; lia).
  replace (d + e - 53 - e) with (d - 53) by lia.
  pose proof (shr_m_spec (shr_record_of_loc (Zpos m) l) e (d - 53)) as Hshr.
  rewrite shr_record_of_loc_m in Hshr. specialize (Hshr ltac:(lia) ltac:(lia)).
  destruct (shr (shr_record_of_loc (Zpos m) l) e (d - 53)) as [mrs1 e1].
  cbn [fst snd] in Hshr. destruct Hshr as [Hmrs1 He1]. fold m1 in Hmrs1.
  fold t in He1. subst e1. rewrite Hmrs1.
  destruct (round_nearest_even_range m1 (loc_of_shr_record mrs1)) as [Hr|Hr];
    rewrite Hr; clear Hr.
  - (* rounded down *)
    destruct m1 as [|p1|p1] eqn:Hp1; try lia.
    cbn [Zdigits2]. rewrite (digits_unique p1 53) by (simpl; lia).
    rewrite fexp_normal by lia. replace (53 + t - 53 - t) with 0 by lia.
    cbn [shr shr_record_of_loc shr_m].
    replace (t <=? emax - prec) with true by (symmetry; apply Z.leb_le; unfold emax, prec; lia).
    exists p1, t. repeat split; try lia.
    + apply digits_unique. simpl. lia.
    + rewrite Z.sub_diag. simpl. lia.
    + rewrite Z.sub_diag. simpl. lia.
  - (* rounded up *)
    destruct (Z.eq_dec (m1 + 1) (2 ^ 53)) as [Hc|Hc].
    + (* carry into the next binade *)
      rewrite Hc. change (2 ^ 53) with (Zpos (2 ^ 53)%positive).
      cbn [Zdigits2]. change (Zpos (digits2_pos (2 ^ 53))) with 54.
      rewrite fexp_normal by lia. replace (54 + t - 53 - t) with 1 by lia.
      cbn [shr SpecFloat.iter_pos shr_record_of_loc shr_1 shr_m Pos.pow Pos.iter Pos.mul].
      replace (t + 1 <=? emax - prec) with true
        by (symmetry; apply Z.leb_le; unfold emax, prec; lia).
      eexists _, (t + 1). repeat split; try lia.
      * replace (t + 1 - t) with 1 by lia.
        change (2 ^ 53) with 9007199254740992 in Hc. lia.
      * replace (t + 1 - t) with 1 by lia.
        change (2 ^ 53) with 9007199254740992 in Hc. lia.
    + destruct (m1 + 1) as [|p2|p2] eqn:Hp2; try lia.
      cbn [Zdigits2]. rewrite (digits_unique p2 53) by (simpl; lia).
      rewrite fexp_normal by lia. replace (53 + t - 53 - t) with 0 by lia.
      cbn [shr shr_record_of_loc shr_m].
      replace (t <=? emax - prec) with true
        by (symmetry; apply Z.leb_le; unfold emax, prec; lia).
      exists p2, t. repeat split; try lia.
      * apply digits_unique. simpl. lia.
      * rewrite Z.sub_diag. simpl. lia.
      * rewrite Z.sub_diag. simpl. lia.
Qed.

(** A 53-bit mantissa in range is left as it is. *)
Lemma binary_round_aux_exact (s : bool) (m : positive) (e : Z) :
  Zpos (digits2_pos m) = 53 -> -1074 <= e <= 971 ->
  binary_round_aux prec emax s (Zpos m) e loc_Exact = S754_finite s m e.
Proof.
  intros Hd He. unfold binary_round_aux, shr_fexp. cbn [Zdigits2]. rewrite Hd.
  rewrite fexp_normal by lia. replace (53 + e - 53 - e) with 0 by lia.
  cbn [shr shr_record_of_loc shr_m loc_of_shr_record round_nearest_even Zdigits2].
  rewrite Hd, fexp_normal by lia. replace (53 + e - 53 - e) with 0 by lia.
  cbn [shr shr_record_of_loc shr_m].
  replace (e <=? emax - prec) with true
    by (symmetry; apply Z.leb_le; unfold emax, prec; lia).
  reflexivity.
Qed.

Lemma iter_xO p d : Zpos (Pos.iter xO p d) = Zpos p * 2 ^ Zpos d.
Proof.
  induction d as [|d IH] using Pos.peano_ind.
  - simpl. lia.
  - rewrite Pos.iter_succ, Pos2Z.inj_xO, IH, Pos2Z.inj_succ, Z.pow_succ_r by lia. ring.
Qed.

(** An integer of at most 53 bits is held exactly, and printed as it is. *)
Lemma String_integer_of_integer (c : positive) :
  Zpos c < 2 ^ 53 ->
  Js.String_integer (Js.Number_of_integer (Zpos c) false) = Some (Zpos c).
Proof.
  intros Hc. pose proof (digits_bounds c) as Hdc.
  set (dc := Zpos (digits2_pos c)) in *.
  assert (Hdc53 : 1 <= dc <= 53).
  { split; [unfold dc; lia|].
    destruct (Z_le_gt_dec dc 53) as [H|H]; [exact H|exfalso].
    assert (2 ^ 53 <= 2 ^ (dc - 1)) by (apply Z.pow_le_mono_r; lia). lia. }
  unfold Js.Number_of_integer, binary_normalize, binary_round.
  fold dc. rewrite Z.add_0_r, fexp_normal by lia.
  unfold shl_align. rewrite Z.sub_0_r.
  destruct (dc - 53) as [|n|n] eqn:Hn; try lia.
  - (* 53 bits *)
    rewrite binary_round_aux_exact by (fold dc; lia).
    unfold Js.String_integer. cbn [Z.ltb Z.compare Z.eqb].
    rewrite Z.pow_0_r, Z.mul_1_r.
    replace (Zpos c <? 10 ^ 21) with true
      by (symmetry; apply Z.ltb_lt; change (2 ^ 53) with 9007199254740992 in Hc;
          change (10 ^ 21) with 1000000000000000000000; lia).
    reflexivity.
  - (* fewer: aligned to the left *)
    assert (Hm : Zpos (Pos.iter xO c n) = Zpos c * 2 ^ Zpos n) by apply iter_xO.
    assert (Hp : 0 < 2 ^ Zpos n) by (apply Z.pow_pos_nonneg; lia).
    rewrite binary_round_aux_exact.
    + unfold Js.String_integer. cbn [Z.ltb Z.compare Z.opp].
      rewrite Hm, Z.mod_mul, Z.div_mul by lia. reflexivity.
    + apply digits_unique. rewrite Hm.
      assert (Hn' : Zpos n = 53 - dc) by lia.
      replace 53 with (dc + Zpos n) at 2 by lia.
      replace (53 - 1) with ((dc - 1) + Zpos n) by lia.
      rewrite !Z.pow_add_r by lia. nia.
    + lia.
Qed.

(** *** The fee in gwei *)

(** For a fee below [2^52] wei the float read back from its gwei amount is
    normal and lies strictly above every whole number of gwei strictly below
    the fee: [G] gwei, with [G = (F - 1) / 10^9]. *)
Lemma formatUnits_Number_above (F : positive) :
  Zpos F < 2 ^ 52 ->
  exists ma ea,
    Js.formatUnits_Number (Zpos F) gwei = S754_finite false ma ea /\
    Zpos (digits2_pos ma) = 53 /\
    -82 <= ea <= -29 /\
    (Zpos F - 1) / 10 ^ 9 * 2 ^ (- ea) < Zpos ma.
Proof.
  intros HF. pose proof (digits_bounds F) as HdF.
  set (d1 := Zpos (digits2_pos F)) in *.
  assert (Hd1 : 1 <= d1 <= 52).
  { split; [unfold d1; lia|].
    destruct (Z_le_gt_dec d1 52) as [H|H]; [exact H|exfalso].
    assert (2 ^ 52 <= 2 ^ (d1 - 1)) by (apply Z.pow_le_mono_r; lia). lia. }
  set (s := 83 - d1).
  assert (Hs : 31 <= s <= 82) by (unfold s; lia).
  unfold Js.formatUnits_Number, gwei, SF64div, SFdiv, SFdiv_core_binary.
  change (Z.to_pos (10 ^ 9)) with 1000000000%positive.
  cbn [Zdigits2]. fold d1.
  change (Zpos (digits2_pos 1000000000)) with 30.
  rewrite !Z.add_0_r, Z.sub_0_r.
  rewrite fexp_normal by lia.
  rewrite Z.min_l by lia.
  replace (0 - (d1 - 30 - 53)) with s by (unfold s; lia).
  destruct s as [|ps|ps] eqn:Hps; try lia. rewrite <- Hps.
  rewrite Z.shiftl_mul_pow2 by lia.
  set (m' := Zpos F * 2 ^ s).
  assert (Hm' : 2 ^ 82 <= m' < 2 ^ 83).
  { unfold m'. replace 82 with ((d1 - 1) + s) by (unfold s; lia).
    replace 83 with (d1 + s) by (unfold s; lia).
    rewrite !Z.pow_add_r by lia.
    assert (0 < 2 ^ s) by (apply Z.pow_pos_nonneg; lia). nia. }
  pose proof (Z_div_mod m' 1000000000 ltac:(lia)) as Hdm.
  destruct (Z.div_eucl m' 1000000000) as [q r]. destruct Hdm as [Hq Hr].
  assert (Hqb : 2 ^ 52 < q < 2 ^ 54).
  { change (2 ^ 82) with (2 ^ 52 * 1073741824) in Hm'.
    change (2 ^ 83) with (2 ^ 54 * 536870912) in Hm'.
    assert (0 < 2 ^ 52) by (apply Z.pow_pos_nonneg; lia).
    assert (0 < 2 ^ 54) by (apply Z.pow_pos_nonneg; lia). nia. }
  destruct q as [|pq|pq]; try (change (2 ^ 52) with 4503599627370496 in Hqb; lia).
  pose proof (digits_bounds pq) as Hdq.
  set (dq := Zpos (digits2_pos pq)) in *.
  assert (Hdq' : dq = 53 \/ dq = 54).
  { assert (Hlow : 52 < dq).
    { destruct (Z_lt_ge_dec 52 dq) as [Hc|Hc]; [exact Hc|exfalso].
      assert (2 ^ dq <= 2 ^ 52) by (apply Z.pow_le_mono_r; lia). lia. }
    assert (Hhigh : dq - 1 < 54).
    { destruct (Z_lt_ge_dec (dq - 1) 54) as [Hc|Hc]; [exact Hc|exfalso].
      assert (2 ^ 54 <= 2 ^ (dq - 1)) by (apply Z.pow_le_mono_r; lia). lia. }
    lia. }
  destruct (binary_round_aux_normal false pq (d1 - 30 - 53) (new_location 1000000000 r))
    as (ma & ea & Hres & Hdma & Hea & Hlo & Hhi); fold dq; try lia.
  fold dq in Hea, Hlo, Hhi.
  exists ma, ea. split; [exact Hres|]. split; [exact Hdma|]. split; [lia|].
  (* the bound, at scale [2^s] *)
  set (G := (Zpos F - 1) / 10 ^ 9).
  assert (HG : 0 <= G /\ G * 10 ^ 9 + 1 <= Zpos F).
  { unfold G. pose proof (Z.mul_div_le (Zpos F - 1) (10 ^ 9) ltac:(lia)).
    split; [apply Z.div_pos; lia | lia]. }
  assert (Hpow : 2 * 1000000000 < 2 ^ s).
  { assert (2 ^ 31 <= 2 ^ s) by (apply Z.pow_le_mono_r; lia).
    change (2 ^ 31) with 2147483648 in *. lia. }
  assert (Hq2 : G * 2 ^ s + 2 <= Zpos pq).
  { change (10 ^ 9) with 1000000000 in HG. unfold m' in Hq.
    assert (0 < 2 ^ s) by lia. nia. }
  set (t := d1 - 30 - 53 + (dq - 53)) in *.
  assert (Hts : t = - s + (dq - 53)) by (unfold t, s; lia).
  (* truncating [q] to 53 bits loses less than one unit *)
  assert (Htr : Zpos pq - 1 <= Zpos pq / 2 ^ (dq - 53) * 2 ^ (dq - 53)).
  { destruct Hdq' as [-> | ->].
    - replace (53 - 53) with 0 by lia. rewrite Z.pow_0_r, Z.div_1_r. lia.
    - replace (54 - 53) with 1 by lia. rewrite Z.pow_1_r.
      pose proof (Z.mul_div_le (Zpos pq) 2 ltac:(lia)).
      pose proof (Z.mod_pos_bound (Zpos pq) 2 ltac:(lia)).
      pose proof (Z.div_mod (Zpos pq) 2 ltac:(lia)). lia. }
  assert (Hscale : Zpos ma * 2 ^ (ea + s) = Zpos ma * 2 ^ (ea - t) * 2 ^ (dq - 53)).
  { rewrite <- Z.mul_assoc, <- Z.pow_add_r by lia. do 2 f_equal. lia. }
  assert (Hpos : 0 < 2 ^ (dq - 53)) by (apply Z.pow_pos_nonneg; lia).
  assert (Hval : G * 2 ^ s < Zpos ma * 2 ^ (ea + s)) by (rewrite Hscale; nia).
  assert (Hsplit : 2 ^ s = 2 ^ (- ea) * 2 ^ (ea + s)).
  { rewrite <- Z.pow_add_r by lia. f_equal. lia. }
  rewrite Hsplit in Hval.
  assert (0 < 2 ^ (ea + s)) by (apply Z.pow_pos_nonneg; lia).
  nia.
Qed.

(** *** The product *)

(** Multiplying by a factor in [[1, 2^20]] does not take a normal float in
    [(G, 2^24)] down to [G] or below. *)
Lemma mul_stays_above (ma mf : positive) (ea ef G : Z) :
  Zpos (digits2_pos ma) = 53 -> -82 <= ea <= -29 ->
  Zpos (digits2_pos mf) = 53 -> -52 <= ef <= -32 ->
  0 <= G -> G * 2 ^ (- ea) < Zpos ma ->
  exists mp ep,
    Js.mul (S754_finite false ma ea) (S754_finite false mf ef) = S754_finite false mp ep /\
    Zpos (digits2_pos mp) = 53 /\
    -82 <= ep <= -7 /\
    G * 2 ^ (- ep) < Zpos mp.
Proof.
  intros Hda Hea Hdf Hef HG Habove.
  pose proof (digits_bounds ma) as Hma. rewrite Hda in Hma.
  pose proof (digits_bounds mf) as Hmf. rewrite Hdf in Hmf.
  replace (53 - 1) with 52 in Hma, Hmf by lia.
  unfold Js.mul, SF64mul, SFmul. cbn [xorb].
  set (M := (ma * mf)%positive).
  assert (HM : Zpos M = Zpos ma * Zpos mf) by reflexivity.
  assert (HMb : 2 ^ 104 <= Zpos M < 2 ^ 106).
  { change (2 ^ 104) with (2 ^ 52 * 2 ^ 52). change (2 ^ 106) with (2 ^ 53 * 2 ^ 53).
    assert (0 < 2 ^ 52) by (apply Z.pow_pos_nonneg; lia). nia. }
  pose proof (digits_bounds M) as HdM.
  set (dM := Zpos (digits2_pos M)) in *.
  assert (HdM' : dM = 105 \/ dM = 106).
  { assert (Hlow : 104 < dM).
    { destruct (Z_lt_ge_dec 104 dM) as [Hc|Hc]; [exact Hc|exfalso].
      assert (2 ^ dM <= 2 ^ 104) by (apply Z.pow_le_mono_r; lia). lia. }
    assert (Hhigh : dM - 1 < 106).
    { destruct (Z_lt_ge_dec (dM - 1) 106) as [Hc|Hc]; [exact Hc|exfalso].
      assert (2 ^ 106 <= 2 ^ (dM - 1)) by (apply Z.pow_le_mono_r; lia). lia. }
    lia. }
  set (n := dM - 53).
  destruct (binary_round_aux_normal false M (ea + ef) loc_Exact)
    as (mp & ep & Hres & Hdmp & Hep & Hlo & _); fold dM; try lia.
  fold dM in Hep, Hlo. fold n in Hep, Hlo.
  exists mp, ep. split; [exact Hres|]. split; [exact Hdmp|]. split; [lia|].
  set (Mt := Zpos M / 2 ^ n) in *.
  assert (Hpn : 0 < 2 ^ n) by (apply Z.pow_pos_nonneg; unfold n; lia).
  assert (HMt : 2 ^ 52 <= Mt).
  { unfold Mt. apply Z.div_le_lower_bound; [exact Hpn|].
    rewrite <- Z.pow_add_r by (unfold n; lia).
    replace (n + 52) with (dM - 1) by (unfold n; lia). lia. }
  (* the truncated product is at least [a], at the scale of the exact product *)
  assert (Hpf : 0 < 2 ^ (- ef)) by (apply Z.pow_pos_nonneg; lia).
  assert (Hf1 : 2 ^ (- ef) <= Zpos mf).
  { assert (2 ^ (- ef) <= 2 ^ 52) by (apply Z.pow_le_mono_r; lia). lia. }
  assert (Htrunc : Zpos ma * 2 ^ (- ef) <= Mt * 2 ^ n).
  { destruct (Z.eq_dec n (- ef)) as [Heq|Hne].
    - (* same binade *)
      rewrite <- Heq in *.
      assert (Zpos ma <= Mt); [|nia].
      unfold Mt. apply Z.div_le_lower_bound; [exact Hpn|]. nia.
    - (* the product is in a higher binade *)
      assert (Hlt : - ef + 1 <= n) by (unfold n in *; lia).
      assert (2 ^ (- ef) * 2 <= 2 ^ n).
      { rewrite <- (Z.pow_1_r 2) at 2. rewrite <- Z.pow_add_r by lia.
        apply Z.pow_le_mono_r; lia. }
      change (2 ^ 53) with (2 ^ 52 * 2) in Hma.
      assert (0 < 2 ^ 52) by (apply Z.pow_pos_nonneg; lia). nia. }
  (* back to the scale of the result *)
  set (E := ea + ef).
  assert (Hscale : Zpos mp * 2 ^ (ep - E) = Zpos mp * 2 ^ (ep - (E + n)) * 2 ^ n).
  { rewrite <- Z.mul_assoc, <- Z.pow_add_r by (unfold E, n in *; lia).
    do 2 f_equal. lia. }
  assert (HGE : G * 2 ^ (- E) < Zpos mp * 2 ^ (ep - E)).
  { rewrite Hscale. unfold E at 1. replace (- (ea + ef)) with (- ea + - ef) by lia.
    rewrite Z.pow_add_r, Z.mul_assoc by lia.
    apply Z.lt_le_trans with (Zpos ma * 2 ^ (- ef)).
    - apply Z.mul_lt_mono_pos_r; assumption.
    - apply Z.le_trans with (Mt * 2 ^ n); [exact Htrunc|].
      apply Z.mul_le_mono_nonneg_r; [lia | exact Hlo]. }
  assert (Hsplit : 2 ^ (- E) = 2 ^ (- ep) * 2 ^ (ep - E)).
  { rewrite <- Z.pow_add_r by (unfold E, n in *; lia). f_equal. lia. }
  rewrite Hsplit in HGE.
  assert (0 < 2 ^ (ep - E)) by (apply Z.pow_pos_nonneg; unfold E, n in *; lia).
  nia.
Qed.

(** A factor between 1 and [2^20]: a normal float with exponent in
    [[-52, -32]]. *)
Lemma factor_decoded (factor : float) :
  (1 <=? factor)%float = true ->
  (factor <=? 1048576)%float = true ->
  exists mf ef,
    Prim2SF factor = S754_finite false mf ef /\
    Zpos (digits2_pos mf) = 53 /\ -52 <= ef <= -32.
Proof.
  rewrite !leb_spec. intros Hlo Hhi.
  pose proof (Prim2SF_valid factor) as Hvalid.
  change (Prim2SF 1) with (S754_finite false 4503599627370496 (-52)) in Hlo.
  change (Prim2SF 1048576) with (S754_finite false 4503599627370496 (-32)) in Hhi.
  destruct (Prim2SF factor) as [s|s| |s mf ef];
    try (destruct s; discriminate); try discriminate.
  destruct s; [discriminate|].
  unfold SFleb, SFcompare in Hlo, Hhi.
  unfold SpecFloat.valid_binary, bounded, canonical_mantissa in Hvalid.
  apply andb_prop in Hvalid as [Hcan _]. apply Z.eqb_eq in Hcan.
  unfold fexp, SpecFloat.emin, prec, emax in Hcan.
  exists mf, ef. split; [reflexivity|].
  assert (Hef : -52 <= ef <= -32).
  { split.
    - destruct (Z.compare_spec (-52) ef); try lia; discriminate.
    - destruct (Z.compare_spec ef (-32)); try lia; discriminate. }
  split; [lia | exact Hef].
Qed.

Lemma bumped_fee_above (factor : float) (base : Z) :
  (1 <=? factor)%float = true ->
  (factor <=? 1048576)%float = true ->
  0 <= base < 2 ^ 52 ->
  exists c,
    bumped_fee factor base = Resolves (c * 10 ^ 9) /\
    base <= c * 10 ^ 9 /\
    is_ceiling c (Js.mul (Js.formatUnits_Number base gwei) (Prim2SF factor)).
Proof.
  intros Hlo Hhi [Hb0 Hb].
  destruct (factor_decoded factor Hlo Hhi) as (mf & ef & Hf & Hdf & Hef).
  unfold bumped_fee. rewrite Hf.
  destruct base as [|F|F]; try lia.
  - (* no fee *)
    exists 0. repeat split. lia.
  - destruct (formatUnits_Number_above F Hb) as (ma & ea & Ha & Hda & Hea & Habove).
    set (G := (Zpos F - 1) / 10 ^ 9) in *.
    assert (HG : 0 <= G /\ Zpos F <= (G + 1) * 10 ^ 9).
    { unfold G. pose proof (Z.mul_div_le (Zpos F - 1) (10 ^ 9) ltac:(lia)).
      pose proof (Z.mod_pos_bound (Zpos F - 1) (10 ^ 9) ltac:(lia)).
      pose proof (Z.div_mod (Zpos F - 1) (10 ^ 9) ltac:(lia)).
      split; [apply Z.div_pos; lia | lia]. }
    destruct (mul_stays_above ma mf ea ef G Hda Hea Hdf Hef (proj1 HG) Habove)
      as (mp & ep & Hp & Hdmp & Hep & Hpabove).
    rewrite Ha, Hp.
    pose proof (digits_bounds mp) as Hmp. rewrite Hdmp in Hmp.
    set (D := 2 ^ (- ep)) in *.
    assert (HD : 1 <= D).
    { unfold D. change 1 with (2 ^ 0). apply Z.pow_le_mono_r; lia. }
    set (c := - (- Zpos mp / D)).
    assert (Hc : (c - 1) * D < Zpos mp <= c * D).
    { unfold c. pose proof (Z.mul_div_le (- Zpos mp) D ltac:(lia)).
      pose proof (Z.mod_pos_bound (- Zpos mp) D ltac:(lia)).
      pose proof (Z.div_mod (- Zpos mp) D ltac:(lia)). nia. }
    assert (HcG : G + 1 <= c) by nia.
    assert (Hc53 : c < 2 ^ 53) by nia.
    exists c. split; [|split].
    + unfold Js.Math_ceil.
      replace (0 <=? ep) with false by (symmetry; apply Z.leb_gt; lia).
      cbn [cond_Zopp]. fold D. change (Z.neg mp) with (- Zpos mp). fold c.
      destruct c as [|pc|pc] eqn:Hpc; try lia.
      unfold Js.parseUnits_String. rewrite String_integer_of_integer by lia.
      reflexivity.
    + change (10 ^ 9) with 1000000000 in *. nia.
    + unfold is_ceiling.
      replace (ep <? 0) with true by (symmetry; apply Z.ltb_lt; lia).
      cbn [cond_Zopp]. fold D. exact Hc.
Qed.

(** *** The bump *)

(** The model's product is the primitive one. *)
Lemma mul_primitive (x y : float) : Js.mul (Prim2SF x) (Prim2SF y) = Prim2SF (x * y).
Proof. unfold Js.mul. symmetry. apply mul_spec. Qed.

Lemma bumpPriority_bumped_fee this base :
  Sniper.bumpPriority this base = bumped_fee (Sniper.feeBumpFactor (Sniper.cfg this)) base.
Proof. reflexivity. Qed.

(** The script computes the same three lines in its [catch] block. *)
Lemma attemptMintWithBump_bumped_fee g d :
  Script.attemptMintWithBump g d =
    (base ← Script.getPriorityFee g (feeData d);
     try_catch
       (_ ← Script.buildAndSendMint g (first d) base;
        mret tt)
       (fun e =>
          bumped ← await parseUnits
                     (bumped_fee (Script.FEE_BUMP_FACTOR (Script.constants g)) base);
          try_catch
            (_ ← Script.buildAndSendMint g (second d) bumped;
             mret tt)
            (fun err => mret tt))).
Proof. reflexivity. Qed.

(** 50 gwei at factor 1.5: 75 gwei; 1.5 gwei: 3 gwei (2.25 rounded up to a
    whole gwei); a single wei: 1 gwei. *)
Example bump_examples :
  bumped_fee 1.5 50000000000 = Resolves 75000000000 /\
  bumped_fee 1.5 1500000000 = Resolves 3000000000 /\
  bumped_fee 1.5 1 = Resolves 1000000000 /\
  SF2Prim (Js.formatUnits_Number 1500000000 gwei) = 1.5%float /\
  SF2Prim (Js.formatUnits_Number 100000000 gwei) = (1 / 10)%float.
Proof. repeat split; vm_compute; reflexivity. Qed.

(** With a factor of 1 a fee of [2^24] gwei and one wei reads back as
    [2^24] gwei exactly, and the bump falls one wei short. *)
Lemma large_fee_rounds_below :
  bumped_fee 1 16777216000000001 = Resolves 16777216000000000.
Proof. vm_compute. reflexivity. Qed.

(** From [2^53] on, [String] prints the shortest decimal that reads back
    as the product, not the product itself: 1 gwei at factor [2^60] gives
    1152921504606847000 gwei, not [2^60] gwei. *)
Lemma large_product_prints_rounded :
  bumped_fee 1152921504606846976 1000000000 = Resolves (1152921504606847000 * 10 ^ 9) /\
  1152921504606847000 <> 2 ^ 60.
Proof. split; [vm_compute; reflexivity | discriminate]. Qed.

(** A product from [10^21] on prints in exponent notation, which
    [parseUnits] refuses (here the factor is [2^80]); so does NaN. *)
Lemma unprintable_product_throws :
  bumped_fee 1208925819614629174706176 50000000000 = Rejects /\ bumped_fee nan 50000000000 = Rejects.
Proof. split; vm_compute; reflexivity. Qed.

(** ** Callers and resyncs interleaved *)

Lemma StronglySorted_snoc (l : list Z) (x : Z) :
  StronglySorted Z.lt l -> Forall (fun y => y < x) l -> StronglySorted Z.lt (l ++ [x]).
Proof.
  induction l as [|a l IH]; intros Hs Hall; simpl.
  - repeat constructor.
  - apply StronglySorted_inv in Hs as [Hs Ha].
    apply Forall_cons in Hall as [Hax Hall].
    constructor; [apply IH; assumption|].
    apply Forall_app. split; [exact Ha | repeat constructor; exact Hax].
Qed.

Lemma StronglySorted_lt_NoDup (l : list Z) : StronglySorted Z.lt l -> NoDup l.
Proof.
  induction 1 as [|a l Hs IH Ha]; constructor; [|exact IH].
  intros Hin. rewrite Forall_forall in Ha. specialize (Ha _ Hin). lia.
Qed.

Lemma issue_resync_inv start N : resync_inv start (issue start N).
Proof.
  destruct (issue_inv start N) as [_ _ _ Hflag Hret].
  split; simpl; try assumption; try constructor; lia.
Qed.

Lemma act_resync_inv start a s : resync_inv start s -> resync_inv start (act a s).
Proof.
  intros [Hflag Hsorted Hrange Hstart Hret]. destruct a as [i|c]; simpl.
  - unfold resume.
    destruct (callers s !! i) as [[| n | n]|] eqn:Hi; [| | split; assumption ..].
    + unfold getNonce_poll. destruct (locked (manager s)) eqn:Hl.
      * split; simpl; try assumption. rewrite Hl. exact Hflag.
      * split; simpl.
        -- unfold holders in *. simpl.
           pose proof (holders_split _ _ _ Hi (Holding (nonce (manager s)))) as H.
           simpl in H. lia.
        -- apply StronglySorted_snoc; [exact Hsorted|].
           eapply Forall_impl; [exact Hrange|]. simpl. intros; lia.
        -- apply Forall_app. split.
           ++ eapply Forall_impl; [exact Hrange|]. simpl. intros; lia.
           ++ repeat constructor; lia.
        -- lia.
        -- pose proof (returned_split _ _ _ (Holding (nonce (manager s))) Hi) as H.
           simpl in H. rewrite app_nil_r in H. rewrite H, Hret. reflexivity.
    + assert (Hone : holders s = 1%nat /\ locked (manager s) = true).
      { unfold holders in *.
        pose proof (holders_split _ _ _ Hi (Finished n)) as H. simpl in H.
        destruct (locked (manager s)); [split; [assumption|reflexivity] | lia]. }
      destruct Hone as [Hone Hl].
      split; simpl; try assumption.
      * unfold holders in *. simpl.
        pose proof (holders_split _ _ _ Hi (Finished n)) as H. simpl in H. lia.
      * pose proof (returned_split _ _ _ (Finished n) Hi) as H. simpl in H.
        apply (Permutation_app_inv_r [n]) in H. rewrite H. exact Hret.
  - pose proof (syncIfBehind_nonce c (manager s)) as Hn.
    pose proof (syncIfBehind_locked c (manager s)) as Hl.
    split; simpl; try assumption.
    + unfold holders in *. simpl. rewrite Hl. exact Hflag.
    + eapply Forall_impl; [exact Hrange|]. simpl. intros; lia.
    + lia.
Qed.

Lemma run_actions_resync_inv start actions : forall s,
  resync_inv start s -> resync_inv start (run_actions actions s).
Proof.
  induction actions as [|a rest IH]; intros s Hs; simpl; [exact Hs|].
  apply IH, act_resync_inv, Hs.
Qed.

(** *** A holder that is never resumed *)

Lemma two_holders cs i j n n' :
  i <> j -> cs !! i = Some (Holding n) -> cs !! j = Some (Holding n') ->
  (2 <= length (filter is_holding cs))%nat.
Proof.
  intros Hij Hi Hj.
  pose proof (holders_split _ _ _ Hj Waiting) as H1. simpl in H1.
  assert (Hi' : <[j := Waiting]> cs !! i = Some (Holding n))
    by (rewrite list_lookup_insert_ne by congruence; exact Hi).
  pose proof (holders_split _ _ _ Hi' Waiting) as H2. simpl in H2. lia.
Qed.

Lemma unresumed_holder_blocks start i n actions : forall s,
  resync_inv start s ->
  callers s !! i = Some (Holding n) ->
  Forall (fun a => a <> Resume i) actions ->
  let s' := run_actions actions s in
  callers s' = callers s /\ acquired s' = acquired s /\ locked (manager s') = true.
Proof.
  induction actions as [|a rest IH]; intros s Hinv Hi Hne; cbv zeta.
  - cbn [run_actions foldl]. repeat split. destruct Hinv as [Hflag _ _ _ _].
    unfold holders in Hflag.
    pose proof (holders_split _ _ _ Hi Waiting) as H. simpl in H.
    destruct (locked (manager s)); [reflexivity | lia].
  - change (run_actions (a :: rest) s) with (run_actions rest (act a s)).
    apply Forall_cons in Hne as [Ha Hne].
    assert (Hl : locked (manager s) = true).
    { destruct Hinv as [Hflag _ _ _ _]. unfold holders in Hflag.
      pose proof (holders_split _ _ _ Hi Waiting) as H. simpl in H.
      destruct (locked (manager s)); [reflexivity | lia]. }
    assert (Hstep : callers (act a s) = callers s /\ acquired (act a s) = acquired s).
    { destruct a as [j|c]; [|split; reflexivity].
      simpl. unfold resume.
      destruct (callers s !! j) as [[| n' | n']|] eqn:Hj; try (split; reflexivity).
      - rewrite getNonce_poll_locked by exact Hl. split; reflexivity.
      - exfalso. assert (i <> j) by congruence.
        pose proof (two_holders _ _ _ _ _ H Hi Hj) as H2.
        destruct Hinv as [Hflag _ _ _ _]. unfold holders in Hflag.
        rewrite Hl in Hflag. lia. }
    destruct Hstep as [Hc Hq].
    specialize (IH (act a s) (act_resync_inv _ _ _ Hinv)).
    rewrite Hc in IH. specialize (IH Hi Hne). cbv zeta in IH.
    destruct IH as (IH1 & IH2 & IH3).
    rewrite IH1, IH2, Hq. repeat split. exact IH3.
Qed.

(** *** No deadlock *)

Lemma count_split (P : Caller -> bool) cs i c :
  cs !! i = Some c ->
  forall c',
    (length (filter P (<[i := c']> cs)) + (if P c then 1 else 0) =
     length (filter P cs) + (if P c' then 1 else 0))%nat.
Proof.
  intros Hi c'.
  assert (Hlt : (i < length cs)%nat) by (eapply lookup_lt_Some; eassumption).
  rewrite insert_take_drop by assumption.
  rewrite <- (take_drop_middle cs i c Hi) at 3.
  rewrite !filter_app, !filter_cons, !length_app.
  destruct (P c), (P c'); simpl; repeat case_decide; simpl in *; try tauto; lia.
Qed.

Lemma count_pos (P : Caller -> bool) cs :
  (0 < length (filter P cs))%nat -> exists i c, cs !! i = Some c /\ P c = true.
Proof.
  destruct (filter P cs) as [|c l] eqn:E; simpl; [lia|]. intros _.
  assert (Hin : c ∈ filter P cs) by (rewrite E; left).
  apply list_elem_of_filter in Hin as [HP Hin].
  apply list_elem_of_lookup in Hin as [i Hi].
  exists i, c. split; [exact Hi|]. destruct (P c); [reflexivity | contradiction].
Qed.

Lemma count_zero (P : Caller -> bool) cs c :
  length (filter P cs) = 0%nat -> c ∈ cs -> P c = false.
Proof.
  intros Hz Hin. destruct (P c) eqn:HP; [exfalso | reflexivity].
  assert (Hf : c ∈ filter P cs).
  { apply list_elem_of_filter. split; [rewrite HP; exact I | exact Hin]. }
  destruct (filter P cs); [inversion Hf | discriminate].
Qed.

Lemma resume_resync_inv start i s : resync_inv start s -> resync_inv start (resume i s).
Proof. apply (act_resync_inv start (Resume i)). Qed.

Lemma run_schedule_resync_inv start schedule : forall s,
  resync_inv start s -> resync_inv start (run_schedule schedule s).
Proof.
  induction schedule as [|i rest IH]; intros s Hs; simpl; [exact Hs|].
  apply IH, resume_resync_inv, Hs.
Qed.

Lemma act_callers_length a s : length (callers (act a s)) = length (callers s).
Proof.
  destruct a as [i|c]; [|reflexivity]. simpl. unfold resume.
  destruct (callers s !! i) as [[| n | n]|]; try reflexivity.
  - destruct (getNonce_poll (manager s)) as [[n|] m']; simpl;
      rewrite ?length_insert; reflexivity.
  - simpl. apply length_insert.
Qed.

Lemma run_actions_callers_length actions : forall s,
  length (callers (run_actions actions s)) = length (callers s).
Proof.
  induction actions as [|a rest IH]; intros s; simpl; [reflexivity|].
  rewrite IH. apply act_callers_length.
Qed.

Lemma run_schedule_callers_length schedule : forall s,
  length (callers (run_schedule schedule s)) = length (callers s).
Proof.
  induction schedule as [|i rest IH]; intros s; simpl; [reflexivity|].
  rewrite IH. apply (act_callers_length (Resume i)).
Qed.

(** A sleeping caller resumed twice while the flag is clear: through the loop,
    then through [release]. *)
Lemma resume_twice i s :
  callers s !! i = Some Waiting ->
  locked (manager s) = false ->
  resume i (resume i s) =
    {| manager := {| locked := false; nonce := nonce (manager s) + 1 |};
       callers := <[i := Finished (nonce (manager s))]> (callers s);
       acquired := acquired s ++ [nonce (manager s)] |}.
Proof.
  intros Hi Hl.
  assert (Hlt : (i < length (callers s))%nat) by (eapply lookup_lt_Some; eassumption).
  unfold resume at 2. rewrite Hi, getNonce_poll_free by exact Hl.
  unfold resume. cbn [callers manager acquired].
  rewrite list_lookup_insert_eq by exact Hlt.
  rewrite list_insert_insert_eq. reflexivity.
Qed.

Lemma sleepers_can_finish start k : forall s,
  resync_inv start s ->
  locked (manager s) = false ->
  length (filter is_waiting (callers s)) = k ->
  exists schedule,
    Forall (fun c => exists n, c = Finished n) (callers (run_schedule schedule s)) /\
    locked (manager (run_schedule schedule s)) = false.
Proof.
  induction k as [|k IH]; intros s Hinv Hl Hk.
  - exists []. split; [|exact Hl]. apply Forall_forall. intros c Hin.
    pose proof (count_zero is_waiting _ c Hk Hin) as Hw.
    destruct Hinv as [Hflag _ _ _ _]. rewrite Hl in Hflag.
    pose proof (count_zero is_holding _ c Hflag Hin) as Hh.
    destruct c as [|n|n]; try discriminate. exists n. reflexivity.
  - destruct (count_pos is_waiting (callers s)) as (i & c & Hi & Hc); [lia|].
    destruct c; try discriminate.
    pose proof (resume_twice i s Hi Hl) as Htwice.
    destruct (IH (resume i (resume i s))) as (schedule & Hdone & Hfree).
    + apply resume_resync_inv, resume_resync_inv, Hinv.
    + rewrite Htwice. reflexivity.
    + rewrite Htwice. cbn [callers].
      pose proof (count_split is_waiting _ _ _ Hi (Finished (nonce (manager s)))) as H.
      simpl in H. lia.
    + exists (i :: i :: schedule). split; assumption.
Qed.

Lemma finished_all_returned cs :
  Forall (fun c => exists n, c = Finished n) cs ->
  length (omap returned cs) = length cs.
Proof.
  induction 1 as [|c cs [n ->] _ IH]; [reflexivity|].
  cbn [omap list_omap]. fold (omap returned cs). cbn [returned length].
  rewrite IH. reflexivity.
Qed.

(** ** One submission, in every case *)

Lemma syncIfBehind_max count l n :
  syncIfBehind count {| locked := l; nonce := n |} =
    {| locked := l; nonce := Z.max n count |}.
Proof.
  unfold syncIfBehind. cbn [nonce locked].
  destruct (Z.gtb_spec count n); f_equal; lia.
Qed.

Lemma within_bounds_app j k t t' :
  within_bounds j t -> within_bounds k t' -> within_bounds (j + k) (t ++ t').
Proof.
  unfold within_bounds, attempts, allocated, broadcasts, releases.
  rewrite !omap_app, !length_app. lia.
Qed.

Lemma Script_submission_bounds g node fee m :
  within_bounds 1 (trace (Script.buildAndSendMint g node fee m)).
Proof.
  unfold_run.
  destruct (bool_decide (is_Some (Script.wallet g))), m as [[] n],
    (Script.DRY_RUN (Script.constants g)), (populated node) as [[]|],
    (sent node), (waited node), (counted node); cbn; repeat split; cbn; lia.
Qed.

Lemma Sniper_submission_bounds this node fee m :
  within_bounds 1 (trace (Sniper.buildAndSendMint this node fee m)).
Proof.
  unfold_run.
  destruct (Js.falsy_string (Sniper.mintSelector this)), m as [[] n],
    (Sniper.dryRun (Sniper.cfg this)), (bool_decide (is_Some (Sniper.wallet this))),
    (populated node) as [[]|], (sent node), (waited node), (counted node);
    cbn; repeat split; cbn; lia.
Qed.

Lemma Script_attempt_bounds g d m :
  exists calls, (calls <= 2)%nat /\
    within_bounds calls (trace (Script.attemptMintWithBump g d m)).
Proof.
  destruct (getPriorityFee_cases_Script g (feeData d) m) as [[e He]|[base Hbase]];
    unfold Script.attemptMintWithBump; cbv [mbind Run_bind try_catch].
  - rewrite He. exists 0%nat. repeat split; cbn; lia.
  - rewrite Hbase.
    pose proof (Script_submission_bounds g (first d) base m) as H1.
    destruct (Script.buildAndSendMint g (first d) base m) as [[[r|e|] m1] t1];
      cbn [trace snd mret Run_ret app] in *; rewrite ?app_nil_r;
      try (exists 1%nat; split; [lia | exact H1]).
    cbv [await mret Run_ret throw].
    destruct (Js.parseUnits_String _ _) as [bumped|];
      cbn [trace snd app]; rewrite ?app_nil_r;
      try (exists 1%nat; split; [lia | exact H1]).
    pose proof (Script_submission_bounds g (second d) bumped m1) as H2.
    destruct (Script.buildAndSendMint g (second d) bumped m1) as [[[r|e'|] m2] t2];
      cbn [trace snd app] in *; rewrite ?app_nil_r;
      exists 2%nat; (split; [lia | exact (within_bounds_app 1 1 _ _ H1 H2)]).
Qed.

Lemma Sniper_attempt_bounds this d m :
  exists calls, (calls <= 2)%nat /\
    within_bounds calls (trace (Sniper.attemptMint this d m)).
Proof.
  destruct (getPriorityFee_cases_Sniper this (feeData d) m) as [[e He]|[base Hbase]];
    unfold Sniper.attemptMint; cbv [mbind Run_bind try_catch].
  - rewrite He. exists 0%nat. repeat split; cbn; lia.
  - rewrite Hbase.
    pose proof (Sniper_submission_bounds this (first d) base m) as H1.
    destruct (Sniper.buildAndSendMint this (first d) base m) as [[[r|e|] m1] t1];
      cbn [trace snd mret Run_ret app] in *; rewrite ?app_nil_r;
      try (exists 1%nat; split; [lia | exact H1]).
    cbv [await mret Run_ret throw].
    destruct (Sniper.bumpPriority this base) as [bumped|];
      cbn [trace snd app]; rewrite ?app_nil_r;
      try (exists 1%nat; split; [lia | exact H1]).
    pose proof (Sniper_submission_bounds this (second d) bumped m1) as H2.
    destruct (Sniper.buildAndSendMint this (second d) bumped m1) as [[[r|e'|] m2] t2];
      cbn [trace snd app] in *; rewrite ?app_nil_r;
      exists 2%nat; (split; [lia | exact (within_bounds_app 1 1 _ _ H1 H2)]).
Qed.

(** ** The script without a wallet *)

Lemma Script_without_wallet_returns g d m :
  Script.wallet g = None ->
  let r := try_catch (Script.attemptMintWithBump g d) (fun _ => mret tt) m in
  outcome r = Returned tt /\ final r = m /\
  allocated (trace r) = [] /\ broadcasts (trace r) = [] /\ releases (trace r) = 0%nat.
Proof.
  intros Hw.
  destruct (getPriorityFee_cases_Script g (feeData d) m) as [[e He]|[base Hbase]];
    unfold Script.attemptMintWithBump; cbv [mbind Run_bind try_catch].
  - rewrite He. repeat split.
  - rewrite Hbase. fold (@mbind Run _). unfold_run. rewrite Hw. cbn.
    match goal with
    | |- context [match ?b with Resolves _ => _ | Rejects => _ end] => destruct b
    end; repeat split.
Qed.

Lemma Script_without_wallet_detections g ds : forall m,
  Script.wallet g = None ->
  let r := handle_all (Script.attemptMintWithBump g) ds m in
  outcome r = Returned tt /\ final r = m /\
  allocated (trace r) = [] /\ broadcasts (trace r) = [] /\ releases (trace r) = 0%nat.
Proof.
  induction ds as [|d ds IH]; intros m Hw.
  - repeat split.
  - destruct (Script_without_wallet_returns g d m Hw) as (Ho & Hf & Ha & Hb & Hr).
    specialize (IH m Hw). cbv zeta in IH. destruct IH as (Ho' & Hf' & Ha' & Hb' & Hr').
    cbn [handle_all]. cbv [mbind Run_bind].
    destruct (try_catch (Script.attemptMintWithBump g d) (fun _ => mret tt) m)
      as [[o m'] t].
    cbn [outcome final trace fst snd] in Ho, Hf, Ha, Hb, Hr. subst o m'.
    destruct (handle_all (Script.attemptMintWithBump g) ds m) as [[o m'] t'].
    cbn [outcome final trace fst snd] in *. subst o m'.
    unfold allocated, broadcasts, releases in *.
    rewrite !omap_app, length_app, Ha, Hb, Ha', Hb'.
    repeat split. lia.
Qed.

(** ** Live start-up *)

Lemma Script_main_live js env connected count g m :
  Script.main js env connected count = Ready (g, m) ->
  Script.DRY_RUN (Script.constants g) = false ->
  exists key n,
    env !! "PRIVATE_KEY" = Some key /\ Wallet_accepts js key = true /\
    connected = true /\ count = Resolves n /\
    Script.wallet g = Some key /\ m = {| locked := false; nonce := n |}.
Proof.
  unfold Script.main. destruct (Script.load js env) as [c|] eqn:Hload; [|discriminate].
  assert (Hkey : Script.PRIVATE_KEY c = env !! "PRIVATE_KEY").
  { revert Hload. unfold Script.load.
    destruct (BigInt js (Js.or_else (env !! "MINT_VALUE") "0")); [|discriminate].
    destruct (BigInt js (Js.or_else (env !! "GAS_LIMIT") "500000")); [|discriminate].
    destruct (BigInt js (Js.or_else (env !! "MAX_PRIORITY_FEE_GWEI") "50"));
      [|discriminate].
    cbn.
    intros [= <-]. reflexivity. }
  destruct (Js.falsy_string (Script.RPC_WSS c)); [discriminate|].
  destruct (Js.falsy_string (Script.PRIVATE_KEY c)) eqn:Hk; [discriminate|].
  destruct (Js.falsy_string (Script.TARGET_CONTRACT c)); [discriminate|].
  cbn [orb]. case_bool_decide; [discriminate|].
  destruct connected; [|cbn [negb]; discriminate]. cbn [negb].
  destruct (Script.DRY_RUN c) eqn:Hdry.
  - intros [= <- <-]. cbn. rewrite Hdry. discriminate.
  - destruct (falsy_string_false _ Hk) as (key & Hsome & _).
    rewrite Hsome. change (default "" (Some key)) with key.
    destruct (Wallet_accepts js key) eqn:Hacc; [|discriminate].
    destruct count as [n|]; [|discriminate].
    intros [= <- <-] _. exists key, n. rewrite <- Hkey, Hsome. repeat split.
    exact Hacc.
Qed.

Lemma Sniper_start_live js env selector connected count this m :
  Sniper.start js env selector connected count = Ready (this, m) ->
  Sniper.dryRun (Sniper.cfg this) = false ->
  exists key n,
    env !! "PRIVATE_KEY" = Some key /\ Wallet_accepts js key = true /\
    connected = true /\ count = Resolves n /\
    Sniper.wallet this = Some key /\ m = {| locked := false; nonce := n |}.
Proof.
  unfold Sniper.start.
  destruct (Sniper.buildConfig js env) as [code| |c] eqn:Hcfg; try discriminate.
  assert (Hkey : exists key, env !! "PRIVATE_KEY" = Some key /\ Sniper.privateKey c = key).
  { revert Hcfg. unfold Sniper.buildConfig, Sniper.required. cbn [existsb].
    destruct (Js.falsy_string (env !! "RPC_WSS")); [discriminate|].
    destruct (Js.falsy_string (env !! "PRIVATE_KEY")) eqn:Hk; [discriminate|].
    destruct (Js.falsy_string (env !! "TARGET_CONTRACT")); [discriminate|].
    cbn [orb]. case_bool_decide; [discriminate|].
    destruct (BigInt js _); [|discriminate].
    destruct (BigInt js _); [|discriminate].
    destruct (BigInt js _); [|discriminate].
    intros [= <-]. destruct (falsy_string_false _ Hk) as (key & Hsome & _).
    exists key. rewrite Hsome. split; reflexivity. }
  destruct Hkey as (key & Hsome & Hpk).
  unfold Sniper.bootstrap. destruct connected; [|cbn [negb]; discriminate]. cbn [negb].
  destruct (Sniper.dryRun c) eqn:Hdry.
  - intros [= <- <-]. cbn. rewrite Hdry. discriminate.
  - rewrite Hpk. destruct (Wallet_accepts js key) eqn:Hacc; [|intros Habs; discriminate Habs].
    destruct count as [n|]; [|discriminate].
    intros [= <- <-] _. exists key, n. repeat split; assumption.
Qed.

(** ** The handlers *)

Lemma same_run_swallowed (r1 r2 : Run unit) m :
  same_run (r1 m) (r2 m) ->
  try_catch r1 (fun _ => mret tt) m = try_catch r2 (fun _ => mret tt) m.
Proof.
  unfold same_run, try_catch. 
  destruct (r1 m) as [[[[]|e1|] m1] t1], (r2 m) as [[[[]|e2|] m2] t2];
    cbn; intros (-> & -> & H); try contradiction; reflexivity.
Qed.

Lemma fetch_resolves {A B} (a : A) (k : A -> Run B) m :
  (x ← fetch (Resolves a); k x) m = k a m.
Proof.
  cbv [fetch mbind Run_bind mret Run_ret]. destruct (k a m) as [[o m'] t]. reflexivity.
Qed.

Section Agreement.
Variable g : Script.Globals.
Variable this : Sniper.MintSniper.
Hypothesis Hsame : same_settings g this.
Hypothesis Hlive : live this.

Lemma attempts_same_run d m :
  same_run (Script.attemptMintWithBump g d m) (Sniper.attemptMint this d m).
Proof.
  destruct Hsame as (Hmax & Hfactor & Hdry & Hwallet).
  destruct Hlive as (Hd & Hw & Hs).
  destruct (fee_unavailable (feeData d)) eqn:Hfee.
  - destruct (Script_getPriorityFee_unavailable g _ m Hfee) as [e1 H1].
    destruct (Sniper_getPriorityFee_unavailable this _ m Hfee) as [e2 H2].
    unfold Script.attemptMintWithBump, Sniper.attemptMint. cbv [mbind Run_bind].
    rewrite H1, H2. repeat split.
  - destruct (feeData d) as [[p|]|] eqn:Hd'; simpl in Hfee; try discriminate.
    apply Z.eqb_neq in Hfee.
    unfold Script.attemptMintWithBump, Sniper.attemptMint. cbv [mbind Run_bind].
    rewrite Hd'.
    rewrite (Script_getPriorityFee_quoted g p m Hfee),
            (Sniper_getPriorityFee_quoted this p m Hfee), Hmax.
    set (base := Z.min p _).
    fold (@mbind Run _). unfold Sniper.bumpPriority. rewrite Hfactor.
    unfold_run. rewrite <- Hwallet in Hw.
    rewrite (live_wallet _ Hw). rewrite Hwallet in Hw.
    unfold_run. rewrite Hs, Hdry, Hd, (live_wallet _ Hw).
    destruct (Js.parseUnits_String _ _) as [bumped|], m as [[] n];
      cbn [locked nonce];
      destruct (populated (first d)) as [[]|], (sent (first d)), (waited (first d)),
               (counted (first d)), (populated (second d)) as [[]|], (sent (second d)),
               (waited (second d)), (counted (second d));
      repeat split.
Qed.

Variable toLowerCase : string -> string.
Variable MINT_SELECTOR : option string.
Hypothesis Hwatch : same_watch MINT_SELECTOR g this.

Lemma selector_not_prefix_of_empty :
  String.prefix (default "" (Sniper.mintSelector this)) "" = false.
Proof.
  destruct Hlive as (_ & _ & Hs).
  destruct (falsy_string_false _ Hs) as (sel & -> & Hne).
  destruct sel; [contradiction | reflexivity].
Qed.

(** What the two versions do with one transaction of a feed, once fetched. *)
Lemma sightings_same_run s m :
  same_run
    ((tx ← fetch (fetched s);
      match tx with
      | None => mret tt
      | Some tx =>
          if Js.falsy_string (tx_to tx) then mret tt
          else if negb (String.eqb (toLowerCase (default "" (tx_to tx)))
                          (toLowerCase (default "" (Script.TARGET_CONTRACT (Script.constants g)))))
               then mret tt
          else if negb (String.eqb (tx_data tx) "")
                  && negb (Js.falsy_string MINT_SELECTOR)
                  && String.prefix (default "" MINT_SELECTOR) (tx_data tx)
               then Script.attemptMintWithBump g (answers s)
               else mret tt
      end) m)
    ((tx ← fetch (fetched s);
      match tx with
      | None => mret tt
      | Some tx =>
          if Js.falsy_string (tx_to tx)
             || negb (String.eqb (toLowerCase (default "" (tx_to tx)))
                        (toLowerCase (Sniper.targetContract (Sniper.cfg this))))
          then mret tt
          else if String.prefix (default "" (Sniper.mintSelector this)) (tx_data tx)
               then Sniper.attemptMint this (answers s)
               else mret tt
      end) m).
Proof.
  destruct Hwatch as [-> ->]. pose proof selector_not_prefix_of_empty as Hempty.
  destruct Hlive as (_ & _ & ->). cbn [default negb andb].
  destruct (fetched s) as [[tx|]|]; cbv [fetch mbind Run_bind mret Run_ret throw];
    try (repeat split; fail).
  destruct (Js.falsy_string (tx_to tx)); cbn [orb]; [repeat split|].
  destruct (negb (String.eqb _ _)); [repeat split|].
  destruct (String.eqb_spec (tx_data tx) "") as [->|_]; cbn [negb andb].
  - rewrite Hempty. repeat split.
  - clear Hempty. destruct (String.prefix _ _); [|repeat split].
    pose proof (attempts_same_run (answers s) m) as H.
    destruct (Script.attemptMintWithBump g (answers s) m) as [[o1 m1] t1],
             (Sniper.attemptMint this (answers s) m) as [[o2 m2] t2].
    exact H.
Qed.

Lemma pending_agree s m :
  Script.handlePending toLowerCase MINT_SELECTOR g s m =
    Sniper.onPending toLowerCase this s m.
Proof.
  pose proof (sightings_same_run s m) as H.
  unfold Script.handlePending, Sniper.onPending, Sniper.handlePending.
  destruct Hwatch as [Htarget Hsel]. pose proof selector_not_prefix_of_empty as Hempty.
  destruct Hlive as (_ & _ & Hs). rewrite Hs.
  revert H. rewrite Hsel, Hs. cbn [negb andb].
  destruct (fetched s) as [[tx|]|]; cbv [fetch mbind Run_bind mret Run_ret throw try_catch];
    try reflexivity.
  destruct (Js.falsy_string (tx_to tx)); cbn [orb]; [reflexivity|].
  rewrite Htarget. cbn [default].
  destruct (negb (String.eqb _ _)); [reflexivity|].
  destruct (String.eqb_spec (tx_data tx) "") as [->|_]; cbn [negb andb orb].
  - rewrite Hempty. reflexivity.
  - clear Hempty. destruct (String.prefix _ _); [|reflexivity].
    destruct (Script.attemptMintWithBump g (answers s) m) as [[[[]|e1|] m1] t1],
             (Sniper.attemptMint this (answers s) m) as [[[[]|e2|] m2] t2];
      intros (Hm & Ht & Ho); cbn in Hm, Ht, Ho; subst; try contradiction;
      rewrite ?app_nil_r; reflexivity.
Qed.

Lemma for_each_same_run {A} (f1 f2 : A -> Run unit) l :
  (forall x m, same_run (f1 x m) (f2 x m)) ->
  forall m, same_run (for_each f1 l m) (for_each f2 l m).
Proof.
  intros Hf. induction l as [|x l IH]; intros m; [repeat split|].
  cbn [for_each]. cbv [mbind Run_bind].
  pose proof (Hf x m) as H.
  destruct (f1 x m) as [[[[]|e1|] m1] t1], (f2 x m) as [[[[]|e2|] m2] t2];
    destruct H as (Hm & Ht & Ho); cbn in Hm, Ht, Ho; subst; try contradiction;
    try (repeat split; fail).
  specialize (IH m2).
  destruct (for_each f1 l m2) as [[o1 m1'] t1'], (for_each f2 l m2) as [[o2 m2'] t2'].
  destruct IH as (Hm' & Ht' & Ho'). cbn in Hm', Ht', Ho'. subst.
  repeat split. exact Ho'.
Qed.

Lemma block_agree block m :
  Script.handleBlock toLowerCase MINT_SELECTOR g block m =
    Sniper.onBlock toLowerCase this block m.
Proof.
  unfold Script.handleBlock, Sniper.onBlock, Sniper.handleBlock.
  destruct Hlive as (_ & _ & Hs). rewrite Hs.
  apply same_run_swallowed.
  destruct block as [[l|]|]; rewrite ?fetch_resolves; try (repeat split; fail).
  apply (for_each_same_run _ _ l sightings_same_run m).
Qed.
End Agreement.


Lemma fetch_rejects {A B} (k : A -> Run B) m :
  (x ← fetch Rejects; k x) m = (Threw provider_error, m, []).
Proof. reflexivity. Qed.



(** ** A bump factor above 1 *)

(** The fee in gwei, read back as a float, is not below the whole number of
    gwei in the fee. *)
Lemma formatUnits_Number_at_least (F : positive) :
  Zpos F < 2 ^ 52 ->
  exists ma ea,
    Js.formatUnits_Number (Zpos F) gwei = S754_finite false ma ea /\
    Zpos (digits2_pos ma) = 53 /\
    -82 <= ea <= -29 /\
    Zpos F / 10 ^ 9 * 2 ^ (- ea) <= Zpos ma.
Proof.
  intros HF. pose proof (digits_bounds F) as HdF.
  set (d1 := Zpos (digits2_pos F)) in *.
  assert (Hd1 : 1 <= d1 <= 52).
  { split; [unfold d1; lia|].
    destruct (Z_le_gt_dec d1 52) as [H|H]; [exact H|exfalso].
    assert (2 ^ 52 <= 2 ^ (d1 - 1)) by (apply Z.pow_le_mono_r; lia). lia. }
  set (s := 83 - d1).
  assert (Hs : 31 <= s <= 82) by (unfold s; lia).
  unfold Js.formatUnits_Number, gwei, SF64div, SFdiv, SFdiv_core_binary.
  change (Z.to_pos (10 ^ 9)) with 1000000000%positive.
  cbn [Zdigits2]. fold d1.
  change (Zpos (digits2_pos 1000000000)) with 30.
  rewrite !Z.add_0_r, Z.sub_0_r.
  rewrite fexp_normal by lia.
  rewrite Z.min_l by lia.
  replace (0 - (d1 - 30 - 53)) with s by (unfold s; lia).
  destruct s as [|ps|ps] eqn:Hps; try lia. rewrite <- Hps.
  rewrite Z.shiftl_mul_pow2 by lia.
  set (m' := Zpos F * 2 ^ s).
  assert (Hm' : 2 ^ 82 <= m' < 2 ^ 83).
  { unfold m'. replace 82 with ((d1 - 1) + s) by (unfold s; lia).
    replace 83 with (d1 + s) by (unfold s; lia).
    rewrite !Z.pow_add_r by lia.
    assert (0 < 2 ^ s) by (apply Z.pow_pos_nonneg; lia). nia. }
  pose proof (Z_div_mod m' 1000000000 ltac:(lia)) as Hdm.
  destruct (Z.div_eucl m' 1000000000) as [q r]. destruct Hdm as [Hq Hr].
  assert (Hqb : 2 ^ 52 < q < 2 ^ 54).
  { change (2 ^ 82) with (2 ^ 52 * 1073741824) in Hm'.
    change (2 ^ 83) with (2 ^ 54 * 536870912) in Hm'.
    assert (0 < 2 ^ 52) by (apply Z.pow_pos_nonneg; lia).
    assert (0 < 2 ^ 54) by (apply Z.pow_pos_nonneg; lia). nia. }
  destruct q as [|pq|pq]; try (change (2 ^ 52) with 4503599627370496 in Hqb; lia).
  pose proof (digits_bounds pq) as Hdq.
  set (dq := Zpos (digits2_pos pq)) in *.
  assert (Hdq' : dq = 53 \/ dq = 54).
  { assert (Hlow : 52 < dq).
    { destruct (Z_lt_ge_dec 52 dq) as [Hc|Hc]; [exact Hc|exfalso].
      assert (2 ^ dq <= 2 ^ 52) by (apply Z.pow_le_mono_r; lia). lia. }
    assert (Hhigh : dq - 1 < 54).
    { destruct (Z_lt_ge_dec (dq - 1) 54) as [Hc|Hc]; [exact Hc|exfalso].
      assert (2 ^ 54 <= 2 ^ (dq - 1)) by (apply Z.pow_le_mono_r; lia). lia. }
    lia. }
  destruct (binary_round_aux_normal false pq (d1 - 30 - 53) (new_location 1000000000 r))
    as (ma & ea & Hres & Hdma & Hea & Hlo & Hhi); fold dq; try lia.
  fold dq in Hea, Hlo, Hhi.
  exists ma, ea. split; [exact Hres|]. split; [exact Hdma|]. split; [lia|].
  (* the bound, at scale [2^s] *)
  set (G := Zpos F / 10 ^ 9).
  assert (HG : 0 <= G /\ G * 10 ^ 9 <= Zpos F).
  { unfold G. pose proof (Z.mul_div_le (Zpos F) (10 ^ 9) ltac:(lia)).
    split; [apply Z.div_pos; lia | lia]. }
  assert (Hps' : 0 < 2 ^ (s - 1)) by (apply Z.pow_pos_nonneg; lia).
  assert (Hs2 : 2 ^ s = 2 * 2 ^ (s - 1)).
  { rewrite <- Z.pow_succ_r by lia. f_equal. lia. }
  assert (Hq2 : G * 2 ^ s <= Zpos pq).
  { change (10 ^ 9) with 1000000000 in HG. unfold m' in Hq.
    assert (0 < 2 ^ s) by lia.
    assert (G * 2 ^ s * 1000000000 <= Zpos F * 2 ^ s) by nia.
    assert (G * 2 ^ s < Zpos pq + 1) by nia. lia. }
  set (t := d1 - 30 - 53 + (dq - 53)) in *.
  assert (Hts : t = - s + (dq - 53)) by (unfold t, s; lia).
  (* truncating [q] to 53 bits keeps it at or above an even bound *)
  assert (Htr : G * 2 ^ s <= Zpos pq / 2 ^ (dq - 53) * 2 ^ (dq - 53)).
  { destruct Hdq' as [-> | ->].
    - replace (53 - 53) with 0 by lia. rewrite Z.pow_0_r, Z.div_1_r. lia.
    - replace (54 - 53) with 1 by lia. rewrite Z.pow_1_r.
      assert (G * 2 ^ (s - 1) <= Zpos pq / 2).
      { apply Z.div_le_lower_bound; lia. }
      lia. }
  assert (Hscale : Zpos ma * 2 ^ (ea + s) = Zpos ma * 2 ^ (ea - t) * 2 ^ (dq - 53)).
  { rewrite <- Z.mul_assoc, <- Z.pow_add_r by lia. do 2 f_equal. lia. }
  assert (Hpos : 0 < 2 ^ (dq - 53)) by (apply Z.pow_pos_nonneg; lia).
  assert (Hval : G * 2 ^ s <= Zpos ma * 2 ^ (ea + s)).
  { rewrite Hscale. apply Z.le_trans with (Zpos pq / 2 ^ (dq - 53) * 2 ^ (dq - 53));
      [exact Htr|]. apply Z.mul_le_mono_nonneg_r; [lia | exact Hlo]. }
  assert (Hsplit : 2 ^ s = 2 ^ (- ea) * 2 ^ (ea + s)).
  { rewrite <- Z.pow_add_r by lia. f_equal. lia. }
  rewrite Hsplit in Hval.
  assert (0 < 2 ^ (ea + s)) by (apply Z.pow_pos_nonneg; lia).
  rewrite Z.mul_assoc in Hval.
  apply Z.mul_le_mono_pos_r in Hval; assumption.
Qed.

(** Multiplying a normal float that is at least [G] by a factor in
    [(1, 2^20]] gives a float strictly above [G]. *)
Lemma mul_goes_above (ma mf : positive) (ea ef G : Z) :
  Zpos (digits2_pos ma) = 53 -> -82 <= ea <= -29 ->
  Zpos (digits2_pos mf) = 53 -> -52 <= ef <= -32 ->
  2 ^ (- ef) < Zpos mf ->
  0 <= G -> G * 2 ^ (- ea) <= Zpos ma ->
  exists mp ep,
    Js.mul (S754_finite false ma ea) (S754_finite false mf ef) = S754_finite false mp ep /\
    Zpos (digits2_pos mp) = 53 /\
    -82 <= ep <= -7 /\
    G * 2 ^ (- ep) < Zpos mp.
Proof.
  intros Hda Hea Hdf Hef Hone HG Habove.
  pose proof (digits_bounds ma) as Hma. rewrite Hda in Hma.
  pose proof (digits_bounds mf) as Hmf. rewrite Hdf in Hmf.
  replace (53 - 1) with 52 in Hma, Hmf by lia.
  unfold Js.mul, SF64mul, SFmul. cbn [xorb].
  set (M := (ma * mf)%positive).
  assert (HM : Zpos M = Zpos ma * Zpos mf) by reflexivity.
  assert (HMb : 2 ^ 104 <= Zpos M < 2 ^ 106).
  { change (2 ^ 104) with (2 ^ 52 * 2 ^ 52). change (2 ^ 106) with (2 ^ 53 * 2 ^ 53).
    assert (0 < 2 ^ 52) by (apply Z.pow_pos_nonneg; lia). nia. }
  pose proof (digits_bounds M) as HdM.
  set (dM := Zpos (digits2_pos M)) in *.
  assert (HdM' : dM = 105 \/ dM = 106).
  { assert (Hlow : 104 < dM).
    { destruct (Z_lt_ge_dec 104 dM) as [Hc|Hc]; [exact Hc|exfalso].
      assert (2 ^ dM <= 2 ^ 104) by (apply Z.pow_le_mono_r; lia). lia. }
    assert (Hhigh : dM - 1 < 106).
    { destruct (Z_lt_ge_dec (dM - 1) 106) as [Hc|Hc]; [exact Hc|exfalso].
      assert (2 ^ 106 <= 2 ^ (dM - 1)) by (apply Z.pow_le_mono_r; lia). lia. }
    lia. }
  set (n := dM - 53).
  destruct (binary_round_aux_normal false M (ea + ef) loc_Exact)
    as (mp & ep & Hres & Hdmp & Hep & Hlo & _); fold dM; try lia.
  fold dM in Hep, Hlo. fold n in Hep, Hlo.
  exists mp, ep. split; [exact Hres|]. split; [exact Hdmp|]. split; [lia|].
  set (Mt := Zpos M / 2 ^ n) in *.
  assert (Hpn : 0 < 2 ^ n) by (apply Z.pow_pos_nonneg; unfold n; lia).
  assert (HMt : 2 ^ 52 <= Mt).
  { unfold Mt. apply Z.div_le_lower_bound; [exact Hpn|].
    rewrite <- Z.pow_add_r by (unfold n; lia).
    replace (n + 52) with (dM - 1) by (unfold n; lia). lia. }
  (* the truncated product is above [a], at the scale of the exact product *)
  assert (Hpf : 0 < 2 ^ (- ef)) by (apply Z.pow_pos_nonneg; lia).
  assert (Htrunc : Zpos ma * 2 ^ (- ef) < Mt * 2 ^ n).
  { destruct (Z.eq_dec n (- ef)) as [Heq|Hne].
    - (* same binade: the product is at least [a] and one unit *)
      rewrite <- Heq in *.
      assert (Hn52 : 2 ^ n <= 2 ^ 52) by (apply Z.pow_le_mono_r; unfold n in *; lia).
      assert (Zpos ma + 1 <= Mt); [|nia].
      unfold Mt. apply Z.div_le_lower_bound; [exact Hpn|].
      rewrite HM.
      apply Z.le_trans with (Zpos ma * (2 ^ n + 1)); [lia|].
      apply Z.mul_le_mono_nonneg_l; lia.
    - (* the product is in a higher binade *)
      assert (Hlt : - ef + 1 <= n) by (unfold n in *; lia).
      assert (H2 : 2 ^ (- ef) * 2 <= 2 ^ n).
      { rewrite <- (Z.pow_1_r 2) at 2. rewrite <- Z.pow_add_r by lia.
        apply Z.pow_le_mono_r; lia. }
      change (2 ^ 53) with (2 ^ 52 * 2) in Hma.
      assert (H52 : 0 < 2 ^ 52) by (apply Z.pow_pos_nonneg; lia).
      apply Z.lt_le_trans with (2 ^ 52 * 2 * 2 ^ (- ef)).
      + apply Z.mul_lt_mono_pos_r; lia.
      + apply Z.le_trans with (2 ^ 52 * 2 ^ n).
        * rewrite <- Z.mul_assoc. apply Z.mul_le_mono_nonneg_l; lia.
        * apply Z.mul_le_mono_nonneg_r; lia. }
  (* back to the scale of the result *)
  set (E := ea + ef).
  assert (Hscale : Zpos mp * 2 ^ (ep - E) = Zpos mp * 2 ^ (ep - (E + n)) * 2 ^ n).
  { rewrite <- Z.mul_assoc, <- Z.pow_add_r by (unfold E, n in *; lia).
    do 2 f_equal. lia. }
  assert (HGE : G * 2 ^ (- E) < Zpos mp * 2 ^ (ep - E)).
  { rewrite Hscale. unfold E at 1. replace (- (ea + ef)) with (- ea + - ef) by lia.
    rewrite Z.pow_add_r, Z.mul_assoc by lia.
    apply Z.le_lt_trans with (Zpos ma * 2 ^ (- ef)).
    - apply Z.mul_le_mono_nonneg_r; [lia | exact Habove].
    - apply Z.lt_le_trans with (Mt * 2 ^ n); [exact Htrunc|].
      apply Z.mul_le_mono_nonneg_r; [lia | exact Hlo]. }
  assert (Hsplit : 2 ^ (- E) = 2 ^ (- ep) * 2 ^ (ep - E)).
  { rewrite <- Z.pow_add_r by (unfold E, n in *; lia). f_equal. lia. }
  rewrite Hsplit in HGE.
  assert (0 < 2 ^ (ep - E)) by (apply Z.pow_pos_nonneg; unfold E, n in *; lia).
  rewrite Z.mul_assoc in HGE.
  apply Z.mul_lt_mono_pos_r in HGE; assumption.
Qed.

(** A factor above 1 and at most [2^20]. *)
Lemma factor_decoded_above_one (factor : float) :
  (1 <? factor)%float = true ->
  (factor <=? 1048576)%float = true ->
  exists mf ef,
    Prim2SF factor = S754_finite false mf ef /\
    Zpos (digits2_pos mf) = 53 /\ -52 <= ef <= -32 /\ 2 ^ (- ef) < Zpos mf.
Proof.
  rewrite ltb_spec, leb_spec. intros Hlo Hhi.
  pose proof (Prim2SF_valid factor) as Hvalid.
  change (Prim2SF 1) with (S754_finite false 4503599627370496 (-52)) in Hlo.
  change (Prim2SF 1048576) with (S754_finite false 4503599627370496 (-32)) in Hhi.
  destruct (Prim2SF factor) as [s|s| |s mf ef];
    try (destruct s; discriminate); try discriminate.
  destruct s; [discriminate|].
  unfold SFltb, SFleb, SFcompare in Hlo, Hhi.
  unfold SpecFloat.valid_binary, bounded, canonical_mantissa in Hvalid.
  apply andb_prop in Hvalid as [Hcan _]. apply Z.eqb_eq in Hcan.
  unfold fexp, SpecFloat.emin, prec, emax in Hcan.
  exists mf, ef. split; [reflexivity|].
  assert (Hef : -52 <= ef <= -32).
  { split.
    - destruct (Z.compare_spec (-52) ef); try lia; discriminate.
    - destruct (Z.compare_spec ef (-32)); try lia; discriminate. }
  assert (Hd : Zpos (digits2_pos mf) = 53) by lia.
  split; [exact Hd|]. split; [exact Hef|].
  pose proof (digits_bounds mf) as Hmf. rewrite Hd in Hmf.
  replace (53 - 1) with 52 in Hmf by lia.
  destruct (Z.compare_spec (-52) ef) as [Heq|Hlt|Hgt]; try discriminate.
  - subst ef. change (- -52) with 52.
    change (PosDef.Pos.compare_cont Eq 4503599627370496 mf)
      with (Pos.compare 4503599627370496 mf) in Hlo.
    destruct (Pos.compare_spec 4503599627370496 mf) as [H|H|H]; try discriminate.
    change (2 ^ 52) with 4503599627370496. lia.
  - assert (2 ^ (- ef) < 2 ^ 52) by (apply Z.pow_lt_mono_r; lia). lia.
Qed.

Lemma bumped_fee_strictly_above (factor : float) (base : Z) :
  (1 <? factor)%float = true ->
  (factor <=? 1048576)%float = true ->
  0 < base < 2 ^ 52 ->
  exists c,
    bumped_fee factor base = Resolves (c * 10 ^ 9) /\
    base < c * 10 ^ 9.
Proof.
  intros Hlo Hhi [Hb0 Hb].
  destruct (factor_decoded_above_one factor Hlo Hhi) as (mf & ef & Hf & Hdf & Hef & Hone).
  unfold bumped_fee. rewrite Hf.
  destruct base as [|F|F]; try lia.
  destruct (formatUnits_Number_at_least F Hb) as (ma & ea & Ha & Hda & Hea & Habove).
  set (G := Zpos F / 10 ^ 9) in *.
  assert (HG : 0 <= G /\ Zpos F < (G + 1) * 10 ^ 9).
  { unfold G. pose proof (Z.mul_div_le (Zpos F) (10 ^ 9) ltac:(lia)).
    pose proof (Z.mod_pos_bound (Zpos F) (10 ^ 9) ltac:(lia)).
    pose proof (Z.div_mod (Zpos F) (10 ^ 9) ltac:(lia)).
    split; [apply Z.div_pos; lia | lia]. }
  destruct (mul_goes_above ma mf ea ef G Hda Hea Hdf Hef Hone (proj1 HG) Habove)
    as (mp & ep & Hp & Hdmp & Hep & Hpabove).
  rewrite Ha, Hp.
  pose proof (digits_bounds mp) as Hmp. rewrite Hdmp in Hmp.
  set (D := 2 ^ (- ep)) in *.
  assert (HD : 1 <= D).
  { unfold D. change 1 with (2 ^ 0). apply Z.pow_le_mono_r; lia. }
  set (c := - (- Zpos mp / D)).
  assert (Hc : (c - 1) * D < Zpos mp <= c * D).
  { unfold c. pose proof (Z.mul_div_le (- Zpos mp) D ltac:(lia)).
    pose proof (Z.mod_pos_bound (- Zpos mp) D ltac:(lia)).
    pose proof (Z.div_mod (- Zpos mp) D ltac:(lia)). nia. }
  assert (HcG : G + 1 <= c) by nia.
  assert (Hc53 : c < 2 ^ 53) by nia.
  exists c. split.
  - unfold Js.Math_ceil.
    replace (0 <=? ep) with false by (symmetry; apply Z.leb_gt; lia).
    cbn [cond_Zopp]. fold D. change (Z.neg mp) with (- Zpos mp). fold c.
    destruct c as [|pc|pc] eqn:Hpc; try lia.
    unfold Js.parseUnits_String. rewrite String_integer_of_integer by lia.
    reflexivity.
  - change (10 ^ 9) with 1000000000 in *. nia.
Qed.

(** ** Detections in sequence *)

Lemma StronglySorted_app_range (l1 l2 : list Z) (lo mid hi : Z) :
  StronglySorted Z.lt l1 -> Forall (fun k => lo <= k < mid) l1 ->
  StronglySorted Z.lt l2 -> Forall (fun k => mid <= k < hi) l2 ->
  StronglySorted Z.lt (l1 ++ l2).
Proof.
  induction l1 as [|a l1 IH]; intros Hs1 Hr1 Hs2 Hr2; [exact Hs2|].
  apply StronglySorted_inv in Hs1 as [Hs1 Ha].
  apply Forall_cons in Hr1 as [Har Hr1].
  cbn [app]. constructor; [apply IH; assumption|].
  apply Forall_app. split; [exact Ha|].
  eapply Forall_impl; [exact Hr2|]. cbn. intros; lia.
Qed.

Lemma advances_still m (A : Type) (o : Outcome A) :
  locked m = false -> o <> Hung -> advances m (o, m, []).
Proof.
  intros Hl Ho. repeat split; cbn; try assumption; try constructor; lia.
Qed.

Lemma advances_bind {A B} (c : Run A) (k : A -> Run B) m :
  advances m (c m) ->
  (forall a m', locked m' = false -> advances m' (k a m')) ->
  advances m ((x ← c; k x) m).
Proof.
  intros (Ho & Hl & Hn & Hs & Hr) Hk. cbv [mbind Run_bind].
  destruct (c m) as [[[a|e|] m1] t1]; cbn [outcome final trace fst snd] in *.
  - specialize (Hk a m1 Hl).
    destruct (k a m1) as [[o2 m2] t2]. destruct Hk as (Ho2 & Hl2 & Hn2 & Hs2 & Hr2).
    cbn [outcome final trace fst snd] in *.
    unfold advances, allocated in *. cbn [outcome final trace fst snd].
    rewrite omap_app. repeat split; try assumption; try lia.
    + eapply StronglySorted_app_range; eassumption.
    + apply Forall_app. split; (eapply Forall_impl; [eassumption|]); cbn; intros; lia.
  - unfold advances. cbn [outcome final trace fst snd]. auto.
  - contradiction.
Qed.

Lemma advances_try_catch {A} (body : Run A) (handler : Error -> Run A) m :
  advances m (body m) ->
  (forall e m', locked m' = false -> advances m' (handler e m')) ->
  advances m (try_catch body handler m).
Proof.
  intros (Ho & Hl & Hn & Hs & Hr) Hh. unfold try_catch.
  destruct (body m) as [[[a|e|] m1] t1]; cbn [outcome final trace fst snd] in *.
  - unfold advances. cbn [outcome final trace fst snd]. auto.
  - specialize (Hh e m1 Hl).
    destruct (handler e m1) as [[o2 m2] t2]. destruct Hh as (Ho2 & Hl2 & Hn2 & Hs2 & Hr2).
    cbn [outcome final trace fst snd] in *.
    unfold advances, allocated in *. cbn [outcome final trace fst snd].
    rewrite omap_app. repeat split; try assumption; try lia.
    + eapply StronglySorted_app_range; eassumption.
    + apply Forall_app. split; (eapply Forall_impl; [eassumption|]); cbn; intros; lia.
  - contradiction.
Qed.

Lemma advances_ret {A} (a : A) m :
  locked m = false -> advances m ((mret a : Run A) m).
Proof. intros Hl. apply advances_still; [assumption | discriminate]. Qed.

Lemma advances_await_bind {A B} (c : Call) (r : Reply A) (k : A -> Run B) m :
  locked m = false ->
  (forall a, advances m (k a m)) ->
  advances m ((x ← await c r; k x) m).
Proof.
  intros Hl Hk. destruct r as [a|].
  - cbv [await mbind Run_bind mret Run_ret].
    specialize (Hk a). destruct (k a m) as [[o2 m2] t2]. exact Hk.
  - apply advances_still; [assumption | discriminate].
Qed.

Lemma Script_getPriorityFee_advances g fee m :
  locked m = false -> advances m (Script.getPriorityFee g fee m).
Proof.
  intros Hl.
  destruct (getPriorityFee_cases_Script g fee m) as [[e ->]|[base ->]];
    apply advances_still; try assumption; discriminate.
Qed.

Lemma Sniper_getPriorityFee_advances this fee m :
  locked m = false -> advances m (Sniper.getPriorityFee this fee m).
Proof.
  intros Hl.
  destruct (getPriorityFee_cases_Sniper this fee m) as [[e ->]|[base ->]];
    apply advances_still; try assumption; discriminate.
Qed.

Lemma Script_submission_advances g node fee m :
  locked m = false -> populated node = Resolves tt ->
  advances m (Script.buildAndSendMint g node fee m).
Proof.
  intros Hl Hp. destruct m as [l n]. cbn in Hl. subst l.
  unfold_run. rewrite Hp. cbn [locked nonce].
  destruct (bool_decide (is_Some (Script.wallet g))),
    (Script.DRY_RUN (Script.constants g)), (sent node), (waited node), (counted node);
    cbn; rewrite ?syncIfBehind_max;
    repeat split; cbn; try discriminate; repeat constructor; lia.
Qed.

Lemma Sniper_submission_advances this node fee m :
  locked m = false -> populated node = Resolves tt ->
  advances m (Sniper.buildAndSendMint this node fee m).
Proof.
  intros Hl Hp. destruct m as [l n]. cbn in Hl. subst l.
  unfold_run. rewrite Hp. cbn [locked nonce].
  destruct (Js.falsy_string (Sniper.mintSelector this)),
    (Sniper.dryRun (Sniper.cfg this)), (bool_decide (is_Some (Sniper.wallet this))),
    (sent node), (waited node), (counted node);
    cbn; rewrite ?syncIfBehind_max;
    repeat split; cbn; try discriminate; repeat constructor; lia.
Qed.

Lemma Script_attempt_advances g d m :
  locked m = false -> buildable d ->
  advances m (Script.attemptMintWithBump g d m).
Proof.
  intros Hl [H1 H2]. unfold Script.attemptMintWithBump.
  apply advances_bind; [apply Script_getPriorityFee_advances, Hl|].
  intros base m1 Hl1. apply advances_try_catch.
  - apply advances_bind; [apply Script_submission_advances; assumption|].
    intros r m2 Hl2. apply advances_ret, Hl2.
  - intros e m2 Hl2. apply advances_await_bind; [exact Hl2|].
    intros bumped. apply advances_try_catch.
    + apply advances_bind; [apply Script_submission_advances; assumption|].
      intros r m3 Hl3. apply advances_ret, Hl3.
    + intros err m3 Hl3. apply advances_ret, Hl3.
Qed.

Lemma Sniper_attempt_advances this d m :
  locked m = false -> buildable d ->
  advances m (Sniper.attemptMint this d m).
Proof.
  intros Hl [H1 H2]. unfold Sniper.attemptMint.
  apply advances_bind; [apply Sniper_getPriorityFee_advances, Hl|].
  intros base m1 Hl1. apply advances_bind.
  - apply advances_try_catch.
    + apply advances_bind; [apply Sniper_submission_advances; assumption|].
      intros r m2 Hl2. apply advances_ret, Hl2.
    + intros e m2 Hl2. apply advances_ret, Hl2.
  - intros done m2 Hl2. destruct done; [apply advances_ret, Hl2|].
    apply advances_await_bind; [exact Hl2|].
    intros bumped. apply advances_try_catch.
    + apply advances_bind; [apply Sniper_submission_advances; assumption|].
      intros r m3 Hl3. apply advances_ret, Hl3.
    + intros err m3 Hl3. apply advances_ret, Hl3.
Qed.

(** The listeners swallow what the orchestrator throws. *)
Lemma swallowed_returns (body : Run unit) m :
  outcome (body m) <> Hung ->
  outcome (try_catch body (fun _ => mret tt) m) = Returned tt.
Proof.
  unfold try_catch. destruct (body m) as [[[[]|e|] m1] t1]; cbn; intros H;
    [reflexivity | reflexivity | contradiction].
Qed.

Lemma handle_all_advances (attempt : Detection -> Run unit) ds :
  (forall d m, locked m = false -> buildable d -> advances m (attempt d m)) ->
  forall m, locked m = false -> Forall buildable ds ->
  advances m (handle_all attempt ds m) /\
  outcome (handle_all attempt ds m) = Returned tt.
Proof.
  intros Hattempt. induction ds as [|d ds IH]; intros m Hl Hds.
  - split; [apply (advances_ret tt), Hl | reflexivity].
  - apply Forall_cons in Hds as [Hd Hds]. cbn [handle_all].
    assert (Hone : advances m (try_catch (attempt d) (fun _ => mret tt) m)).
    { apply advances_try_catch; [apply Hattempt; assumption|].
      intros e m1 Hl1. apply advances_ret, Hl1. }
    split.
    + apply advances_bind; [exact Hone|].
      intros [] m1 Hl1. apply IH; assumption.
    + pose proof (swallowed_returns (attempt d) m) as Hret.
      destruct (Hattempt d m Hl Hd) as (Ho & _). specialize (Hret Ho).
      destruct Hone as (_ & Hl1 & _). cbv [mbind Run_bind].
      destruct (try_catch (attempt d) (fun _ => mret tt) m) as [[o1 m1] t1].
      cbn [outcome final fst snd] in *. subst o1.
      destruct (IH m1 Hl1 Hds) as [_ Hout].
      destruct (handle_all attempt ds m1) as [[o2 m2] t2]. exact Hout.
Qed.

(** ** When the second call is made *)

Lemma Script_submission_attempts g node fee m :
  attempts (trace (Script.buildAndSendMint g node fee m)) = [fee].
Proof.
  unfold_run.
  destruct (bool_decide (is_Some (Script.wallet g))), m as [[] n],
    (Script.DRY_RUN (Script.constants g)), (populated node) as [[]|],
    (sent node), (waited node), (counted node); reflexivity.
Qed.

Lemma Sniper_submission_attempts this node fee m :
  attempts (trace (Sniper.buildAndSendMint this node fee m)) = [fee].
Proof.
  unfold_run.
  destruct (Js.falsy_string (Sniper.mintSelector this)), m as [[] n],
    (Sniper.dryRun (Sniper.cfg this)), (bool_decide (is_Some (Sniper.wallet this))),
    (populated node) as [[]|], (sent node), (waited node), (counted node);
    reflexivity.
Qed.

Lemma Script_calls_made g d m base :
  Script.getPriorityFee g (feeData d) m = (Returned base, m, []) ->
  attempts (trace (Script.attemptMintWithBump g d m)) =
    calls_made base (throws (Script.buildAndSendMint g (first d) base m))
      (bumped_fee (Script.FEE_BUMP_FACTOR (Script.constants g)) base).
Proof.
  intros Hquote. rewrite attemptMintWithBump_bumped_fee.
  cbv [mbind Run_bind try_catch]. rewrite Hquote.
  pose proof (Script_submission_attempts g (first d) base m) as H1.
  unfold throws, calls_made.
  destruct (Script.buildAndSendMint g (first d) base m) as [[[r|e|] m1] t1];
    cbn [outcome trace fst snd mret Run_ret app] in *; rewrite ?app_nil_r;
    try exact H1.
  cbv [await mret Run_ret throw].
  destruct (bumped_fee _ base) as [bumped|];
    cbn [trace snd app]; rewrite ?app_nil_r; try exact H1.
  pose proof (Script_submission_attempts g (second d) bumped m1) as H2.
  destruct (Script.buildAndSendMint g (second d) bumped m1) as [[[r|e'|] m2] t2];
    cbn [trace snd app] in *; rewrite ?app_nil_r;
    unfold attempts in *; rewrite omap_app, H1, H2; reflexivity.
Qed.

Lemma Sniper_calls_made this d m base :
  Sniper.getPriorityFee this (feeData d) m = (Returned base, m, []) ->
  attempts (trace (Sniper.attemptMint this d m)) =
    calls_made base (throws (Sniper.buildAndSendMint this (first d) base m))
      (Sniper.bumpPriority this base).
Proof.
  intros Hquote. unfold Sniper.attemptMint.
  cbv [mbind Run_bind try_catch]. rewrite Hquote.
  pose proof (Sniper_submission_attempts this (first d) base m) as H1.
  unfold throws, calls_made.
  destruct (Sniper.buildAndSendMint this (first d) base m) as [[[r|e|] m1] t1];
    cbn [outcome trace fst snd mret Run_ret app] in *; rewrite ?app_nil_r;
    try exact H1.
  cbv [await mret Run_ret throw].
  destruct (Sniper.bumpPriority this base) as [bumped|];
    cbn [trace snd app]; rewrite ?app_nil_r; try exact H1.
  pose proof (Sniper_submission_attempts this (second d) bumped m1) as H2.
  destruct (Sniper.buildAndSendMint this (second d) bumped m1) as [[[r|e'|] m2] t2];
    cbn [trace snd app] in *; rewrite ?app_nil_r;
    unfold attempts in *; rewrite omap_app, H1, H2; reflexivity.
Qed.

Lemma Script_throws_iff_rejects g node fee m :
  is_Some (Script.wallet g) ->
  Script.DRY_RUN (Script.constants g) = false ->
  locked m = false ->
  throws (Script.buildAndSendMint g node fee m) = some_call_rejects node.
Proof.
  intros Hw Hd Hfree. destruct m as [l n]. simpl in Hfree. subst l.
  unfold throws, some_call_rejects. unfold_run.
  rewrite (live_wallet _ Hw). unfold_run. rewrite Hd. cbn [locked nonce].
  destruct (populated node) as [[]|], (sent node), (waited node), (counted node);
    reflexivity.
Qed.

Lemma Sniper_throws_iff_rejects this node fee m :
  live this ->
  locked m = false ->
  throws (Sniper.buildAndSendMint this node fee m) = some_call_rejects node.
Proof.
  intros (Hd & Hw & Hs) Hfree. destruct m as [l n]. simpl in Hfree. subst l.
  unfold throws, some_call_rejects. unfold_run.
  rewrite Hs, Hd, (live_wallet _ Hw). cbn [locked nonce].
  destruct (populated node) as [[]|], (sent node), (waited node), (counted node);
    reflexivity.
Qed.

(** * The claims *)

(** C1, as stated, fails: the node accepts the first broadcast, the
    confirmation wait then rejects, and a second transaction is broadcast
    (nonce 8, 75 gwei) after the first (nonce 7, 50 gwei). *)
Lemma wait_failure_triggers_retry :
  let d := Samples.detection Samples.wait_fails Samples.confirmed in
  sent (first d) = Resolves "0x9a3f" /\
  waited (first d) = Rejects /\
  broadcasts (trace (Script.attemptMintWithBump Samples.script d Samples.seven)) =
    [(7, 50000000000); (8, 75000000000)] /\
  broadcasts (trace (Sniper.attemptMint Samples.sniper d Samples.seven)) =
    [(7, 50000000000); (8, 75000000000)].
Proof. repeat split; vm_compute; reflexivity. Qed.

(** C1, amended.  Once a fee is quoted, in both versions and whatever the
    configuration, a second call of [buildAndSendMint] is made exactly when
    the first call throws and the bumped fee can be computed; the calls are
    made at the quoted fee and at the bumped fee.  With broadcasting enabled
    and the flag clear, the first call throws exactly when one of its
    awaited calls rejects: the build of the request, the broadcast, the
    confirmation wait after an accepted broadcast, or the transaction-count
    query of the resync.  When all four resolve there is one call only. *)
Theorem retry_iff_first_call_throws
    (g : Script.Globals) (this : Sniper.MintSniper) (d : Detection) (m : NonceManager) :
  (forall base,
     Script.getPriorityFee g (feeData d) m = (Returned base, m, []) ->
     attempts (trace (Script.attemptMintWithBump g d m)) =
       calls_made base (throws (Script.buildAndSendMint g (first d) base m))
         (bumped_fee (Script.FEE_BUMP_FACTOR (Script.constants g)) base)) /\
  (forall base,
     Sniper.getPriorityFee this (feeData d) m = (Returned base, m, []) ->
     attempts (trace (Sniper.attemptMint this d m)) =
       calls_made base (throws (Sniper.buildAndSendMint this (first d) base m))
         (Sniper.bumpPriority this base)) /\
  (forall fee,
     is_Some (Script.wallet g) ->
     Script.DRY_RUN (Script.constants g) = false ->
     locked m = false ->
     throws (Script.buildAndSendMint g (first d) fee m) = some_call_rejects (first d)) /\
  (forall fee,
     live this ->
     locked m = false ->
     throws (Sniper.buildAndSendMint this (first d) fee m) = some_call_rejects (first d)).
Proof.
  split; [|split; [|split]].
  - intros base. apply Script_calls_made.
  - intros base. apply Sniper_calls_made.
  - intros fee. apply Script_throws_iff_rejects.
  - intros fee. apply Sniper_throws_iff_rejects.
Qed.

(** A confirmed mint: one call.  A refused broadcast: a second call at 75
    gwei.  A refused broadcast with a factor that is not a number: the bump
    cannot be computed, one call. *)
Lemma retry_iff_first_call_throws_witness :
  let confirmed := Samples.detection Samples.confirmed Samples.confirmed in
  let refused := Samples.detection Samples.refused Samples.confirmed in
  attempts (trace (Script.attemptMintWithBump Samples.script confirmed Samples.seven)) =
    [50000000000] /\
  attempts (trace (Script.attemptMintWithBump Samples.script refused Samples.seven)) =
    [50000000000; 75000000000] /\
  attempts (trace (Sniper.attemptMint Samples.sniper confirmed Samples.seven)) =
    [50000000000] /\
  attempts (trace (Sniper.attemptMint Samples.sniper refused Samples.seven)) =
    [50000000000; 75000000000] /\
  attempts (trace (Sniper.attemptMint (sniper_with_factor nan) refused Samples.seven)) =
    [50000000000].
Proof.
  intros confirmed refused.
  destruct (retry_iff_first_call_throws Samples.script Samples.sniper confirmed
              Samples.seven) as (Hscript & Hclass & Hscript_throws & Hclass_throws).
  destruct (retry_iff_first_call_throws Samples.script Samples.sniper refused
              Samples.seven) as (Hscript' & Hclass' & Hscript_throws' & Hclass_throws').
  destruct (retry_iff_first_call_throws Samples.script (sniper_with_factor nan) refused
              Samples.seven) as (_ & Hnan & _ & Hnan_throws).
  split; [|split; [|split; [|split]]].
  - rewrite (Hscript 50000000000 eq_refl), (Hscript_throws 50000000000).
    + vm_compute. reflexivity.
    + eexists. reflexivity.
    + reflexivity.
    + reflexivity.
  - rewrite (Hscript' 50000000000 eq_refl), (Hscript_throws' 50000000000).
    + vm_compute. reflexivity.
    + eexists. reflexivity.
    + reflexivity.
    + reflexivity.
  - rewrite (Hclass 50000000000 eq_refl), (Hclass_throws 50000000000).
    + vm_compute. reflexivity.
    + repeat split. eexists. reflexivity.
    + reflexivity.
  - rewrite (Hclass' 50000000000 eq_refl), (Hclass_throws' 50000000000).
    + vm_compute. reflexivity.
    + repeat split. eexists. reflexivity.
    + reflexivity.
  - rewrite (Hnan 50000000000 eq_refl), (Hnan_throws 50000000000).
    + vm_compute. reflexivity.
    + repeat split. eexists. reflexivity.
    + reflexivity.
Defined.

(** C2, at the input where the code departs from it: the nonce is allocated,
    then building the request fails.  [buildAndSendMint] throws without
    having called [release]; the flag stays set, and the next caller of
    [getNonce] / [next] never leaves its loop. *)
Theorem build_failure_leaks_the_lock
    (g : Script.Globals) (this : Sniper.MintSniper) (node : Node) (fee : Z)
    (m : NonceManager) :
  is_Some (Script.wallet g) ->
  Js.falsy_string (Sniper.mintSelector this) = false ->
  locked m = false ->
  populated node = Rejects ->
  let leaked r :=
    outcome r = Threw (Rejected populateTransaction) /\
    allocated (trace r) = [nonce m] /\
    releases (trace r) = 0%nat /\
    locked (final r) = true /\
    (forall polls, (getNonce_spin polls (final r)).1 = None) /\
    outcome (Async.getNonce (final r)) = Hung in
  leaked (Script.buildAndSendMint g node fee m) /\
  leaked (Sniper.buildAndSendMint this node fee m).
Proof.
  intros Hw Hs Hfree Hbuild leaked.
  rewrite (Script_build_failure g node fee m Hw Hfree Hbuild).
  rewrite (Sniper_build_failure this node fee m Hs Hfree Hbuild).
  split; repeat split; intros polls; cbn [final fst snd];
    rewrite getNonce_spin_locked by reflexivity; reflexivity.
Qed.

Lemma build_failure_leaks_the_lock_witness :
  releases (trace (Sniper.buildAndSendMint Samples.sniper Samples.unbuildable
                     50000000000 Samples.seven)) = 0%nat /\
  locked (final (Sniper.buildAndSendMint Samples.sniper Samples.unbuildable
                   50000000000 Samples.seven)) = true.
Proof.
  pose proof (build_failure_leaks_the_lock Samples.script Samples.sniper
                Samples.unbuildable 50000000000 Samples.seven) as H.
  destruct H as (_ & _ & _ & Hr & Hl & _); try reflexivity.
  - eexists. reflexivity.
  - split; [exact Hr | exact Hl].
Defined.

(** C3.  [N] calls of [getNonce] / [next] issued together and resumed in any
    order, with no resync in between: the nonces returned, in the order the
    flag was acquired, are [start, start+1, ...] without repeat or gap; they
    are the values the callers hold; at most one caller holds the flag at any
    time; once every call has returned the nonces are exactly
    [start .. start+N-1]. *)
Theorem nonces_consecutive_under_interleaving
    (start : Z) (N : nat) (schedule : list nat) :
  let s := run_schedule schedule (issue start N) in
  acquired s = consecutive start (length (acquired s)) /\
  NoDup (acquired s) /\
  omap returned (callers s) ≡ₚ acquired s /\
  (holders s <= 1)%nat /\
  (length (acquired s) <= N)%nat /\
  (Forall (fun c => is_waiting c = false) (callers s) ->
   acquired s = consecutive start N).
Proof.
  intros s.
  destruct (run_schedule_inv start N schedule _ (issue_inv start N))
    as [Hlen Hacq Hctr Hflag Hret].
  fold s in Hlen, Hacq, Hctr, Hflag, Hret.
  assert (Hle : forall cs : list Caller, (length (omap returned cs) <= length cs)%nat).
  { induction cs as [|c cs IH]; [reflexivity|]. cbn [omap list_omap].
    fold (omap returned cs). destruct (returned c); cbn [length]; lia. }
  assert (Hall : forall cs : list Caller,
             Forall (fun c => is_waiting c = false) cs ->
             length (omap returned cs) = length cs).
  { induction cs as [|c cs IH]; intros Hcs; [reflexivity|].
    apply Forall_cons in Hcs as [Hc Hcs]. cbn [omap list_omap].
    fold (omap returned cs).
    destruct c; try discriminate; cbn [returned length];
      rewrite IH by assumption; reflexivity. }
  repeat split.
  - exact Hacq.
  - rewrite Hacq. apply consecutive_NoDup.
  - exact Hret.
  - rewrite Hflag. destruct (locked (manager s)); lia.
  - rewrite <- Hret, <- Hlen. apply Hle.
  - intros Hdone. rewrite Hacq. f_equal.
    rewrite <- Hret, <- Hlen. apply Hall, Hdone.
Qed.

Lemma nonces_consecutive_under_interleaving_witness :
  acquired (run_schedule [2; 0; 2; 1; 0; 1; 0; 1]%nat (issue 7 3)) = [7; 8; 9].
Proof.
  apply (nonces_consecutive_under_interleaving 7 3 [2; 0; 2; 1; 0; 1; 0; 1]%nat).
  vm_compute. repeat constructor.
Defined.

(** C4, as stated, fails for first attempts that fail in other ways.  The
    request cannot be built: the second call is made but waits for the flag
    for ever, so it gets no nonce and the orchestrator does not return.  The
    bump factor is not a number and the first broadcast is refused: the
    bumped fee cannot be computed and there is no second call.  The script
    in dry run: both calls stop at the wallet guard, without a nonce. *)
Lemma first_failure_without_a_fresh_retry :
  let unbuildable := Samples.detection Samples.unbuildable Samples.confirmed in
  let refused := Samples.detection Samples.refused Samples.confirmed in
  let confirmed := Samples.detection Samples.confirmed Samples.confirmed in
  Script.attemptMintWithBump Samples.script unbuildable Samples.seven =
    (Hung, {| locked := true; nonce := 8 |},
     [Attempt 50000000000; Allocate 7; Populate 7 50000000000; Attempt 75000000000]) /\
  Sniper.attemptMint Samples.sniper unbuildable Samples.seven =
    (Hung, {| locked := true; nonce := 8 |},
     [Attempt 50000000000; Allocate 7; Populate 7 50000000000; Attempt 75000000000]) /\
  Script.attemptMintWithBump (script_with_factor nan) refused Samples.seven =
    (Threw (Rejected parseUnits), {| locked := false; nonce := 8 |},
     [Attempt 50000000000; Allocate 7; Populate 7 50000000000; Send 7 50000000000;
      Release]) /\
  Sniper.attemptMint (sniper_with_factor nan) refused Samples.seven =
    (Threw (Rejected parseUnits), {| locked := false; nonce := 8 |},
     [Attempt 50000000000; Allocate 7; Populate 7 50000000000; Send 7 50000000000;
      Release]) /\
  Script.attemptMintWithBump Samples.script_dry confirmed NonceManager_new =
    (Returned tt, NonceManager_new, [Attempt 50000000000; Attempt 75000000000]).
Proof. repeat split; vm_compute; reflexivity. Qed.

(** C4, amended.  With broadcasting enabled, the flag clear, a fee quoted
    and a bumped fee that can be computed: when the first submission fails
    at the broadcast or after it (the broadcast, the confirmation wait or
    the resync query rejects), the orchestrator calls [buildAndSendMint]
    exactly once more, with the bumped fee; that call is handed the next
    nonce, not the first one, and builds its request with it; the
    orchestrator then returns, whatever the second call does.  There is no
    third call. *)
Theorem one_retry_with_bumped_fee_and_fresh_nonce
    (g : Script.Globals) (this : Sniper.MintSniper) (d : Detection) (m : NonceManager)
    (base bumped : Z) :
  same_settings g this ->
  live this ->
  locked m = false ->
  Sniper.getPriorityFee this (feeData d) m = (Returned base, m, []) ->
  Sniper.bumpPriority this base = Resolves bumped ->
  fails_after_build (first d) = true ->
  let fresh := nonce m + 1 in
  let expected r :=
    outcome r = Returned tt /\
    attempts (trace r) = [base; bumped] /\
    allocated (trace r) = [nonce m; fresh] /\
    requests (trace r) = [(nonce m, base); (fresh, bumped)] /\
    broadcasts (trace r) =
      (if rejects (populated (second d)) then [(nonce m, base)]
       else [(nonce m, base); (fresh, bumped)]) in
  fresh <> nonce m /\
  expected (Script.attemptMintWithBump g d m) /\
  expected (Sniper.attemptMint this d m).
Proof.
  intros Hsame Hlive Hfree Hquote Hbump Hfail fresh expected.
  split; [unfold fresh; lia|]. split.
  - eapply retry_Script; eassumption.
  - eapply retry_Sniper; eassumption.
Qed.

(** The node refuses the first broadcast at 50 gwei; the second goes out at
    75 gwei under nonce 8. *)
Lemma one_retry_with_bumped_fee_and_fresh_nonce_witness :
  let d := Samples.detection Samples.refused Samples.confirmed in
  broadcasts (trace (Sniper.attemptMint Samples.sniper d Samples.seven)) =
    [(7, 50000000000); (8, 75000000000)].
Proof.
  apply (one_retry_with_bumped_fee_and_fresh_nonce Samples.script Samples.sniper
           (Samples.detection Samples.refused Samples.confirmed) Samples.seven
           50000000000 75000000000).
  - repeat split.
  - repeat split. eexists. reflexivity.
  - reflexivity.
  - reflexivity.
  - vm_compute. reflexivity.
  - reflexivity.
Defined.

(** C5, as stated, fails for a suggested fee of zero: [!priorityFee] is true
    for [0n], so the function throws where [min(0, ceiling) = 0] was
    promised. *)
Lemma zero_fee_is_refused :
  Script.getPriorityFee Samples.script (Resolves (Some 0)) Samples.seven =
    (Threw (Error_ "Could not get priority fee"), Samples.seven, []) /\
  Sniper.getPriorityFee Samples.sniper (Resolves (Some 0)) Samples.seven =
    (Threw (Error_ "Could not fetch priority fee."), Samples.seven, []) /\
  Z.min 0 (Js.parseUnits 50 gwei) = 0.
Proof. repeat split. Qed.

(** C5, amended.  For every suggested priority fee other than zero,
    [getPriorityFee] returns the smaller of the suggested fee and the ceiling
    (the configured gwei amount in wei), hence never more than the ceiling,
    and has no effect; when no fee is suggested, or the suggested fee is
    zero, or the query fails, it throws. *)
Theorem priority_fee_is_clamped
    (g : Script.Globals) (this : Sniper.MintSniper) (suggested : Z) (m : NonceManager) :
  suggested <> 0 ->
  let ceiling_g := Script.MAX_PRIORITY_FEE_GWEI (Script.constants g) * 10 ^ 9 in
  let ceiling := Sniper.maxPriorityFeeGwei (Sniper.cfg this) * 10 ^ 9 in
  Script.getPriorityFee g (Resolves (Some suggested)) m =
    (Returned (Z.min suggested ceiling_g), m, []) /\
  Sniper.getPriorityFee this (Resolves (Some suggested)) m =
    (Returned (Z.min suggested ceiling), m, []) /\
  Z.min suggested ceiling_g <= ceiling_g /\
  Z.min suggested ceiling <= ceiling /\
  (forall fee, fee_unavailable fee = true ->
     (exists e, Script.getPriorityFee g fee m = (Threw e, m, [])) /\
     (exists e, Sniper.getPriorityFee this fee m = (Threw e, m, []))).
Proof.
  intros Hs ceiling_g ceiling. repeat split.
  - apply Script_getPriorityFee_quoted, Hs.
  - apply Sniper_getPriorityFee_quoted, Hs.
  - lia.
  - lia.
  - apply Script_getPriorityFee_unavailable. assumption.
  - apply Sniper_getPriorityFee_unavailable. assumption.
Qed.

(** 80 gwei suggested, ceiling 50 gwei: 50 gwei. *)
Lemma priority_fee_is_clamped_witness :
  Sniper.getPriorityFee Samples.sniper (Resolves (Some 80000000000)) Samples.seven =
    (Returned 50000000000, Samples.seven, []).
Proof.
  apply (priority_fee_is_clamped Samples.script Samples.sniper 80000000000 Samples.seven).
  lia.
Defined.

(** C6, as stated, fails when the configured factor is below 1: at 0.5 a fee
    of 10 gwei is bumped to 5 gwei, and the retry goes out at 5 gwei. *)
Lemma half_factor_lowers_the_fee :
  Sniper.bumpPriority (sniper_with_factor 0.5) 10000000000 = Resolves 5000000000 /\
  5000000000 < 10000000000 /\
  attempts (trace (Sniper.attemptMint (sniper_with_factor 0.5)
                     (quoted 10000000000 Samples.refused Samples.confirmed)
                     Samples.seven)) = [10000000000; 5000000000] /\
  attempts (trace (Script.attemptMintWithBump (script_with_factor 0.5)
                     (quoted 10000000000 Samples.refused Samples.confirmed)
                     Samples.seven)) = [10000000000; 5000000000].
Proof. repeat split; vm_compute; reflexivity. Qed.

(** C6, amended.  For a configured factor between 1 and [2^20] and a fee
    below [2^52] wei, the bump returns a whole number [c] of gwei, where [c]
    is the product (in binary64) of the fee in gwei and the factor, rounded
    up to an integer; the result is at least the fee; it depends on the fee
    and the factor only, and the script and the class compute the same. *)
Theorem bump_at_least_fee (g : Script.Globals) (this : Sniper.MintSniper) (base : Z) :
  let factor := Sniper.feeBumpFactor (Sniper.cfg this) in
  Script.FEE_BUMP_FACTOR (Script.constants g) = factor ->
  (1 <=? factor)%float = true ->
  (factor <=? 1048576)%float = true ->
  0 <= base < 2 ^ 52 ->
  exists c,
    Sniper.bumpPriority this base = Resolves (c * 10 ^ 9) /\
    bumped_fee (Script.FEE_BUMP_FACTOR (Script.constants g)) base = Resolves (c * 10 ^ 9) /\
    is_ceiling c (Js.mul (Js.formatUnits_Number base gwei) (Prim2SF factor)) /\
    base <= c * 10 ^ 9 /\
    (forall this',
       Sniper.feeBumpFactor (Sniper.cfg this') = factor ->
       Sniper.bumpPriority this' base = Resolves (c * 10 ^ 9)).
Proof.
  intros factor Hg Hlo Hhi Hbase.
  destruct (bumped_fee_above factor base Hlo Hhi Hbase) as (c & Hc & Hle & Hceil).
  exists c. rewrite Hg, bumpPriority_bumped_fee. fold factor.
  repeat split; try assumption.
  intros this' Hsame. rewrite bumpPriority_bumped_fee, Hsame. exact Hc.
Qed.

Lemma bump_at_least_fee_witness :
  exists c,
    Sniper.bumpPriority Samples.sniper 50000000000 = Resolves (c * 10 ^ 9) /\
    50000000000 <= c * 10 ^ 9.
Proof.
  destruct (bump_at_least_fee Samples.script Samples.sniper 50000000000)
    as (c & Hc & _ & _ & Hle & _).
  - reflexivity.
  - reflexivity.
  - reflexivity.
  - vm_compute. split; [discriminate | reflexivity].
  - exists c. split; [exact Hc | exact Hle].
Defined.

(** C7.  [syncIfBehind] / [sync] leaves the counter at the maximum of its
    previous value and the count the chain reports, so it never lowers it,
    whatever the count; the flag is not touched, and a failed query changes
    nothing. *)
Theorem resync_never_lowers_counter (onChainNonce : Z) (m : NonceManager) :
  nonce (syncIfBehind onChainNonce m) = Z.max (nonce m) onChainNonce /\
  nonce m <= nonce (syncIfBehind onChainNonce m) /\
  locked (syncIfBehind onChainNonce m) = locked m /\
  Async.syncIfBehind (Resolves onChainNonce) m =
    (Returned tt, syncIfBehind onChainNonce m, [Count]) /\
  Async.syncIfBehind Rejects m = (Threw (Rejected getTransactionCount), m, [Count]).
Proof.
  pose proof (syncIfBehind_nonce onChainNonce m) as Hn.
  repeat split; [exact Hn | lia | apply syncIfBehind_locked].
Qed.

(** C8.  When no fee can be had (the query rejects, or no priority fee is
    quoted), [attemptMintWithBump] / [attemptMint] throws at once: the
    sequencer is left as it was and no call is made, so no nonce is
    allocated and nothing is submitted. *)
Theorem fee_failure_aborts_before_allocation
    (g : Script.Globals) (this : Sniper.MintSniper) (d : Detection) (m : NonceManager) :
  fee_unavailable (feeData d) = true ->
  (exists e, Script.attemptMintWithBump g d m = (Threw e, m, [])) /\
  (exists e, Sniper.attemptMint this d m = (Threw e, m, [])).
Proof.
  intros H. split.
  - destruct (Script_getPriorityFee_unavailable g _ m H) as [e He].
    exists e. unfold Script.attemptMintWithBump.
    cbv [mbind Run_bind]. rewrite He. reflexivity.
  - destruct (Sniper_getPriorityFee_unavailable this _ m H) as [e He].
    exists e. unfold Sniper.attemptMint.
    cbv [mbind Run_bind]. rewrite He. reflexivity.
Qed.

Lemma fee_failure_aborts_before_allocation_witness :
  (exists e, Script.attemptMintWithBump Samples.script Samples.unquoted Samples.seven =
             (Threw e, Samples.seven, [])) /\
  (exists e, Sniper.attemptMint Samples.sniper Samples.unquoted Samples.seven =
             (Threw e, Samples.seven, [])).
Proof.
  apply (fee_failure_aborts_before_allocation Samples.script Samples.sniper
           Samples.unquoted Samples.seven).
  reflexivity.
Defined.

(** C9, as stated, fails: with [DRY_RUN=1] and no [PRIVATE_KEY], both
    programs exit with code 1 before connecting. *)
Lemma dry_run_without_credential_exits :
  Samples.env_dry_without_key !! "PRIVATE_KEY" = None /\
  Js.truthy (parseInt Decimal.builtins
               (Js.or_else (Samples.env_dry_without_key !! "DRY_RUN") "1")) = true /\
  Js.truthy (Number Decimal.builtins
               (Js.coalesce (Samples.env_dry_without_key !! "DRY_RUN") "1")) = true /\
  Script.main Decimal.builtins Samples.env_dry_without_key true (Resolves 7) = Exited 1 /\
  Sniper.start Decimal.builtins Samples.env_dry_without_key Samples.selector true
    (Resolves 7) = Exited 1.
Proof. repeat split; vm_compute; reflexivity. Qed.

(** C9, amended.  Start-up gets through only if [PRIVATE_KEY] is set, is not
    empty and is not the placeholder, whether dry run is enabled or not; in
    dry-run mode no transaction is ever broadcast. *)
Theorem credential_required_even_in_dry_run
    (js : Builtins) (env : gmap string string) (selector : option string)
    (connected : bool) (count : Reply Z) :
  (forall s, Script.main js env connected count = Ready s ->
     exists key, env !! "PRIVATE_KEY" = Some key /\ key <> "" /\ key <> placeholder) /\
  (forall s, Sniper.start js env selector connected count = Ready s ->
     exists key, env !! "PRIVATE_KEY" = Some key /\ key <> "" /\ key <> placeholder) /\
  (forall g d m, Script.DRY_RUN (Script.constants g) = true ->
     broadcasts (trace (Script.attemptMintWithBump g d m)) = []) /\
  (forall this d m, Sniper.dryRun (Sniper.cfg this) = true ->
     broadcasts (trace (Sniper.attemptMint this d m)) = []).
Proof.
  repeat split.
  - intros s. apply Script_main_needs_key.
  - intros s. apply Sniper_start_needs_key.
  - apply Script_dry_run_never_broadcasts.
  - apply Sniper_dry_run_never_broadcasts.
Qed.

(** With the key set, the dry run starts; the key read back is the one
    configured. *)
Lemma credential_required_even_in_dry_run_witness :
  Sniper.start Decimal.builtins Samples.env_dry Samples.selector true (Resolves 7) =
    Ready (Samples.sniper_dry, NonceManager_new) /\
  (exists key, Samples.env_dry !! "PRIVATE_KEY" = Some key /\ key <> "" /\
               key <> placeholder) /\
  broadcasts (trace (Sniper.attemptMint Samples.sniper_dry
                       (Samples.detection Samples.confirmed Samples.confirmed)
                       NonceManager_new)) = [].
Proof.
  pose proof (credential_required_even_in_dry_run Decimal.builtins Samples.env_dry
                Samples.selector true (Resolves 7)) as (_ & Hkey & _ & Hdry).
  assert (Hstart : Sniper.start Decimal.builtins Samples.env_dry Samples.selector true
                     (Resolves 7) = Ready (Samples.sniper_dry, NonceManager_new))
    by (vm_compute; reflexivity).
  split; [exact Hstart|]. split.
  - exact (Hkey _ Hstart).
  - apply Hdry. reflexivity.
Defined.




(** * Further properties of the code *)

(** X1.  Callers of [getNonce] / [next] resumed in any order, with resyncs
    landing at any point in between: the nonces handed out are strictly
    increasing in the order the flag was acquired, so none is handed out
    twice; each lies between the starting counter and the current one; they
    are the values the callers hold; at most one caller holds the flag. *)
Theorem nonces_increase_across_resyncs (start : Z) (N : nat) (actions : list Action) :
  let s := run_actions actions (issue start N) in
  StronglySorted Z.lt (acquired s) /\
  NoDup (acquired s) /\
  Forall (fun n => start <= n < nonce (manager s)) (acquired s) /\
  omap returned (callers s) ≡ₚ acquired s /\
  (holders s <= 1)%nat.
Proof.
  intros s.
  destruct (run_actions_resync_inv start actions _ (issue_resync_inv start N))
    as [Hflag Hsorted Hrange _ Hret]. fold s in Hflag, Hsorted, Hrange, Hret.
  repeat split; try assumption.
  - apply StronglySorted_lt_NoDup, Hsorted.
  - rewrite Hflag. destruct (locked (manager s)); lia.
Qed.

(** X2.  Once a caller holds the flag, nobody else gets a nonce until that
    caller runs again: whatever the other callers and the resyncs do, the
    callers stay where they are, no nonce is handed out, and the flag stays
    set.  A holder that never reaches [release] blocks every later call for
    good. *)
Theorem unreleased_lock_starves_everyone
    (start : Z) (N : nat) (before after : list Action) (i : nat) (n : Z) :
  let s := run_actions before (issue start N) in
  callers s !! i = Some (Holding n) ->
  Forall (fun a => a <> Resume i) after ->
  let s' := run_actions after s in
  callers s' = callers s /\ acquired s' = acquired s /\ locked (manager s') = true.
Proof.
  intros s Hi Hafter.
  apply (unresumed_holder_blocks start i n after s); try assumption.
  apply run_actions_resync_inv, issue_resync_inv.
Qed.

(** Caller 0 holds nonce 7; callers 1 and 2 poll, a resync lands, they poll
    again: 7 is still the only nonce handed out. *)
Lemma unreleased_lock_starves_everyone_witness :
  acquired (run_actions [Resume 1; Resume 2; Resync 40; Resume 1; Resume 2]%nat
              (run_actions [Resume 0]%nat (issue 7 3))) = [7].
Proof.
  pose proof (unreleased_lock_starves_everyone 7 3 [Resume 0%nat]
                [Resume 1; Resume 2; Resync 40; Resume 1; Resume 2]%nat 0%nat 7) as H.
  cbv zeta in H. destruct H as (_ & Hacq & _).
  - reflexivity.
  - repeat constructor; discriminate.
  - rewrite Hacq. reflexivity.
Defined.

(** X3.  No state reached by resuming callers and landing resyncs is stuck:
    some order of resuming the callers lets every one of the [N] calls
    return, with the flag clear at the end and [N] strictly increasing
    nonces handed out. *)
Theorem reachable_states_can_drain (start : Z) (N : nat) (actions : list Action) :
  exists schedule,
    let s := run_schedule schedule (run_actions actions (issue start N)) in
    Forall (fun c => exists n, c = Finished n) (callers s) /\
    locked (manager s) = false /\
    length (acquired s) = N /\
    StronglySorted Z.lt (acquired s).
Proof.
  set (s0 := run_actions actions (issue start N)).
  assert (Hinv0 : resync_inv start s0)
    by apply run_actions_resync_inv, issue_resync_inv.
  assert (Hlen0 : length (callers s0) = N).
  { unfold s0. rewrite run_actions_callers_length. apply length_replicate. }
  assert (Hfree : exists first, locked (manager (run_schedule first s0)) = false).
  { destruct (locked (manager s0)) eqn:Hl; [|exists []; exact Hl].
    destruct Hinv0 as [Hflag _ _ _ _]. rewrite Hl in Hflag.
    destruct (count_pos is_holding (callers s0)) as (i & c & Hi & Hc);
      [unfold holders in Hflag; lia|].
    destruct c as [|n|n]; try discriminate.
    exists [i]. simpl. unfold resume. rewrite Hi. reflexivity. }
  destruct Hfree as [first Hfree].
  set (s1 := run_schedule first s0) in *.
  assert (Hinv1 : resync_inv start s1) by apply run_schedule_resync_inv, Hinv0.
  destruct (sleepers_can_finish start _ s1 Hinv1 Hfree eq_refl)
    as (rest & Hdone & Hfree').
  exists (first ++ rest). cbv zeta.
  unfold run_schedule at 1 2 3 4. rewrite foldl_app.
  fold (run_schedule first s0). fold s1. fold (run_schedule rest s1).
  assert (Hinv2 : resync_inv start (run_schedule rest s1))
    by apply run_schedule_resync_inv, Hinv1.
  repeat split; try assumption.
  - destruct Hinv2 as [_ _ _ _ Hret].
    rewrite <- Hret, (finished_all_returned _ Hdone).
    rewrite run_schedule_callers_length. unfold s1.
    rewrite run_schedule_callers_length. exact Hlen0.
  - apply Hinv2.
Qed.

(** X4.  A live submission whose four awaited calls resolve: the receipt is
    returned as it came, whatever its status; the flag is held from the
    allocation through the broadcast, the confirmation wait and the
    transaction-count query, and released once at the end; the counter ends
    at the larger of the next nonce and the count the chain reported, and
    that is the nonce the next call is handed.  The script and the class do
    the same. *)
Theorem confirmed_submission_resyncs
    (g : Script.Globals) (this : Sniper.MintSniper) (node : Node) (fee : Z)
    (m : NonceManager) (hash : string) (receipt : option TransactionReceipt) (count : Z) :
  same_settings g this ->
  live this ->
  locked m = false ->
  populated node = Resolves tt ->
  sent node = Resolves hash ->
  waited node = Resolves receipt ->
  counted node = Resolves count ->
  let next := Z.max (nonce m + 1) count in
  let after := {| locked := false; nonce := next |} in
  let events :=
    [Attempt fee; Allocate (nonce m); Populate (nonce m) fee; Send (nonce m) fee;
     Wait; Count; Release] in
  Script.buildAndSendMint g node fee m = (Returned receipt, after, events) /\
  Sniper.buildAndSendMint this node fee m = (Returned receipt, after, events) /\
  Async.getNonce after =
    (Returned next, {| locked := true; nonce := next + 1 |}, [Allocate next]).
Proof.
  intros (_ & _ & Hdry & Hwallet) (Hd & Hw & Hs) Hfree Hp Hsent Hwait Hcount.
  pose proof Hw as Hw'. rewrite <- Hwallet in Hw'.
  destruct m as [l n]. simpl in Hfree. subst l.
  repeat split.
  - unfold_run. rewrite (live_wallet _ Hw'). unfold_run. cbn [locked nonce].
    rewrite Hp, Hdry, Hd, Hsent, Hwait, Hcount. cbn.
    rewrite syncIfBehind_max. reflexivity.
  - unfold_run. rewrite Hs, Hd, (live_wallet _ Hw). cbn [locked nonce].
    rewrite Hp, Hsent, Hwait, Hcount. cbn.
    rewrite syncIfBehind_max. reflexivity.
Qed.

(** Nonce 7 confirmed, 8 transactions on chain: the counter is 8. *)
Lemma confirmed_submission_resyncs_witness :
  Sniper.buildAndSendMint Samples.sniper Samples.confirmed 50000000000 Samples.seven =
    (Returned (Some {| status := Some 1 |}), {| locked := false; nonce := 8 |},
     [Attempt 50000000000; Allocate 7; Populate 7 50000000000; Send 7 50000000000;
      Wait; Count; Release]).
Proof.
  apply (confirmed_submission_resyncs Samples.script Samples.sniper Samples.confirmed
           50000000000 Samples.seven "0x9a3f" (Some {| status := Some 1 |}) 8).
  - repeat split.
  - repeat split. eexists. reflexivity.
  - reflexivity.
  - reflexivity.
  - reflexivity.
  - reflexivity.
  - reflexivity.
Defined.

(** X5.  One call of [buildAndSendMint] entered with the flag clear,
    whatever the dry-run setting and the answers of the node.  When it
    passes its entry guard (the script: a wallet; the class: a selector):
    exactly one nonce is allocated and the counter ends above it; the flag
    is clear at the end exactly when the request could be built, and
    [release] has then been called exactly once, never twice; when the
    build fails it has not been called.  When the guard turns it away (the
    script without a wallet, as in its dry run; the class without a
    selector): it throws, no nonce is allocated, [release] is not called
    and the sequencer is left as it was. *)
Theorem lock_released_iff_request_built
    (g : Script.Globals) (this : Sniper.MintSniper) (node : Node) (fee : Z)
    (m : NonceManager) :
  locked m = false ->
  let settled r :=
    allocated (trace r) = [nonce m] /\
    nonce m < nonce (final r) /\
    locked (final r) = rejects (populated node) /\
    releases (trace r) = (if rejects (populated node) then 0 else 1)%nat in
  let turned_away r :=
    throws r = true /\
    allocated (trace r) = [] /\
    releases (trace r) = 0%nat /\
    final r = m in
  (is_Some (Script.wallet g) -> settled (Script.buildAndSendMint g node fee m)) /\
  (Script.wallet g = None -> turned_away (Script.buildAndSendMint g node fee m)) /\
  (Js.falsy_string (Sniper.mintSelector this) = false ->
   settled (Sniper.buildAndSendMint this node fee m)) /\
  (Js.falsy_string (Sniper.mintSelector this) = true ->
   turned_away (Sniper.buildAndSendMint this node fee m)).
Proof.
  intros Hfree settled turned_away. subst settled turned_away. cbv beta.
  destruct m as [l n]. simpl in Hfree. subst l.
  split; [|split; [|split]].
  - intros Hw. unfold_run. rewrite (live_wallet _ Hw). unfold_run. cbn [locked nonce].
    destruct (Script.DRY_RUN (Script.constants g)), (populated node) as [[]|],
      (sent node), (waited node), (counted node); cbn;
      rewrite ?syncIfBehind_max; cbn; repeat split; lia.
  - intros Hw. unfold throws. unfold_run. rewrite Hw. cbn. repeat split.
  - intros Hs. unfold_run. rewrite Hs. cbn [locked nonce].
    destruct (Sniper.dryRun (Sniper.cfg this)),
      (bool_decide (is_Some (Sniper.wallet this))), (populated node) as [[]|],
      (sent node), (waited node), (counted node); cbn;
      rewrite ?syncIfBehind_max; cbn; repeat split; lia.
  - intros Hs. unfold throws. unfold_run. rewrite Hs. cbn. repeat split.
Qed.

(** The broadcast is accepted and the wait fails: one release, flag clear,
    in both versions.  The script without a wallet, the class without a
    selector: no nonce. *)
Lemma lock_released_iff_request_built_witness :
  let no_selector :=
    {| Sniper.cfg := Samples.config; Sniper.wallet := Some Samples.key;
       Sniper.mintSelector := None |} in
  let settled r := locked (final r) = false /\ releases (trace r) = 1%nat in
  settled (Script.buildAndSendMint Samples.script Samples.wait_fails 50000000000
             Samples.seven) /\
  settled (Sniper.buildAndSendMint Samples.sniper Samples.wait_fails 50000000000
             Samples.seven) /\
  allocated (trace (Script.buildAndSendMint Samples.script_dry Samples.wait_fails
                      50000000000 Samples.seven)) = [] /\
  allocated (trace (Sniper.buildAndSendMint no_selector Samples.wait_fails
                      50000000000 Samples.seven)) = [].
Proof.
  intros no_selector settled.
  destruct (lock_released_iff_request_built Samples.script Samples.sniper
              Samples.wait_fails 50000000000 Samples.seven eq_refl)
    as (Hscript & _ & Hclass & _).
  destruct (lock_released_iff_request_built Samples.script_dry no_selector
              Samples.wait_fails 50000000000 Samples.seven eq_refl)
    as (_ & Hscript_away & _ & Hclass_away).
  split; [|split; [|split]].
  - destruct Hscript as (_ & _ & Hl & Hr); [eexists; reflexivity|].
    split; [exact Hl | exact Hr].
  - destruct Hclass as (_ & _ & Hl & Hr); [reflexivity|].
    split; [exact Hl | exact Hr].
  - destruct Hscript_away as (_ & Ha & _); [reflexivity | exact Ha].
  - destruct Hclass_away as (_ & Ha & _); [reflexivity | exact Ha].
Defined.

(** X6.  Whatever the configuration, the state of the sequencer and the
    answers of the node, one detected call leads to at most two calls of
    [buildAndSendMint]; no call takes more than one nonce, a broadcast is
    never made without a nonce allocated for it, and [release] is never
    called more often than a nonce was allocated. *)
Theorem never_more_than_two_submissions
    (g : Script.Globals) (this : Sniper.MintSniper) (d : Detection) (m : NonceManager) :
  let bounded t :=
    (length (attempts t) <= 2)%nat /\
    (length (allocated t) <= length (attempts t))%nat /\
    (length (broadcasts t) <= length (allocated t))%nat /\
    (releases t <= length (allocated t))%nat in
  bounded (trace (Script.attemptMintWithBump g d m)) /\
  bounded (trace (Sniper.attemptMint this d m)).
Proof.
  intros bounded. subst bounded. cbv beta.
  destruct (Script_attempt_bounds g d m) as (j & Hj & Hj1 & Hj2 & Hj3 & Hj4).
  destruct (Sniper_attempt_bounds this d m) as (k & Hk & Hk1 & Hk2 & Hk3 & Hk4).
  repeat split; lia.
Qed.

(** X7.  With a bump factor above 1 (and at most [2^20]) and a first fee
    below [2^52] wei, the retry is always made at a fee strictly above the
    first one.  In particular, when the suggested fee reaches the
    configured ceiling, the first call is made at the ceiling and the retry
    above it: the ceiling bounds the first fee only. *)
Theorem retry_fee_strictly_higher
    (g : Script.Globals) (this : Sniper.MintSniper) (d : Detection) (m : NonceManager)
    (suggested : Z) :
  let factor := Sniper.feeBumpFactor (Sniper.cfg this) in
  let ceiling := Sniper.maxPriorityFeeGwei (Sniper.cfg this) * 10 ^ 9 in
  let base := Z.min suggested ceiling in
  same_settings g this ->
  live this ->
  locked m = false ->
  feeData d = Resolves (Some suggested) ->
  (1 <? factor)%float = true ->
  (factor <=? 1048576)%float = true ->
  0 < base < 2 ^ 52 ->
  some_call_rejects (first d) = true ->
  exists bumped,
    base < bumped /\
    (ceiling <= suggested -> ceiling < bumped) /\
    attempts (trace (Script.attemptMintWithBump g d m)) = [base; bumped] /\
    attempts (trace (Sniper.attemptMint this d m)) = [base; bumped].
Proof.
  intros factor ceiling base Hsame Hlive Hfree Hfee Hlo Hhi Hbase Hfail.
  destruct (bumped_fee_strictly_above factor base Hlo Hhi Hbase) as (c & Hc & Hlt).
  assert (Hquote : Sniper.getPriorityFee this (feeData d) m = (Returned base, m, [])).
  { rewrite Hfee. apply Sniper_getPriorityFee_quoted. unfold base in Hbase. lia. }
  assert (Hbump : Sniper.bumpPriority this base = Resolves (c * 10 ^ 9))
    by (rewrite bumpPriority_bumped_fee; exact Hc).
  exists (c * 10 ^ 9). split; [exact Hlt|]. split; [unfold base in Hlt; lia|]. split.
  - assert (H : attempts (trace (Script.attemptMintWithBump g d m)) =
                 if some_call_rejects (first d) then [base; c * 10 ^ 9] else [base])
      by (eapply attempts_Script; eassumption).
    rewrite H, Hfail. reflexivity.
  - assert (H : attempts (trace (Sniper.attemptMint this d m)) =
                 if some_call_rejects (first d) then [base; c * 10 ^ 9] else [base])
      by (eapply attempts_Sniper; eassumption).
    rewrite H, Hfail. reflexivity.
Qed.

(** 80 gwei suggested, ceiling 50 gwei, factor 1.5, first broadcast
    refused: the retry goes out above 50 gwei. *)
Lemma retry_fee_strictly_higher_witness :
  exists bumped,
    50000000000 < bumped /\
    attempts (trace (Sniper.attemptMint Samples.sniper
                       (Samples.detection Samples.refused Samples.confirmed)
                       Samples.seven)) = [50000000000; bumped].
Proof.
  destruct (retry_fee_strictly_higher Samples.script Samples.sniper
              (Samples.detection Samples.refused Samples.confirmed) Samples.seven
              80000000000) as (bumped & Hlt & _ & _ & Hattempts).
  - repeat split.
  - repeat split. eexists. reflexivity.
  - reflexivity.
  - reflexivity.
  - reflexivity.
  - reflexivity.
  - vm_compute. split; reflexivity.
  - reflexivity.
  - exists bumped. split; [exact Hlt | exact Hattempts].
Defined.

(** X8.  The script in dry run: [main] leaves [wallet] undefined, so every
    call of [buildAndSendMint] stops at its first guard.  Whatever is
    detected, no nonce is allocated, nothing is released or broadcast, and
    the sequencer stays as it was created, counter [-1]: the dry-run branch
    of the script's [buildAndSendMint] is never reached. *)
Theorem script_dry_run_never_allocates
    (js : Builtins) (env : gmap string string) (connected : bool) (count : Reply Z)
    (g : Script.Globals) (m : NonceManager) (ds : list Detection) :
  Script.main js env connected count = Ready (g, m) ->
  Script.DRY_RUN (Script.constants g) = true ->
  let r := handle_all (Script.attemptMintWithBump g) ds m in
  outcome r = Returned tt /\
  final r = NonceManager_new /\
  allocated (trace r) = [] /\
  broadcasts (trace r) = [] /\
  releases (trace r) = 0%nat.
Proof.
  intros Hmain Hdry.
  destruct (Script_main_dry _ _ _ _ _ _ Hmain Hdry) as [-> Hw].
  apply Script_without_wallet_detections, Hw.
Qed.

(** Three detections in a script dry run: no nonce. *)
Lemma script_dry_run_never_allocates_witness :
  let d := Samples.detection Samples.confirmed Samples.confirmed in
  allocated (trace (handle_all (Script.attemptMintWithBump Samples.script_dry) [d; d; d]
                      NonceManager_new)) = [].
Proof.
  pose (d := Samples.detection Samples.confirmed Samples.confirmed).
  destruct (script_dry_run_never_allocates Decimal.builtins Samples.env_dry true
              (Resolves 7) Samples.script_dry NonceManager_new [d; d; d])
    as (_ & _ & Ha & _).
  - vm_compute. reflexivity.
  - reflexivity.
  - exact Ha.
Defined.

(** X9.  Start-up with broadcasting enabled gets through only if the
    provider connected, the wallet constructor accepted [PRIVATE_KEY] and the
    transaction-count query resolved; the wallet is then built from that
    key, the flag is clear, the counter is the count the chain reported, and
    that count is the first nonce handed out. *)
Theorem live_startup_counts_from_the_chain
    (js : Builtins) (env : gmap string string) (selector : option string)
    (connected : bool) (count : Reply Z) :
  let ready (w : option Wallet) (m : NonceManager) :=
    exists key n,
      env !! "PRIVATE_KEY" = Some key /\ Wallet_accepts js key = true /\
      connected = true /\ count = Resolves n /\
      w = Some key /\ m = {| locked := false; nonce := n |} /\
      Async.getNonce m = (Returned n, {| locked := true; nonce := n + 1 |}, [Allocate n]) in
  (forall g m,
     Script.main js env connected count = Ready (g, m) ->
     Script.DRY_RUN (Script.constants g) = false ->
     ready (Script.wallet g) m) /\
  (forall this m,
     Sniper.start js env selector connected count = Ready (this, m) ->
     Sniper.dryRun (Sniper.cfg this) = false ->
     ready (Sniper.wallet this) m).
Proof.
  intros ready. subst ready. cbv beta. split.
  - intros g m Hmain Hlive.
    destruct (Script_main_live _ _ _ _ _ _ Hmain Hlive)
      as (key & n & Hk & Hacc & Hc & Hn & Hw & ->).
    exists key, n. repeat split; assumption.
  - intros this m Hstart Hlive.
    destruct (Sniper_start_live _ _ _ _ _ _ _ Hstart Hlive)
      as (key & n & Hk & Hacc & Hc & Hn & Hw & ->).
    exists key, n. repeat split; assumption.
Qed.

(** [DRY_RUN=0], 7 transactions on chain: the class starts live, counter
    7. *)
Lemma live_startup_counts_from_the_chain_witness :
  Sniper.start Decimal.builtins env_live Samples.selector true (Resolves 7) =
    Ready (Samples.sniper, Samples.seven) /\
  exists key n,
    env_live !! "PRIVATE_KEY" = Some key /\ Wallet_accepts Decimal.builtins key = true /\
    Sniper.wallet Samples.sniper = Some key /\
    Samples.seven = {| locked := false; nonce := n |}.
Proof.
  assert (Hstart : Sniper.start Decimal.builtins env_live Samples.selector true (Resolves 7) =
                     Ready (Samples.sniper, Samples.seven))
    by (vm_compute; reflexivity).
  split; [exact Hstart|].
  destruct (live_startup_counts_from_the_chain Decimal.builtins env_live Samples.selector
              true (Resolves 7)) as [_ H].
  destruct (H Samples.sniper Samples.seven Hstart eq_refl)
    as (key & n & Hk & Hacc & _ & _ & Hw & Hm & _).
  exists key, n. repeat split; assumption.
Defined.

(** X10.  [DRY_RUN] set to the empty string.  The script reads it with
    [||], falls back to "1" and starts in dry run, without a wallet; the
    class reads it with [??], keeps the empty string, converts it to 0 and
    starts live, with a wallet and the counter taken from the chain. *)
Theorem empty_DRY_RUN_is_read_differently
    (js : Builtins) (env : gmap string string) (selector : option string)
    (connected : bool) (count : Reply Z) :
  env !! "DRY_RUN" = Some "" ->
  Js.truthy (parseInt js "1") = true ->
  Js.truthy (Number js "") = false ->
  (forall g m,
     Script.main js env connected count = Ready (g, m) ->
     Script.DRY_RUN (Script.constants g) = true /\ Script.wallet g = None /\
     m = NonceManager_new) /\
  (forall this m,
     Sniper.start js env selector connected count = Ready (this, m) ->
     Sniper.dryRun (Sniper.cfg this) = false /\ is_Some (Sniper.wallet this) /\
     exists n, count = Resolves n /\ m = {| locked := false; nonce := n |}).
Proof.
  intros Hempty Hone Hzero. split.
  - intros g m Hmain.
    assert (Hdry : Script.DRY_RUN (Script.constants g) = true).
    { revert Hmain. unfold Script.main.
      destruct (Script.load js env) as [c|] eqn:Hload; [|discriminate].
      assert (Hc : Script.DRY_RUN c = true).
      { revert Hload. unfold Script.load.
        destruct (BigInt js (Js.or_else (env !! "MINT_VALUE") "0")); [|discriminate].
        destruct (BigInt js (Js.or_else (env !! "GAS_LIMIT") "500000")); [|discriminate].
        destruct (BigInt js (Js.or_else (env !! "MAX_PRIORITY_FEE_GWEI") "50"));
          [|discriminate].
        cbn.
        intros [= <-]. cbn. rewrite Hempty. exact Hone. }
      repeat match goal with
             | |- context [if ?b then Exited 1 else _] => destruct b; [discriminate|]
             end.
      rewrite Hc. intros [= <- <-]. exact Hc. }
    destruct (Script_main_dry _ _ _ _ _ _ Hmain Hdry) as [-> Hw].
    repeat split; assumption.
  - intros this m Hstart.
    assert (Hlive : Sniper.dryRun (Sniper.cfg this) = false).
    { revert Hstart. unfold Sniper.start.
      destruct (Sniper.buildConfig js env) as [code| |c] eqn:Hcfg; try discriminate.
      assert (Hc : Sniper.dryRun c = false).
      { revert Hcfg. unfold Sniper.buildConfig.
        destruct (existsb _ _); [discriminate|].
        case_bool_decide; [discriminate|].
        destruct (BigInt js _); [|discriminate].
        destruct (BigInt js _); [|discriminate].
        destruct (BigInt js _); [|discriminate].
        intros [= <-]. cbn. rewrite Hempty. exact Hzero. }
      unfold Sniper.bootstrap. rewrite Hc.
      destruct (negb connected); [discriminate|].
      destruct (Wallet_accepts js _); [|discriminate].
      destruct count; [|discriminate].
      intros [= <- <-]. exact Hc. }
    destruct (Sniper_start_live _ _ _ _ _ _ _ Hstart Hlive)
      as (key & n & _ & _ & _ & Hn & Hw & Hm).
    split; [exact Hlive|]. split; [rewrite Hw; eexists; reflexivity|].
    exists n. split; assumption.
Qed.

(** The same environment, [DRY_RUN=]: the script starts in dry run, the
    class live. *)
Lemma empty_DRY_RUN_is_read_differently_witness :
  Script.main builtins_on_empty env_empty_dry_run true (Resolves 7) =
    Ready (Samples.script_dry, NonceManager_new) /\
  Sniper.start builtins_on_empty env_empty_dry_run Samples.selector true (Resolves 7) =
    Ready (Samples.sniper, Samples.seven) /\
  Sniper.dryRun (Sniper.cfg Samples.sniper) = false.
Proof.
  assert (Hstart : Sniper.start builtins_on_empty env_empty_dry_run Samples.selector true
                     (Resolves 7) = Ready (Samples.sniper, Samples.seven))
    by (vm_compute; reflexivity).
  split; [vm_compute; reflexivity|]. split; [exact Hstart|].
  destruct (empty_DRY_RUN_is_read_differently builtins_on_empty env_empty_dry_run
              Samples.selector true (Resolves 7)) as [_ H].
  - reflexivity.
  - vm_compute. reflexivity.
  - vm_compute. reflexivity.
  - apply (H Samples.sniper Samples.seven Hstart).
Defined.

(** X11.  With broadcasting enabled, the same settings, the same target and
    the same selector, the script's listeners and the class's listeners do
    the same on every pending hash and on every block: same calls in the
    same order, same final state of the sequencer, same outcome; and the
    two orchestrators differ at most in the error they throw. *)
Theorem handlers_agree_when_live
    (toLowerCase : string -> string) (MINT_SELECTOR : option string)
    (g : Script.Globals) (this : Sniper.MintSniper) :
  same_settings g this ->
  live this ->
  same_watch MINT_SELECTOR g this ->
  (forall s m,
     Script.handlePending toLowerCase MINT_SELECTOR g s m =
       Sniper.onPending toLowerCase this s m) /\
  (forall block m,
     Script.handleBlock toLowerCase MINT_SELECTOR g block m =
       Sniper.onBlock toLowerCase this block m) /\
  (forall d m,
     same_run (Script.attemptMintWithBump g d m) (Sniper.attemptMint this d m)).
Proof.
  intros Hsame Hlive Hwatch. split; [|split].
  - intros s m. apply pending_agree; assumption.
  - intros block m. apply block_agree; assumption.
  - intros d m. apply attempts_same_run; assumption.
Qed.

(** A pending call of [mint()] on the target, first broadcast refused. *)
Lemma handlers_agree_when_live_witness :
  let s := sighting mint_call (Samples.detection Samples.refused Samples.confirmed) in
  Script.handlePending Text.toLowerCase Samples.selector Samples.script s Samples.seven =
    Sniper.onPending Text.toLowerCase Samples.sniper s Samples.seven.
Proof.
  destruct (handlers_agree_when_live Text.toLowerCase Samples.selector Samples.script
              Samples.sniper) as [H _].
  - repeat split.
  - repeat split. eexists. reflexivity.
  - split; reflexivity.
  - intros s. exact (H s Samples.seven).
Defined.



(** X13.  The pending-transaction listener does something (a call, a change
    of the sequencer, anything but returning at once) only if the lookup of
    the hash returned a transaction sent to the target contract, compared
    without regard to case, whose data starts with the selector of [mint],
    the selector being known and not empty. *)
Theorem attempts_only_on_mint_calls
    (toLowerCase : string -> string) (MINT_SELECTOR : option string)
    (g : Script.Globals) (this : Sniper.MintSniper) (s : Sighting) (m : NonceManager) :
  let seen (target : string) (selector : option string) :=
    exists tx to sel,
      fetched s = Resolves (Some tx) /\ tx_to tx = Some to /\
      toLowerCase to = toLowerCase target /\
      selector = Some sel /\ sel <> "" /\ String.prefix sel (tx_data tx) = true in
  (Script.handlePending toLowerCase MINT_SELECTOR g s m <> (Returned tt, m, []) ->
   seen (default "" (Script.TARGET_CONTRACT (Script.constants g))) MINT_SELECTOR) /\
  (Sniper.onPending toLowerCase this s m <> (Returned tt, m, []) ->
   seen (Sniper.targetContract (Sniper.cfg this)) (Sniper.mintSelector this)).
Proof.
  intros seen. subst seen. cbv beta. split.
  - unfold Script.handlePending, try_catch.
    destruct (fetched s) as [[tx|]|]; rewrite ?fetch_resolves, ?fetch_rejects;
      try (intros H; exfalso; apply H; reflexivity).
    destruct (Js.falsy_string (tx_to tx)) eqn:Hto;
      [intros H; exfalso; apply H; reflexivity|].
    destruct (String.eqb_spec (toLowerCase (default "" (tx_to tx)))
                (toLowerCase (default "" (Script.TARGET_CONTRACT (Script.constants g)))))
      as [Heq|_]; cbn [negb]; [|intros H; exfalso; apply H; reflexivity].
    destruct (String.eqb (tx_data tx) ""); cbn [orb];
      [intros H; exfalso; apply H; reflexivity|].
    destruct (Js.falsy_string MINT_SELECTOR) eqn:Hsel;
      [intros H; exfalso; apply H; reflexivity|].
    destruct (String.prefix (default "" MINT_SELECTOR) (tx_data tx)) eqn:Hpre;
      [|intros H; exfalso; apply H; reflexivity].
    intros _.
    destruct (falsy_string_false _ Hto) as (to & Hto' & _).
    destruct (falsy_string_false _ Hsel) as (sel & Hsel' & Hne).
    exists tx, to, sel. rewrite Hto' in Heq. rewrite Hsel' in Hpre.
    repeat split; assumption.
  - unfold Sniper.onPending, Sniper.handlePending, try_catch.
    destruct (Js.falsy_string (Sniper.mintSelector this)) eqn:Hsel;
      [intros H; exfalso; apply H; reflexivity|].
    destruct (fetched s) as [[tx|]|];
      try (intros H; exfalso; apply H; reflexivity).
    destruct (Js.falsy_string (tx_to tx)) eqn:Hto; cbn [orb];
      [intros H; exfalso; apply H; reflexivity|].
    destruct (String.eqb_spec (toLowerCase (default "" (tx_to tx)))
                (toLowerCase (Sniper.targetContract (Sniper.cfg this))))
      as [Heq|_]; cbn [negb]; [|intros H; exfalso; apply H; reflexivity].
    destruct (String.prefix (default "" (Sniper.mintSelector this)) (tx_data tx)) eqn:Hpre;
      [|intros H; exfalso; apply H; reflexivity].
    intros _.
    destruct (falsy_string_false _ Hto) as (to & Hto' & _).
    destruct (falsy_string_false _ Hsel) as (sel & Hsel' & Hne).
    exists tx, to, sel. rewrite Hto' in Heq. rewrite Hsel' in Hpre.
    repeat split; assumption.
Qed.

(** The sample call of [mint()] sets off an attempt, and is one. *)
Lemma attempts_only_on_mint_calls_witness :
  exists tx to sel,
    tx = mint_call /\ tx_to tx = Some to /\
    Text.toLowerCase to = Text.toLowerCase (Sniper.targetContract Samples.config) /\
    Samples.selector = Some sel /\ String.prefix sel (tx_data tx) = true.
Proof.
  pose (s := sighting mint_call (Samples.detection Samples.confirmed Samples.confirmed)).
  destruct (attempts_only_on_mint_calls Text.toLowerCase Samples.selector Samples.script
              Samples.sniper s Samples.seven) as [_ H].
  destruct H as (tx & to & sel & Hf & Hto & Hlow & Hsel & _ & Hpre).
  - vm_compute. discriminate.
  - injection Hf as <-. exists mint_call, to, sel. repeat split; assumption.
Defined.

(** X14.  Detections handled one after the other, starting with the flag
    clear, each with requests that can be built: whatever else the node
    answers, in dry run or live, every handler returns with the flag clear,
    so the next one is never left waiting; the nonces handed out over the
    whole sequence are strictly increasing, none is used twice, and all lie
    between the starting counter and the final one. *)
Theorem detections_in_sequence_never_reuse_a_nonce
    (g : Script.Globals) (this : Sniper.MintSniper) (ds : list Detection)
    (m : NonceManager) :
  locked m = false ->
  Forall buildable ds ->
  let sound r :=
    outcome r = Returned tt /\
    locked (final r) = false /\
    StronglySorted Z.lt (allocated (trace r)) /\
    Forall (fun k => nonce m <= k < nonce (final r)) (allocated (trace r)) in
  sound (handle_all (Script.attemptMintWithBump g) ds m) /\
  sound (handle_all (Sniper.attemptMint this) ds m).
Proof.
  intros Hl Hds sound. subst sound. cbv beta. split.
  - destruct (handle_all_advances (Script.attemptMintWithBump g) ds
                (Script_attempt_advances g) m Hl Hds) as [(_ & H1 & _ & H2 & H3) Ho].
    repeat split; assumption.
  - destruct (handle_all_advances (Sniper.attemptMint this) ds
                (Sniper_attempt_advances this) m Hl Hds) as [(_ & H1 & _ & H2 & H3) Ho].
    repeat split; assumption.
Qed.

(** A refused broadcast and its retry, a failed wait and its retry, a
    confirmed mint: nonces 7 to 11. *)
Lemma detections_in_sequence_never_reuse_a_nonce_witness :
  allocated (trace (handle_all (Sniper.attemptMint Samples.sniper)
                      [Samples.detection Samples.refused Samples.confirmed;
                       Samples.detection Samples.wait_fails Samples.confirmed;
                       Samples.detection Samples.confirmed Samples.confirmed]
                      Samples.seven)) = [7; 8; 9; 10; 11] /\
  StronglySorted Z.lt [7; 8; 9; 10; 11].
Proof.
  pose (ds := [Samples.detection Samples.refused Samples.confirmed;
               Samples.detection Samples.wait_fails Samples.confirmed;
               Samples.detection Samples.confirmed Samples.confirmed]).
  destruct (detections_in_sequence_never_reuse_a_nonce Samples.script Samples.sniper ds
              Samples.seven) as [_ (_ & _ & Hs & _)].
  - reflexivity.
  - repeat constructor.
  - assert (Ha : allocated (trace (handle_all (Sniper.attemptMint Samples.sniper) ds
                                     Samples.seven)) = [7; 8; 9; 10; 11])
      by (vm_compute; reflexivity).
    rewrite Ha in Hs. split; [exact Ha | exact Hs].
Defined.
